(** * luceneserver build.py: the parallel test harness

    A shallow embedding of [build.py] (the test target of the build
    script: [unescape], [ReadEvents], [RunTestsJVM], [getArg], [getFlag]
    and the test branch of [main]) and the properties of it that the
    design document states.

    Conventions of the embedding.
    - A Python [str] is a Rocq [string] holding its UTF-8 encoding; the
      helpers that depend on character positions ([py_drop], [py_slice],
      [find], [rstrip]) work on whole code points.
    - A Python [bytes] value is a [list byte].
    - Python integers are [Z]; list positions and lengths are [nat].
    - A call that may raise returns a [result]; the loops that wait on the
      child process return an [outcome], which adds the two ways of not
      finishing within the observed window. *)

From Stdlib Require Import Strings.String Strings.Ascii Strings.Byte List ZArith Lia Bool Arith DecimalString Permutation.
Import ListNotations.
Local Open Scope string_scope.
Set Warnings "-register-all".

(** ** Python values and exceptions *)

Module Py.

(** The exceptions the modelled code can raise. *)
Inductive exn : Type :=
| AttributeError (msg : string)
| IndexError (msg : string)
| KeyError (key : string)
| TypeError (msg : string)
| RuntimeError (msg : string)
| UnicodeDecodeError
| JSONDecodeError (msg : string)
| SystemExit (code : Z).

Inductive result (A : Type) : Type :=
| Ok (a : A)
| Raise (e : exn).
Arguments Ok {A} a.
Arguments Raise {A} e.

Definition bind {A B : Type} (r : result A) (k : A -> result B) : result B :=
  match r with
  | Ok a => k a
  | Raise e => Raise e
  end.

Notation "x <- c ;; k" := (bind c (fun x => k))
  (at level 61, c at next level, right associativity).
Notation "' pat <- c ;; k" := (bind c (fun x => match x with pat => k end))
  (at level 61, pat pattern, c at next level, right associativity).

(** The line feed and the tab, as characters and as one-character strings. *)
Definition LF : ascii := "010"%char.
Definition HT : ascii := "009"%char.
Definition nl : string := String LF "".
Definition tab : string := String HT "".

(** [s.startswith(p)] *)
Definition startswith (s p : string) : bool := prefix p s.

(** [s[n:]] on bytes of the representation (see [py_drop] for code points). *)
Fixpoint drop (n : nat) (s : string) : string :=
  match n, s with
  | O, _ => s
  | S _, EmptyString => EmptyString
  | S k, String _ r => drop k r
  end.

(** [sub in s], for a non-empty or empty [sub]. *)
Fixpoint contains (sub s : string) : bool :=
  prefix sub s ||
  match s with
  | EmptyString => false
  | String _ r => contains sub r
  end.

(** [s.endswith(suf)] *)
Fixpoint endswith (s suf : string) : bool :=
  String.eqb s suf ||
  match s with
  | EmptyString => false
  | String _ r => endswith r suf
  end.

(** [s.replace(old, new)] for a non-empty [old]: the occurrences of [old]
    are found from left to right and do not overlap. [skip] counts the
    characters of an occurrence that are still to be passed over. *)
Fixpoint replace_go (old new : string) (skip : nat) (s : string) : string :=
  match s with
  | EmptyString => EmptyString
  | String c r =>
      match skip with
      | S k => replace_go old new k r
      | O =>
          if prefix old s
          then new ++ replace_go old new (String.length old - 1) r
          else String c (replace_go old new 0 r)
      end
  end.

(** With an empty [old] Python puts [new] before every character and at
    the end. *)
Fixpoint intersperse_all (new s : string) : string :=
  match s with
  | EmptyString => new
  | String c r => new ++ String c (intersperse_all new r)
  end.

Definition replace (old new s : string) : string :=
  match old with
  | EmptyString => intersperse_all new s
  | String _ _ => replace_go old new 0 s
  end.

(** [sep.join(l)] *)
Definition join (sep : string) (l : list string) : string := String.concat sep l.

(** ['%d' % n] *)
Definition str_of_Z (n : Z) : string := NilZero.string_of_int (Z.to_int n).

(** *** UTF-8 *)

Definition byte_in (lo hi : N) (b : byte) : bool :=
  (lo <=? Byte.to_N b)%N && (Byte.to_N b <=? hi)%N.

Definition is_cont (b : byte) : bool := byte_in 128 191 b.

(** The second byte a three-byte (resp. four-byte) sequence allows after
    its first byte: no overlong forms, no surrogates, nothing above
    U+10FFFF. *)
Definition second_of_three (b0 b1 : byte) : bool :=
  (byte_in 224 224 b0 && byte_in 160 191 b1) ||
  (byte_in 225 236 b0 && is_cont b1) ||
  (byte_in 237 237 b0 && byte_in 128 159 b1) ||
  (byte_in 238 239 b0 && is_cont b1).

Definition second_of_four (b0 b1 : byte) : bool :=
  (byte_in 240 240 b0 && byte_in 144 191 b1) ||
  (byte_in 241 243 b0 && is_cont b1) ||
  (byte_in 244 244 b0 && byte_in 128 143 b1).

Fixpoint utf8_valid (bs : list byte) : bool :=
  match bs with
  | [] => true
  | b0 :: r0 =>
      if byte_in 0 127 b0 then utf8_valid r0
      else
        match r0 with
        | [] => false
        | b1 :: r1 =>
            if byte_in 194 223 b0 then is_cont b1 && utf8_valid r1
            else
              match r1 with
              | [] => false
              | b2 :: r2 =>
                  if second_of_three b0 b1 then is_cont b2 && utf8_valid r2
                  else
                    match r2 with
                    | [] => false
                    | b3 :: r3 =>
                        second_of_four b0 b1 && is_cont b2 && is_cont b3
                        && utf8_valid r3
                    end
              end
        end
  end.

(** [bs.decode('utf-8')] *)
Definition decode_utf8 (bs : list byte) : result string :=
  if utf8_valid bs then Ok (string_of_list_byte bs) else Raise UnicodeDecodeError.

(** [s.encode('utf-8')] *)
Definition encode_utf8 (s : string) : list byte := list_byte_of_string s.

Definition code (a : ascii) : N := N_of_ascii a.

Definition is_cont_char (a : ascii) : bool :=
  (128 <=? code a)%N && (code a <=? 191)%N.

(** *** Positions counted in code points *)

Fixpoint skip_cont (s : string) : string :=
  match s with
  | EmptyString => EmptyString
  | String c r => if is_cont_char c then skip_cont r else s
  end.

(** [s[n:]] *)
Fixpoint py_drop (n : nat) (s : string) : string :=
  match n with
  | O => s
  | S k =>
      match s with
      | EmptyString => EmptyString
      | String _ r => py_drop k (skip_cont r)
      end
  end.

(** [len(s)] *)
Fixpoint py_len (s : string) : nat :=
  match s with
  | EmptyString => O
  | String c r => (if is_cont_char c then 0 else 1) + py_len r
  end.

(** The continuation bytes at the head of [s]. *)
Fixpoint take_cont (s : string) : string :=
  match s with
  | EmptyString => EmptyString
  | String c r => if is_cont_char c then String c (take_cont r) else EmptyString
  end.

(** [s[:n]] *)
Fixpoint py_take (n : nat) (s : string) : string :=
  match n with
  | O => EmptyString
  | S k =>
      match s with
      | EmptyString => EmptyString
      | String c r => String c (take_cont r ++ py_take k (skip_cont r))
      end
  end.

(** A slice bound [i] of a string of [len] characters, as Python
    normalises it: a negative bound counts from the end, and the result is
    kept within [0 .. len]. *)
Definition slice_bound (len : nat) (i : Z) : nat :=
  let i' := if (i <? 0)%Z then (i + Z.of_nat len)%Z else i in
  Nat.min len (Z.to_nat i').

(** [s[a:b]] *)
Definition py_slice (a b : Z) (s : string) : string :=
  let len := py_len s in
  let a' := slice_bound len a in
  let b' := slice_bound len b in
  py_take (b' - a') (py_drop a' s).

(** [s.find(sub)]: the position of the first occurrence, [-1] if none. *)
Fixpoint find_go (sub s : string) (idx : Z) : Z :=
  if prefix sub s then idx
  else
    match s with
    | EmptyString => (-1)%Z
    | String c r => find_go sub r (if is_cont_char c then idx else idx + 1)%Z
    end.

Definition find (s sub : string) : Z := find_go sub s 0.

(** *** [s.rstrip()] *)

(** The white space of [str.isspace]: U+0009..U+000D, U+001C..U+0020,
    U+0085, U+00A0, U+1680, U+2000..U+200A, U+2028, U+2029, U+202F, U+205F
    and U+3000, recognised on the reversed encoding. *)
Definition ws1 (a : ascii) : bool :=
  ((9 <=? code a)%N && (code a <=? 13)%N) || ((28 <=? code a)%N && (code a <=? 32)%N).

Definition ws2 (lead a : ascii) : bool :=
  (code lead =? 194)%N && ((code a =? 133)%N || (code a =? 160)%N).

Definition ws3 (lead mid a : ascii) : bool :=
  ((code lead =? 225)%N && (code mid =? 154)%N && (code a =? 128)%N) ||
  ((code lead =? 226)%N && (code mid =? 128)%N &&
     (((128 <=? code a)%N && (code a <=? 138)%N) ||
      (code a =? 168)%N || (code a =? 169)%N || (code a =? 175)%N)) ||
  ((code lead =? 226)%N && (code mid =? 129)%N && (code a =? 159)%N) ||
  ((code lead =? 227)%N && (code mid =? 128)%N && (code a =? 128)%N).

Fixpoint strip_rev (l : list ascii) : list ascii :=
  match l with
  | [] => []
  | a :: r1 =>
      if ws1 a then strip_rev r1
      else
        match r1 with
        | b :: r2 =>
            if ws2 b a then strip_rev r2
            else
              match r2 with
              | c :: r3 => if ws3 c b a then strip_rev r3 else l
              | [] => l
              end
        | [] => l
        end
  end.

Definition rstrip (s : string) : string :=
  string_of_list_ascii (rev (strip_rev (rev (list_ascii_of_string s)))).

End Py.
Import Py.

(** ** [unescape] (build.py, line 57) *)

Definition unescape (s : string) : string :=
  replace "%09" tab (replace "%0A" nl s).

(** What the design document says [unescape] computes, as one pass over
    the text: [%0A] becomes a line feed, [%09] becomes a tab, every other
    character is kept. *)
Fixpoint unescape_one_pass (s : string) : string :=
  match s with
  | EmptyString => EmptyString
  | String c r =>
      match r with
      | String d (String e r') =>
          if Ascii.eqb c "%" && Ascii.eqb d "0" && Ascii.eqb e "A"
          then String LF (unescape_one_pass r')
          else if Ascii.eqb c "%" && Ascii.eqb d "0" && Ascii.eqb e "9"
          then String HT (unescape_one_pass r')
          else String c (unescape_one_pass r)
      | _ => String c (unescape_one_pass r)
      end
  end.


(** ** What [json.loads] returns *)

Module Json.

Inductive json : Type :=
| JNull
| JBool (b : bool)
| JInt (n : Z)
| JFloat (repr : string)
| JStr (s : string)
| JList (l : list json)
| JDict (d : list (string * json)).

Fixpoint lookup (k : string) (d : list (string * json)) : option json :=
  match d with
  | [] => None
  | (k', v) :: r => if String.eqb k k' then Some v else lookup k r
  end.

(** [v == s] for a string literal [s]. *)
Definition is_str (v : json) (s : string) : bool :=
  match v with
  | JStr s' => String.eqb s' s
  | _ => false
  end.

(** [v in (s1, s2, ...)] for a tuple of string literals. *)
Definition in_strs (v : json) (l : list string) : bool := existsb (is_str v) l.

(** [l[i]] on a Python list. *)
Definition list_getitem {A : Type} (l : list A) (i : nat) : result A :=
  match nth_error l i with
  | Some x => Ok x
  | None => Raise (IndexError "list index out of range")
  end.

(** [v[i]] for an integer literal [i]. *)
Definition getitem_int (v : json) (i : nat) : result json :=
  match v with
  | JList l => list_getitem l i
  | JStr s =>
      match py_take 1 (py_drop i s) with
      | EmptyString => Raise (IndexError "string index out of range")
      | c => Ok (JStr c)
      end
  | JDict _ => Raise (KeyError (str_of_Z (Z.of_nat i)))
  | _ => Raise (TypeError "object is not subscriptable")
  end.

(** [v[k]] for a string literal [k]. *)
Definition getitem_str (v : json) (k : string) : result json :=
  match v with
  | JDict d =>
      match lookup k d with
      | Some x => Ok x
      | None => Raise (KeyError k)
      end
  | JList _ => Raise (TypeError "list indices must be integers or slices, not str")
  | JStr _ => Raise (TypeError "string indices must be integers, not 'str'")
  | _ => Raise (TypeError "object is not subscriptable")
  end.

(** [k in v] for a string literal [k]. *)
Definition contains_str (k : string) (v : json) : result bool :=
  match v with
  | JDict d => Ok (match lookup k d with Some _ => true | None => false end)
  | JList l => Ok (existsb (fun x => is_str x k) l)
  | JStr s => Ok (contains k s)
  | _ => Raise (TypeError "argument is not iterable")
  end.

(** The receiver of a [str] method ([v.replace], [v.find]): only a string
    has the attribute. *)
Definition str_method (v : json) (name : string) : result string :=
  match v with
  | JStr s => Ok s
  | _ => Raise (AttributeError ("object has no attribute '" ++ name ++ "'"))
  end.

End Json.
Import Json.

(** ** The worker and its child process *)

Definition TEST_HEAP : string := "512m".

(** The fields of a [RunTestsJVM] object, but for [jobs]: of the shared
    queue a worker only sees the results of its own [jobs.get()] calls,
    which [run] takes as an argument. *)
Record RunTestsJVM : Type := mkJVM {
  id : Z;
  classPath : list string;
  verbose : bool;
  seed : option string;
  testMethod : option string;
  testCount : Z;
  suiteCount : Z;
  failCount : Z;
  doPrintOutput : bool
}.

(** [RunTestsJVM.__init__] *)
Definition RunTestsJVM_init (id : Z) (classPath : list string) (verbose : bool)
    (seed : option string) (doPrintOutput : bool) (testMethod : option string)
    : RunTestsJVM :=
  mkJVM id classPath verbose seed testMethod 0 0 0 doPrintOutput.

Definition set_testCount (n : Z) (j : RunTestsJVM) : RunTestsJVM :=
  mkJVM (id j) (classPath j) (verbose j) (seed j) (testMethod j)
        n (suiteCount j) (failCount j) (doPrintOutput j).
Definition set_suiteCount (n : Z) (j : RunTestsJVM) : RunTestsJVM :=
  mkJVM (id j) (classPath j) (verbose j) (seed j) (testMethod j)
        (testCount j) n (failCount j) (doPrintOutput j).
Definition set_failCount (n : Z) (j : RunTestsJVM) : RunTestsJVM :=
  mkJVM (id j) (classPath j) (verbose j) (seed j) (testMethod j)
        (testCount j) (suiteCount j) n (doPrintOutput j).

(** ['build/test/%d.events' % self.id] (line 98) *)
Definition eventsFile (self : RunTestsJVM) : string :=
  "build/test/" ++ str_of_Z (id self) ++ ".events".

(** The command line of the child process (lines 76 to 105). *)
Definition build_cmd (self : RunTestsJVM) : list string :=
  (["java"; ("-Xmx" ++ TEST_HEAP)%string; "-cp"; join ":" (classPath self)]
   ++ (if verbose self then ["-Dtests.verbose=true"] else [])
   ++ ["-Djava.util.logging.config=lib/logging.properties"; "-DtempDir=build/temp"]
   ++ match seed self with
      | Some s => [("-Dtests.seed=" ++ s)%string]
      | None => []
      end
   ++ match testMethod self with
      | Some m => [("-Dtests.method=" ++ m)%string]
      | None => []
      end
   ++ (if verbose self then ["-Dtests.verbose=true"] else [])
   ++ ["-ea"; "-esa"; "com.carrotsearch.ant.tasks.junit4.slave.SlaveMainSafe"]
   ++ ["-eventsfile"; eventsFile self]
   ++ ["-flush"; "-stdin"])%list.

(** One [time.sleep(.01)] of the worker, seen from outside: what the child
    appended to its events file meanwhile ([None]: it did not touch the
    file) and what [process.poll()] answers afterwards. *)
Record tick : Type := mkTick {
  written : option (list byte);
  status : option Z
}.

(** The part of the outside world one worker deals with: the file at its
    events path ([None]: no such file), the ticks still to come, the
    command line the child was started with and what was written to the
    child's standard input. *)
Record World : Type := mkWorld {
  events_file : option (list byte);
  ticks : list tick;
  child_cmd : option (list string);
  child_stdin : list (list byte)
}.

(** The state a worker thread acts on: its own object, the world, the
    offset of [events.f], and what this worker printed through [message].
    [frames] is a history variable: the frames handed to the dispatch of
    [run] so far. The code has no such variable and no definition below
    reads it; properties use it to speak of the frames of a job. *)
Record St : Type := mkSt {
  self : RunTestsJVM;
  world : World;
  offset : nat;
  console : list string;
  frames : list json
}.

Definition set_self (j : RunTestsJVM) (s : St) : St :=
  mkSt j (world s) (offset s) (console s) (frames s).
Definition set_world (w : World) (s : St) : St :=
  mkSt (self s) w (offset s) (console s) (frames s).
Definition set_offset (n : nat) (s : St) : St :=
  mkSt (self s) (world s) n (console s) (frames s).
Definition set_console (c : list string) (s : St) : St :=
  mkSt (self s) (world s) (offset s) c (frames s).
Definition set_frames (f : list json) (s : St) : St :=
  mkSt (self s) (world s) (offset s) (console s) f.

(** How a waiting computation ends: with a value, with an exception, still
    polling when the observed ticks are used up, or with the loop bound
    [fuel] of the model used up. *)
Inductive outcome (A : Type) : Type :=
| Done (a : A)
| Fail (e : exn)
| Blocked
| OutOfFuel.
Arguments Done {A} a.
Arguments Fail {A} e.
Arguments Blocked {A}.
Arguments OutOfFuel {A}.

(** Computations of a worker: the state is kept when an exception is
    raised, as the fields of the thread object are. *)
Definition M (A : Type) : Type := St -> outcome A * St.

Definition ret {A : Type} (a : A) : M A := fun s => (Done a, s).

Definition mbind {A B : Type} (c : M A) (k : A -> M B) : M B :=
  fun s =>
    match c s with
    | (Done a, s') => k a s'
    | (Fail e, s') => (Fail e, s')
    | (Blocked, s') => (Blocked, s')
    | (OutOfFuel, s') => (OutOfFuel, s')
    end.

Definition lift {A : Type} (r : result A) : M A :=
  fun s =>
    match r with
    | Ok a => (Done a, s)
    | Raise e => (Fail e, s)
    end.

Definition modify (f : St -> St) : M unit := fun s => (Done tt, f s).

Notation "x <~ c ;; k" := (mbind c (fun x => k))
  (at level 61, c at next level, right associativity).
Notation "c ;;; k" := (mbind c (fun _ => k))
  (at level 61, right associativity).

(** [message(s)] (line 53): the lock only orders the prints of different
    workers. *)
Definition message (text : string) : M unit :=
  modify (fun s => set_console (console s ++ [text])%list s).

Definition gets {A : Type} (f : St -> A) : M A := fun s => (Done (f s), s).

(** ** [ReadEvents] (lines 172 to 206) *)

Definition content (w : World) : list byte :=
  match events_file w with
  | Some b => b
  | None => []
  end.

Definition appended (t : tick) : list byte :=
  match written t with
  | Some bs => bs
  | None => []
  end.

Definition apply_written (t : tick) (file : option (list byte)) : option (list byte) :=
  match written t, file with
  | None, _ => file
  | Some bs, Some b => Some (b ++ bs)%list
  | Some bs, None => Some bs
  end.

(** [f.readline()] of a binary file: the bytes up to and including the
    next line feed, or up to the end of the file. *)
Fixpoint take_line (bs : list byte) : list byte :=
  match bs with
  | [] => []
  | b :: r => if Byte.eqb b x0a then [b] else b :: take_line r
  end.

Definition file_readline (file : list byte) (pos : nat) : list byte :=
  take_line (skipn pos file).

(** [ReadEvents.__init__]: try to open the file until it exists. *)
Fixpoint open_go (tk : list tick) (file : option (list byte))
    : outcome unit * (list tick * option (list byte)) :=
  match file with
  | Some _ => (Done tt, (tk, file))
  | None =>
      match tk with
      | [] => (Blocked, (tk, file))
      | t :: tk' => open_go tk' (apply_written t file)
      end
  end.

Definition ReadEvents_init : M unit :=
  fun s =>
    let w := world s in
    let '(r, (tk, file)) := open_go (ticks w) (events_file w) in
    (r, set_offset 0 (set_world (mkWorld file tk (child_cmd w) (child_stdin w)) s)).

(** [ReadEvents.readline] (line 186), on the ticks, the bytes of the file
    and the offset [pos] saved by [self.f.tell()]. The last component of
    the result is the offset of the file object afterwards. *)
Fixpoint readline_go (tk : list tick) (file : list byte) (pos : nat)
    : outcome string * (list tick * list byte * nat) :=
  let raw := file_readline file pos in
  match decode_utf8 raw with
  | Raise e => (Fail e, (tk, file, pos + List.length raw))
  | Ok l =>
      if String.eqb l "" || negb (endswith l nl) then
        match tk with
        | [] => (Blocked, (tk, file, pos + List.length raw))
        | t :: tk' =>
            let file' := (file ++ appended t)%list in
            match status t with
            | Some p =>
                (Fail (RuntimeError ("process exited with status " ++ str_of_Z p)),
                 (tk', file', pos + List.length raw))
            | None => readline_go tk' file' pos
            end
        end
      else (Done l, (tk, file, pos + List.length raw))
  end.

Definition readline : M string :=
  fun s =>
    let w := world s in
    let '(r, (tk, file, pos)) := readline_go (ticks w) (content w) (offset s) in
    (r, set_offset pos (set_world (mkWorld (Some file) tk (child_cmd w) (child_stdin w)) s)).

Definition DQ : ascii := "034"%char.

(** The text ["IDLE",] with its quotes. *)
Definition IDLE_mark : string := String DQ ("IDLE" ++ String DQ ",").

(** [ReadEvents.waitIdle] (line 199); [lines] is its local list. *)
Fixpoint waitIdle_loop (fuel : nat) (lines : list string) : M (list string) :=
  match fuel with
  | O => fun s => (OutOfFuel, s)
  | S fuel' =>
      l <~ readline ;;
      if negb (find l IDLE_mark =? -1)%Z then ret lines
      else waitIdle_loop fuel' (lines ++ [l])%list
  end.

Definition waitIdle (fuel : nat) : M (list string) := waitIdle_loop fuel [].

(** ** [RunTestsJVM.run] (lines 75 to 170) *)

(** The local variables of the job loop. *)
Record Locals : Type := mkLocals {
  lines : list string;
  pendingOutput : list string;
  didFail : bool;
  testCaseFailed : bool;
  testCaseName : option string
}.

(** Lines 124 to 130. *)
Definition fresh_locals : Locals := mkLocals [] [] false false None.

Definition set_lines (l : list string) (loc : Locals) : Locals :=
  mkLocals l (pendingOutput loc) (didFail loc) (testCaseFailed loc) (testCaseName loc).

Inductive ctl : Type := Continue | Break.

Section Harness.

(** Two library functions are taken as they are: [json.loads], which
    gives a value or raises, and the built-in [str] on a value that is not
    a string, as the [%s] of a format applies it. *)
Variable json_loads : string -> result json.
Variable py_str : json -> string.

(** ['%s' % v] *)
Definition format_s (v : json) : string :=
  match v with
  | JStr s => s
  | _ => py_str v
  end.

(** ['%s' % testCaseName], where the variable holds [None] or a string. *)
Definition format_name (n : option string) : string :=
  match n with
  | Some s => s
  | None => "None"
  end.

(** The branches on [event[0]] (lines 141 to 167). *)
Definition dispatch (job : string) (event : json) (loc : Locals) : M (ctl * Locals) :=
  kind <~ lift (getitem_int event 0) ;;
  if in_strs kind ["APPEND_STDOUT"; "APPEND_STDERR"] then
    raw <~ lift (p <- getitem_int event 1 ;; c <- getitem_str p "chunk" ;;
                 str_method c "replace") ;;
    let chunk := unescape raw in
    echo <~ gets (fun s => testCaseFailed loc || doPrintOutput (self s)) ;;
    if echo then
      message chunk ;;; ret (Continue, loc)
    else
      ret (Continue,
           mkLocals (lines loc) (pendingOutput loc ++ [chunk])%list (didFail loc)
                    (testCaseFailed loc) (testCaseName loc))
  else if in_strs kind ["TEST_FAILURE"; "SUITE_FAILURE"] then
    details <~ lift (p <- getitem_int event 1 ;; getitem_str p "failure") ;;
    let s0 := nl ++ "!! " ++ py_drop 25 job ++ "." ++ format_name (testCaseName loc)
              ++ " FAILED !!:" ++ nl ++ nl in
    let s1 := s0 ++ join "" (pendingOutput loc) in
    has <~ lift (contains_str "message" details) ;;
    s2 <~ (if has : bool
           then m <~ lift (getitem_str details "message") ;;
                ret (s1 ++ nl ++ format_s m ++ nl)
           else ret s1) ;;
    t <~ lift (getitem_str details "trace") ;;
    message (s2 ++ nl ++ format_s t) ;;;
    (if didFail loc then ret tt
     else modify (fun s => set_self (set_failCount (failCount (self s) + 1) (self s)) s)) ;;;
    ret (Continue,
         mkLocals (lines loc) (pendingOutput loc) true true (testCaseName loc))
  else if is_str kind "TEST_STARTED" then
    modify (fun s => set_self (set_testCount (testCount (self s) + 1) (self s)) s) ;;;
    d <~ lift (p <- getitem_int event 1 ;; getitem_str p "description") ;;
    name <~ lift (str_method d "find") ;;
    let i := find name "#" in
    let j := find name "(" in
    ret (Continue,
         mkLocals (lines loc) (pendingOutput loc) (didFail loc) false
                  (Some (py_slice (i + 1) j name)))
  else if is_str kind "IDLE" then
    ret (Break, loc)
  else
    ret (Continue, loc).

(** The inner loop (lines 132 to 170). *)
Fixpoint job_loop (fuel : nat) (job : string) (loc : Locals) : M unit :=
  match fuel with
  | O => fun s => (OutOfFuel, s)
  | S fuel' =>
      l <~ readline ;;
      let l := rstrip l in
      if String.eqb l "]" then
        let lines' := (lines loc ++ [l])%list in
        second <~ lift (list_getitem lines' 1) ;;
        if String.eqb second "[" then
          event <~ lift (json_loads (join nl lines')) ;;
          modify (fun s => set_frames (frames s ++ [event])%list s) ;;;
          r <~ dispatch job event (set_lines lines' loc) ;;
          match r with
          | (Break, _) => ret tt
          | (Continue, loc') => job_loop fuel' job (set_lines [] loc')
          end
        else job_loop fuel' job (set_lines [] loc)
      else job_loop fuel' job (set_lines (lines loc ++ [l])%list loc)
  end.

(** [p.stdin.write(data)] and [p.stdin.flush()] *)
Definition stdin_write (data : list byte) : M unit :=
  modify (fun s =>
    let w := world s in
    set_world (mkWorld (events_file w) (ticks w) (child_cmd w)
                       (child_stdin w ++ [data])%list) s).

(** The body of the outer loop for a job that is not [None] (lines 118 to
    170). *)
Definition run_job (fuel : nat) (job : string) : M unit :=
  modify (fun s => set_self (set_suiteCount (suiteCount (self s) + 1) (self s)) s) ;;;
  message (py_drop 25 job ++ "...") ;;;
  stdin_write (encode_utf8 (job ++ nl)) ;;;
  job_loop fuel job fresh_locals.

(** The outer loop (line 113) on the results of this worker's calls of
    [self.jobs.get()]; on an empty queue [get] blocks. *)
Fixpoint run_jobs (fuel : nat) (jobs : list (option string)) : M unit :=
  match jobs with
  | [] => fun s => (Blocked, s)
  | None :: _ => ret tt
  | Some job :: rest => run_job fuel job ;;; run_jobs fuel rest
  end.

(** Lines 99 and 100: remove a file left at the events path. *)
Definition remove_eventsFile : M unit :=
  modify (fun s =>
    let w := world s in
    set_world (mkWorld None (ticks w) (child_cmd w) (child_stdin w)) s).

(** [subprocess.Popen(cmd, ...)] *)
Definition Popen (cmd : list string) : M unit :=
  modify (fun s =>
    let w := world s in
    set_world (mkWorld (events_file w) (ticks w) (Some cmd) (child_stdin w)) s).

Definition run (fuel : nat) (jobs : list (option string)) : M unit :=
  cmd <~ gets (fun s => build_cmd (self s)) ;;
  remove_eventsFile ;;;
  Popen cmd ;;;
  ReadEvents_init ;;;
  waitIdle fuel ;;;
  run_jobs fuel jobs.

End Harness.

(** ** The command line ([getArg], [getFlag], lines 299 to 315) *)

(** [sys.argv.indexOf(option)]: a Python list has no attribute of this
    name, so evaluating the call raises. *)
Definition list_indexOf (l : list string) (x : string) : result nat :=
  Raise (AttributeError "'list' object has no attribute 'indexOf'").

(** [getArg(option)], giving the value returned and [sys.argv] afterwards. *)
Definition getArg (opt : string) (argv : list string)
    : result (option string * list string) :=
  if existsb (String.eqb opt) argv then
    i <- list_indexOf argv opt ;;
    if (List.length argv <? i + 2)%nat
    then Raise (RuntimeError ("command line option " ++ opt ++ " requires an argument"))
    else
      value <- list_getitem argv (i + 1) ;;
      Ok (Some value, (firstn i argv ++ skipn (i + 2) argv)%list)
  else Ok (None, argv).

(** [l.remove(x)]: the first occurrence goes. *)
Fixpoint list_remove (x : string) (l : list string) : list string :=
  match l with
  | [] => []
  | y :: r => if String.eqb x y then r else y :: list_remove x r
  end.

Definition getFlag (opt : string) (argv : list string) : bool * list string :=
  if existsb (String.eqb opt) argv then (true, list_remove opt argv)
  else (false, argv).

(** ** The test target of [main] (lines 388 to 500) *)

(** [s.split(sep)] for a separator of one character. *)
Fixpoint split_char (sep : ascii) (s : string) : list string :=
  match s with
  | EmptyString => [EmptyString]
  | String c r =>
      if Ascii.eqb c sep then EmptyString :: split_char sep r
      else
        match split_char sep r with
        | h :: t => String c h :: t
        | [] => [String c EmptyString]
        end
  end.

(** Lines 414 to 434: the test name fragment and method, and [upto]
    afterwards. *)
Definition parse_selection (upto : nat) (argv : list string)
    : result (option string * option string * nat) :=
  if (upto =? List.length argv)%nat then Ok (None, None, upto)
  else if (Z.of_nat upto =? Z.of_nat (List.length argv) - 1)%Z then
    testSubString <- list_getitem argv upto ;;
    if negb (String.eqb testSubString "package") then
      if contains "." testSubString then
        let parts := split_char "." testSubString in
        if negb (List.length parts =? 2)%nat
        then Raise (RuntimeError
                      "test fragment should be either TestFoo or TessFoo.testMethod")
        else
          p0 <- list_getitem parts 0 ;;
          p1 <- list_getitem parts 1 ;;
          Ok (Some p0, Some p1, upto + 1)
      else Ok (Some testSubString, None, upto + 1)
    else Ok (None, None, upto)
  else Raise (RuntimeError "at most one test substring can be specified").

(** Lines 438 to 445, for the file names of one directory. *)
Fixpoint scan_files (root : string) (fileNames : list string)
    (testSubString : option string) (testClasses : list string)
    : result (list string) :=
  match fileNames with
  | [] => Ok testClasses
  | fileName :: rest =>
      if startswith fileName "Test" && endswith fileName ".class"
         && negb (contains "$" fileName)
      then
        let fullPath := root ++ "/" ++ fileName in
        if match testSubString with
           | None => true
           | Some sub => contains sub fullPath
           end
        then
          let className := replace "/" "." (py_slice 19 (-6) fullPath) in
          match testSubString, testClasses with
          | Some sub, [first] =>
              Raise (RuntimeError
                       ("test name fragment " ++ String DQ (sub ++ String DQ
                        (" is ambiguous, matching at least " ++ first ++ " and "
                         ++ className))))
          | _, _ => scan_files root rest testSubString (testClasses ++ [className])%list
          end
        else scan_files root rest testSubString testClasses
      else scan_files root rest testSubString testClasses
  end.

(** Lines 436 to 445, on what [os.walk('build/classes/test')] yields: each
    directory with its file names. *)
Fixpoint discover (walk : list (string * list string))
    (testSubString : option string) (testClasses : list string)
    : result (list string) :=
  match walk with
  | [] => Ok testClasses
  | (root, fileNames) :: rest =>
      found <- scan_files root fileNames testSubString testClasses ;;
      discover rest testSubString found
  end.

(** Lines 447 to 451. *)
Definition require_tests (testSubString : option string) (testClasses : list string)
    : result unit :=
  if (List.length testClasses =? 0)%nat then
    match testSubString with
    | None => Raise (RuntimeError "no tests found (wtf?)")
    | Some sub =>
        Raise (RuntimeError ("no tests match substring " ++ String DQ (sub ++ String DQ "")))
    end
  else Ok tt.

(** Lines 470 to 474: the workers as [main] creates them. *)
Definition spawn_jvms (jvmCount : nat) (testCP : list string) (verbose : bool)
    (printOutput : bool) (testMethod : option string) : list RunTestsJVM :=
  map (fun i : nat => RunTestsJVM_init 0 testCP verbose None printOutput testMethod)
      (seq 0 jvmCount).

(** Lines 476 to 480: what [main] puts on the queue. *)
Definition queue_contents (testClasses : list string) (jvmCount : nat)
    : list (option string) :=
  (map Some testClasses ++ repeat None jvmCount)%list.

(** Lines 482 to 489: the sums over the joined workers. *)
Definition total (f : RunTestsJVM -> Z) (jvms : list RunTestsJVM) : Z :=
  fold_left (fun acc jvm => (acc + f jvm)%Z) jvms 0%Z.

(** Lines 493 to 500: the line printed and the [sys.exit] code, if any.
    [elapsed] is ['%.1f' % totalSec]. *)
Definition report (failCount testCount suiteCount : Z) (elapsed : string)
    : string * option Z :=
  if (failCount >? 0)%Z then
    (nl ++ "FAILURE [" ++ str_of_Z failCount ++ " of " ++ str_of_Z testCount
        ++ " test cases in " ++ str_of_Z suiteCount ++ " suites failed in "
        ++ elapsed ++ " sec]",
     Some 1%Z)
  else if (testCount =? 0)%Z then
    (nl ++ "FAILURE: no tests ran!", None)
  else
    (nl ++ "SUCCESS [" ++ str_of_Z testCount ++ " test cases in "
        ++ str_of_Z suiteCount ++ " suites in " ++ elapsed ++ " sec]",
     Some 0%Z).

(** What [main] takes from outside. Each field is indexed by the value
    [upto] has when the target starts.
    - [prepare]: lines 396 to 412 (building and fetching), which give the
      class path of the tests or raise;
    - [walk]: what [os.walk('build/classes/test')] yields;
    - [cpu_count]: [multiprocessing.cpu_count()];
    - [pool]: the worker objects once every thread is joined, given the
      objects as created and the contents of the queue;
    - [elapsed]: ['%.1f' % totalSec];
    - [other]: the targets [clean], [cleanlucene] and [package]. *)
Record Env : Type := mkEnv {
  prepare : nat -> result (list string);
  walk : nat -> list (string * list string);
  cpu_count : nat;
  pool : nat -> list RunTestsJVM -> list (option string) -> list RunTestsJVM;
  elapsed : nat -> string;
  other : string -> nat -> result unit
}.

(** The workers [main] creates for a command line, before they run. *)
Record Plan : Type := mkPlan {
  plan_upto : nat;
  plan_argv : list string;
  plan_subString : option string;
  plan_classes : list string;
  plan_jvmCount : nat;
  plan_jvms : list RunTestsJVM
}.

(** Lines 390 to 474 without the prints. [upto] is already incremented. *)
Definition plan_tests (env : Env) (what : string) (upto : nat) (argv : list string)
    : result Plan :=
  let at_ := upto in
  let upto := if startswith what "Test" then (upto - 1)%nat else upto in
  '(seed, argv) <- getArg "-seed" argv ;;
  let '(verbose, argv) := getFlag "-verbose" argv in
  testCP <- prepare env at_ ;;
  '(testSubString, testMethod, upto) <- parse_selection upto argv ;;
  testClasses <- discover (walk env at_) testSubString [] ;;
  _ <- require_tests testSubString testClasses ;;
  let jvmCount := Nat.min (cpu_count env) (List.length testClasses) in
  let printOutput := match testSubString with Some _ => true | None => false end in
  Ok (mkPlan upto argv testSubString testClasses jvmCount
             (spawn_jvms jvmCount testCP verbose printOutput testMethod)).

(** The test target. The first component is what lines 453 to 500 print
    (the banner and the report), not what the build steps of lines 396 to
    412 print before them, of which [prepare] gives the result only, nor
    what the workers print. The second is how the target ends, with
    [upto] and [sys.argv] when it falls through to the next target. *)
Definition test_target (env : Env) (what : string) (upto : nat) (argv : list string)
    : list string * result (nat * list string) :=
  match plan_tests env what upto argv with
  | Raise e => ([], Raise e)
  | Ok p =>
      let jvmCount := plan_jvmCount p in
      let banner :=
        match plan_subString p with
        | Some _ => "Running test " ++ hd "" (plan_classes p)
        | None => "Running " ++ str_of_Z (Z.of_nat (List.length (plan_classes p)))
                  ++ " tests in " ++ str_of_Z (Z.of_nat jvmCount) ++ " JVMs"
        end in
      let jvms := pool env upto (plan_jvms p) (queue_contents (plan_classes p) jvmCount) in
      let '(line, exit) :=
        report (total failCount jvms) (total testCount jvms) (total suiteCount jvms)
               (elapsed env upto) in
      ([banner; line],
       match exit with
       | Some c => Raise (SystemExit c)
       | None => Ok (plan_upto p, plan_argv p)
       end)
  end.

(** The loop of [main] (line 352); the prints of the other targets are
    left to [other]. Every turn moves [upto] closer to the end of
    [sys.argv] or raises, so [fuel] of the length of [sys.argv] is enough
    (lemma [script_ends]). *)
Fixpoint main_loop (fuel : nat) (env : Env) (upto : nat) (argv : list string)
    : list string * outcome unit :=
  if (upto <? List.length argv)%nat then
    match fuel with
    | O => ([], OutOfFuel)
    | S fuel' =>
        let what := nth upto argv "" in
        let upto := (upto + 1)%nat in
        if String.eqb what "clean" || String.eqb what "cleanlucene"
           || String.eqb what "package"
        then
          match other env what upto with
          | Raise e => ([], Fail e)
          | Ok _ => main_loop fuel' env upto argv
          end
        else if String.eqb what "test" || startswith what "Test" then
          match test_target env what upto argv with
          | (out, Raise e) => (out, Fail e)
          | (out, Ok (upto', argv')) =>
              let '(out', r) := main_loop fuel' env upto' argv' in
              ((out ++ out')%list, r)
          end
        else ([], Fail (RuntimeError ("unknown target " ++ what)))
    end
  else ([], Done tt).

(** The script (lines 505 to 530), without the usage text. *)
Definition script (env : Env) (argv : list string) : list string * outcome unit :=
  if (List.length argv =? 1)%nat then ([], Fail (SystemExit 1))
  else main_loop (List.length argv) env 1 argv.

(** The exit status of the interpreter, once the script has ended. *)
Definition exit_status (r : outcome unit) : option Z :=
  match r with
  | Done _ => Some 0%Z
  | Fail (SystemExit c) => Some c
  | Fail _ => Some 1%Z
  | Blocked | OutOfFuel => None
  end.

(** ** Notions the properties are stated with *)

(** The lines successive calls of [readline] return, from one state to
    another. *)
Inductive reads : St -> list string -> St -> Prop :=
| reads_nil : forall s, reads s [] s
| reads_cons : forall s l s1 ls s2,
    readline s = (Done l, s1) -> reads s1 ls s2 -> reads s (l :: ls) s2.

(** A frame whose [event[0]] is [TEST_FAILURE] or [SUITE_FAILURE]. *)
Definition is_failure_frame (ev : json) : bool :=
  match getitem_int ev 0 with
  | Ok kind => in_strs kind ["TEST_FAILURE"; "SUITE_FAILURE"]
  | Raise _ => false
  end.


(** A frame that has what the failure branch reads (lines 148 to 153):
    [event[1]] is an object whose ["failure"] is an object that has a
    ["trace"]. *)
Definition failure_frame_ok (ev : json) : bool :=
  match ev with
  | JList (_ :: JDict d :: _) =>
      match lookup "failure" d with
      | Some (JDict failure) =>
          match lookup "trace" failure with
          | Some _ => true
          | None => false
          end
      | _ => false
      end
  | _ => false
  end.


(** ** Sample inputs

    Event files in the layout the job loop expects (an empty line, the
    opening bracket alone on the next line, the kind, the payload, the
    closing bracket alone on the last line), the values [json.loads] gives
    for these texts, and worlds in which the child writes them. *)

Module Sample.

Definition quoted (s : string) : string := String DQ (s ++ String DQ "").

Definition frame_lines (kind : string) (payload : list string) : list string :=
  ([""; "["; ("  " ++ quoted kind ++ ",")%string] ++ payload ++ ["]"])%list.

Definition idle_lines : list string := frame_lines "IDLE" ["  {}"].

Definition started_lines : list string :=
  frame_lines "TEST_STARTED"
    ["  {"; "    " ++ quoted "description" ++ ": " ++ quoted "TestFoo#testA(TestFoo)"; "  }"].

Definition failure_lines : list string :=
  frame_lines "TEST_FAILURE"
    ["  {"; "    " ++ quoted "failure" ++ ": {" ++ quoted "trace" ++ ": " ++ quoted "boom" ++ "}";
     "  }"].

Definition stdout_lines : list string :=
  frame_lines "APPEND_STDOUT"
    ["  {"; "    " ++ quoted "chunk" ++ ": " ++ quoted "hi%0A"; "  }"].

Definition idle_frame : json := JList [JStr "IDLE"; JDict []].
Definition started_frame : json :=
  JList [JStr "TEST_STARTED"; JDict [("description", JStr "TestFoo#testA(TestFoo)")]].
Definition failure_frame : json :=
  JList [JStr "TEST_FAILURE"; JDict [("failure", JDict [("trace", JStr "boom")])]].
Definition stdout_frame : json :=
  JList [JStr "APPEND_STDOUT"; JDict [("chunk", JStr "hi%0A")]].

(** [json.loads] on the four texts above; it is not asked for any other. *)
Definition loads (text : string) : result json :=
  if String.eqb text (join nl idle_lines) then Ok idle_frame
  else if String.eqb text (join nl started_lines) then Ok started_frame
  else if String.eqb text (join nl failure_lines) then Ok failure_frame
  else if String.eqb text (join nl stdout_lines) then Ok stdout_frame
  else Raise (JSONDecodeError "not one of the sample texts").

(** The samples format strings only, so [str] is not applied to any other
    value. *)
Definition no_str (v : json) : string := "".

(** The bytes of some frames, every line ended by a line feed. *)
Definition file_of (fs : list (list string)) : list byte :=
  encode_utf8 (String.concat "" (map (fun l => l ++ nl) (List.concat fs))).

Definition writes (fs : list (list string)) : tick := mkTick (Some (file_of fs)) None.

Definition world_of (tk : list tick) : World := mkWorld None tk None [].

Definition state_of (j : RunTestsJVM) (tk : list tick) : St :=
  mkSt j (world_of tk) 0 [] [].

(** A worker of a run of all tests with [-verbose]. *)
Definition verbose_jvm : RunTestsJVM := RunTestsJVM_init 0 ["build/classes/test"] true None false None.

(** The child reports idle at startup; its first suite starts a test,
    prints, fails twice and ends; its second suite fails once. *)
Definition failing_ticks : list tick :=
  [writes [idle_lines];
   writes [started_lines; stdout_lines; failure_lines; failure_lines; idle_lines];
   writes [started_lines; failure_lines; idle_lines]].

(** The child reports idle at startup and runs no test in its suite. *)
Definition quiet_ticks : list tick := [writes [idle_lines]; writes [idle_lines]].

(** The child reports idle at startup and runs one test that passes. *)
Definition passing_ticks : list tick :=
  [writes [idle_lines]; writes [started_lines; idle_lines]].

(** A worker past its startup: the state [waitIdle] leaves. *)
Definition started (j : RunTestsJVM) (tk : list tick) : St :=
  snd (mbind ReadEvents_init (fun _ => waitIdle 10) (state_of j tk)).

(** The surroundings of [main] with the given class files in
    [build/classes/test/org], [cpus] processors, and workers whose
    children all write what [tk] says and who each find the whole queue. *)
Definition env_of (fileNames : list string) (cpus : nat) (tk : list tick) : Env :=
  mkEnv (fun _ => Ok ["build/classes/test"])
        (fun _ => [("build/classes/test/org", fileNames)])
        cpus
        (fun _ jvms queue =>
           map (fun j => self (snd (run loads no_str 40 queue (state_of j tk)))) jvms)
        (fun _ => "0.1")
        (fun _ _ => Ok tt).

(** A file that holds [ab] and no line feed yet; a sleep during which the
    child appends [c] and a line feed; a sleep after which the child is
    found to have exited with status 3. *)
Definition ab : list byte := encode_utf8 "ab".
Definition appends_c : tick := mkTick (Some (encode_utf8 ("c" ++ nl))) None.
Definition exits_3 : tick := mkTick None (Some 3%Z).

(** A worker whose events file holds a line of chatter and then the line
    with the idle mark. *)
Definition idle_line : string := "  " ++ quoted "IDLE" ++ "," ++ nl.
Definition waiting : St :=
  mkSt verbose_jvm
       (mkWorld (Some (encode_utf8 ("starting" ++ nl ++ idle_line))) [] None [])
       0 [] [].

(** A worker at the start of a job whose events file goes on with a
    closing bracket. *)
Definition bracket_first : St :=
  mkSt verbose_jvm (mkWorld (Some (encode_utf8 ("]" ++ nl))) [] None []) 0 [] [].

(** The failing worker past its startup, after its first job and after
    its second. *)
Definition at_start : St := started verbose_jvm failing_ticks.


(** A failure frame without a trace. *)
Definition bare_failure_frame : json :=
  JList [JStr "TEST_FAILURE"; JDict [("failure", JDict [("message", JStr "boom")])]].

(** A file that ends inside a character: the first two of the three bytes
    of the euro sign, which the child completes, with the line feed,
    during the next sleep. *)
Definition euro_line : string := string_of_list_byte [xe2; x82; xac; x0a].
Definition half_euro : list byte := [xe2; x82].
Definition rest_of_euro : list byte := [xac; x0a].
Definition completes_euro : tick := mkTick (Some rest_of_euro) None.

(** What [main] plans for a command line whose first target is a test
    target. *)
Definition plan_of (env : Env) (argv : list string) : Plan :=
  match plan_tests env (nth 1 argv "") 2 argv with
  | Ok p => p
  | Raise _ => mkPlan 0 [] None [] 0 []
  end.

Definition one_class : list string := ["TestFoo.class"].
Definition two_classes : list string := ["TestFoo.class"; "TestBar.class"].

End Sample.

(** ** Notions for the further properties *)

(** [c in s] for a character. *)
Fixpoint has_char (c : ascii) (s : string) : bool :=
  match s with
  | EmptyString => false
  | String d r => Ascii.eqb d c || has_char c r
  end.

(** A text of one-byte characters only. *)
Fixpoint one_byte_chars (s : string) : bool :=
  match s with
  | EmptyString => true
  | String c r => (code c <? 128)%N && one_byte_chars r
  end.

(** The name taken from a description (lines 162 to 165). *)
Definition method_name (description : string) : string :=
  py_slice (find description "#" + 1) (find description "(") description.


(** The files [main] takes for test classes (lines 439 to 441), the name
    of the class of such a file (line 442), and the classes of a walk in
    the order found. *)
Definition selectable (testSubString : option string) (root fileName : string) : bool :=
  startswith fileName "Test" && endswith fileName ".class" && negb (contains "$" fileName)
  && match testSubString with
     | None => true
     | Some sub => contains sub (root ++ "/" ++ fileName)
     end.

Definition class_name (root fileName : string) : string :=
  replace "/" "." (py_slice 19 (-6) (root ++ "/" ++ fileName)).

Definition candidates (walk : list (string * list string)) (testSubString : option string)
    : list string :=
  flat_map (fun d => map (class_name (fst d)) (filter (selectable testSubString (fst d)) (snd d)))
           walk.

Definition ambiguous (sub first second : string) : exn :=
  RuntimeError ("test name fragment " ++ String DQ (sub ++ String DQ
                (" is ambiguous, matching at least " ++ first ++ " and " ++ second))).

Definition at_most_one (sub : string) (found : list string) : result (list string) :=
  match found with
  | first :: second :: _ => Raise (ambiguous sub first second)
  | _ => Ok found
  end.

Definition is_started_frame (ev : json) : bool :=
  match getitem_int ev 0 with
  | Ok kind => is_str kind "TEST_STARTED"
  | Raise _ => false
  end.

Definition count_started (evs : list json) : nat :=
  List.length (filter is_started_frame evs).

Definition is_idle_frame (ev : json) : bool :=
  match getitem_int ev 0 with
  | Ok kind => is_str kind "IDLE"
  | Raise _ => false
  end.

(** The fields of a worker that [__init__] sets from its arguments. *)
Definition same_settings (a b : RunTestsJVM) : Prop :=
  id a = id b /\ classPath a = classPath b /\ verbose a = verbose b
  /\ seed a = seed b /\ testMethod a = testMethod b /\ doPrintOutput a = doPrintOutput b.

(** What a state keeps when only counters and the console change. *)
Definition dispatch_keeps (s s' : St) : Prop :=
  frames s' = frames s /\ world s' = world s /\ offset s' = offset s
  /\ suiteCount (self s') = suiteCount (self s)
  /\ same_settings (self s) (self s').

(** What one job may change from [s] to [s']: it appends the frames it
    handled, counts their [TEST_STARTED] frames, adds at most one failure
    (none when the latch is closed), and leaves the rest of the worker
    object and the child's command line and input alone. *)
Definition job_effect (open : bool) (s s' : St) : Prop :=
  exists evs,
    frames s' = (frames s ++ evs)%list
    /\ testCount (self s') = (testCount (self s) + Z.of_nat (count_started evs))%Z
    /\ (failCount (self s) <= failCount (self s'))%Z
    /\ (failCount (self s') <= failCount (self s) + if open then 1 else 0)%Z
    /\ suiteCount (self s') = suiteCount (self s)
    /\ same_settings (self s) (self s')
    /\ child_stdin (world s') = child_stdin (world s)
    /\ child_cmd (world s') = child_cmd (world s).

(** What a worker may change while it starts the jobs [started]. *)
Definition worker_effect (started : list string) (s s' : St) : Prop :=
  exists evs,
    frames s' = (frames s ++ evs)%list
    /\ testCount (self s') = (testCount (self s) + Z.of_nat (count_started evs))%Z
    /\ (failCount (self s) <= failCount (self s'))%Z
    /\ (failCount (self s') <= failCount (self s) + Z.of_nat (List.length started))%Z
    /\ suiteCount (self s') = (suiteCount (self s) + Z.of_nat (List.length started))%Z
    /\ same_settings (self s) (self s')
    /\ child_stdin (world s')
       = (child_stdin (world s) ++ map (fun job => encode_utf8 (job ++ nl)) started)%list
    /\ child_cmd (world s') = child_cmd (world s).

(** What a thread leaves behind when it has started the jobs [started]:
    the child was launched with the command line of the worker, got the
    jobs on its input, and the counters moved as the frames say. *)
Definition thread_effect (started : list string) (s s' : St) : Prop :=
  child_cmd (world s') = Some (build_cmd (self s))
  /\ exists evs,
       frames s' = (frames s ++ evs)%list
       /\ testCount (self s') = (testCount (self s) + Z.of_nat (count_started evs))%Z
       /\ (failCount (self s) <= failCount (self s'))%Z
       /\ (failCount (self s') <= failCount (self s) + Z.of_nat (List.length started))%Z
       /\ suiteCount (self s') = (suiteCount (self s) + Z.of_nat (List.length started))%Z
       /\ same_settings (self s) (self s')
       /\ child_stdin (world s')
          = (child_stdin (world s) ++ map (fun job => encode_utf8 (job ++ nl)) started)%list.

(** Bytes that make one line: a line feed at the end and nowhere else. *)
Fixpoint one_line (bs : list byte) : bool :=
  match bs with
  | [] => false
  | b :: r =>
      match r with
      | [] => Byte.eqb b x0a
      | _ :: _ => negb (Byte.eqb b x0a) && one_line r
      end
  end.

(** A text the child can write as one line of its events file. *)
Definition whole_line (l : string) : bool :=
  utf8_valid (encode_utf8 l) && one_line (encode_utf8 l).

(** Bytes without a line feed. *)
Definition no_line_feed (bs : list byte) : bool :=
  forallb (fun b => negb (Byte.eqb b x0a)) bs.

(** The child writes a line in pieces, one per sleep: before each piece
    what is there so far is valid text without a line feed. *)
Fixpoint arrives (have : list byte) (pieces : list (list byte)) : Prop :=
  match pieces with
  | [] => True
  | piece :: later =>
      utf8_valid have = true /\ no_line_feed have = true
      /\ arrives (have ++ piece) later
  end.

Definition writes_piece (piece : list byte) : tick := mkTick (Some piece) None.

(** ** Incremental building ([anyChanges], [compileChangedSources],
    lines 221 to 269) *)

Module Build.

(** The paths of the files [os.walk] yields, in order. *)
Definition paths_of (dirs : list (string * list string)) : list string :=
  flat_map (fun d => map (fun fileName => fst d ++ "/" ++ fileName) (snd d)) dirs.

Section Files.

(** Modification times are only compared: [newer a b] is [a > b], and
    [a < b] is [newer b a]. *)
Variable time : Type.
Variable newer : time -> time -> bool.

(** The file system as these functions see it: [os.path.exists],
    [os.path.getmtime] (which raises for a path it cannot stat) and
    [os.walk], each directory with its file names. *)
Record Files : Type := mkFiles {
  exists_ : string -> bool;
  getmtime : string -> result time;
  walk_ : string -> list (string * list string)
}.

Variable fs : Files.

(** The inner loop of [anyChanges] (line 228). *)
Fixpoint newer_in (root : string) (fileNames : list string) (t1 : time) : result bool :=
  match fileNames with
  | [] => Ok false
  | fileName :: rest =>
      t <- getmtime fs (root ++ "/" ++ fileName) ;;
      if newer t t1 then Ok true else newer_in root rest t1
  end.

(** The outer loop of [anyChanges] (line 227). *)
Fixpoint newer_under (dirs : list (string * list string)) (t1 : time) : result bool :=
  match dirs with
  | [] => Ok false
  | (root, fileNames) :: rest =>
      found <- newer_in root fileNames t1 ;;
      if found : bool then Ok true else newer_under rest t1
  end.

Definition anyChanges (srcDir destJAR : string) : result bool :=
  if negb (exists_ fs destJAR) then Ok true
  else
    t1 <- getmtime fs destJAR ;;
    newer_under (walk_ fs srcDir) t1.

(** Lines 257 and 258: the class file of a source, and whether the
    source has to be compiled. *)
Definition classFileName (root fileName : string) : string :=
  "build/classes/" ++ py_slice 4 (-5) (root ++ "/" ++ fileName) ++ ".class".

Definition is_changed (root fileName : string) : result bool :=
  if negb (exists_ fs (classFileName root fileName)) then Ok true
  else
    tc <- getmtime fs (classFileName root fileName) ;;
    ts <- getmtime fs (root ++ "/" ++ fileName) ;;
    Ok (newer ts tc).

(** Lines 255 to 259, for the file names of one directory. *)
Fixpoint changed_in (root : string) (fileNames : list string)
    (changedSources : list string) : result (list string) :=
  match fileNames with
  | [] => Ok changedSources
  | fileName :: rest =>
      if endswith fileName ".java" then
        c <- is_changed root fileName ;;
        if c : bool
        then changed_in root rest (changedSources ++ [(root ++ "/" ++ fileName)%string])%list
        else changed_in root rest changedSources
      else changed_in root rest changedSources
  end.

(** Lines 254 to 259. *)
Fixpoint changed_under (dirs : list (string * list string))
    (changedSources : list string) : result (list string) :=
  match dirs with
  | [] => Ok changedSources
  | (root, fileNames) :: rest =>
      found <- changed_in root fileNames changedSources ;;
      changed_under rest found
  end.

(** A path whose modification time can be read and is not after [t1]. *)
Definition not_newer (t1 : time) (path : string) : Prop :=
  exists t, getmtime fs path = Ok t /\ newer t t1 = false.

(** A file that needs no compiling: it is no Java source, or its class
    file exists and is not older than it. *)
Definition up_to_date (root fileName : string) : Prop :=
  endswith fileName ".java" = false \/ is_changed root fileName = Ok false.

(** [run(command)] (line 214): the shell command succeeds or the call
    raises. *)
Variable shell : string -> result unit.

(** [compileChangedSources], without its prints. *)
Definition compileChangedSources (srcPath destPath : string) (classPath : list string)
    : result unit :=
  changedSources <- changed_under (walk_ fs srcPath) [] ;;
  if (0 <? List.length changedSources)%nat then
    shell (join " " (["javac"; "-d"; destPath; "-cp"; join ":" classPath]
                      ++ changedSources)%list)
  else Ok tt.

End Files.

End Build.

(** ** More sample inputs *)

Module Case.

(** The failing sample worker, the share of the queue it finds, and the
    state its thread ends in. *)
Definition share : list (option string) := [Some "org.TestFoo"; Some "org.TestBar"; None].
Definition worker : St := Sample.state_of Sample.verbose_jvm Sample.failing_ticks.
Definition worker_end : St := snd (run Sample.loads Sample.no_str 40 share worker).

(** A worker whose events file holds two whole lines. *)
Definition two_lines : list string := ["[" ++ nl; "x" ++ nl].
Definition reader : St :=
  mkSt Sample.verbose_jvm
       (mkWorld (Some (encode_utf8 (String.concat "" two_lines))) [] None [])
       0 [] [].

(** A line that comes in two pieces. *)
Definition pieces : list (list byte) := [encode_utf8 "ab"; encode_utf8 ("c" ++ nl)].

(** A file system with times in [Z]: a JAR and a class file of time 10, a
    Java source and a text file of time 5. *)
Definition files : Build.Files Z :=
  Build.mkFiles Z
    (fun path => String.eqb path "out.jar" || String.eqb path "build/classes/java/A.class")
    (fun path =>
       if String.eqb path "out.jar" || String.eqb path "build/classes/java/A.class"
       then Ok 10%Z
       else if String.eqb path "src/java/A.java" || String.eqb path "src/java/notes.txt"
       then Ok 5%Z
       else Raise (RuntimeError "no such file"))
    (fun _ => [("src/java", ["A.java"; "notes.txt"])]).

(** A worker whose events file holds one whole frame, its lines but the
    last as [readline] returns them, and its state after some reads. *)
Definition after_reads (n : nat) (s : St) : St := Nat.iter n (fun s => snd (readline s)) s.
Definition framed : St :=
  mkSt Sample.verbose_jvm
       (mkWorld (Some (Sample.file_of [Sample.idle_lines])) [] None []) 0 [] [].
Definition framed_lines : list string :=
  map (fun l => l ++ nl) [""; "["; "  " ++ Sample.quoted "IDLE" ++ ","; "  {}"].

(** A shell on which every command fails. *)
Definition failing_shell (command : string) : result unit :=
  Raise (RuntimeError "command failed").

End Case.

(** * Properties *)

(** ** Strings and [unescape] *)

Lemma drop_empty n : drop n "" = "".
Proof. destruct n; reflexivity. Qed.

Lemma replace_go_skip old new s : forall k,
  replace_go old new k s = replace_go old new 0 (drop k s).
Proof.
  induction s as [|c r IH]; intros k.
  - rewrite drop_empty. reflexivity.
  - destruct k as [|k]; [reflexivity|]. simpl. apply IH.
Qed.

Lemma replace_hit old new c r :
  old <> "" -> prefix old (String c r) = true ->
  replace old new (String c r) = new ++ replace old new (drop (String.length old - 1) r).
Proof.
  intros Hne Hp. destruct old as [|a old']; [congruence|].
  unfold replace. cbn [replace_go]. rewrite Hp.
  f_equal. apply replace_go_skip.
Qed.

Lemma replace_miss old new c r :
  prefix old (String c r) = false ->
  replace old new (String c r) = String c (replace old new r).
Proof.
  intros Hp. destruct old as [|a old']; [discriminate|].
  unfold replace. cbn [replace_go]. rewrite Hp. reflexivity.
Qed.

Lemma replace_empty old new : old <> "" -> replace old new "" = "".
Proof. destruct old; [congruence | reflexivity]. Qed.

Lemma replace_absent old new s :
  old <> "" -> contains old s = false -> replace old new s = s.
Proof.
  intros Hne. induction s as [|c r IH]; intros H.
  - apply replace_empty, Hne.
  - cbn [contains] in H. apply orb_false_iff in H as [Hp Hr].
    rewrite replace_miss by exact Hp. f_equal. apply IH, Hr.
Qed.

Lemma prefix3 a b x c d e r :
  prefix (String a (String b (String x ""))) (String c (String d (String e r)))
  = Ascii.eqb c a && Ascii.eqb d b && Ascii.eqb e x.
Proof.
  cbn [prefix].
  destruct (ascii_dec a c) as [->|Hc].
  - rewrite Ascii.eqb_refl. destruct (ascii_dec b d) as [->|Hd].
    + rewrite Ascii.eqb_refl. destruct (ascii_dec x e) as [->|He].
      * rewrite Ascii.eqb_refl. destruct r; reflexivity.
      * destruct (Ascii.eqb_spec e x); [congruence | reflexivity].
    + destruct (Ascii.eqb_spec d b); [congruence | reflexivity].
  - destruct (Ascii.eqb_spec c a); [congruence | reflexivity].
Qed.

Lemma prefix3_short1 a b x c :
  prefix (String a (String b (String x ""))) (String c "") = false.
Proof. cbn [prefix]. destruct (ascii_dec a c); reflexivity. Qed.

Lemma prefix3_short2 a b x c d :
  prefix (String a (String b (String x ""))) (String c (String d "")) = false.
Proof.
  cbn [prefix]. destruct (ascii_dec a c); [destruct (ascii_dec b d)|]; reflexivity.
Qed.


Lemma replace3_step a b c new x r :
  replace (String a (String b (String c ""))) new (String x r) =
  if prefix (String a (String b (String c ""))) (String x r)
  then new ++ replace (String a (String b (String c ""))) new (drop 2 r)
  else String x (replace (String a (String b (String c ""))) new r).
Proof.
  destruct (prefix _ (String x r)) eqn:Hp.
  - apply replace_hit; [discriminate | exact Hp].
  - apply replace_miss, Hp.
Qed.

Lemma prefix_cons_inv a p c r :
  prefix (String a p) (String c r) = true -> a = c /\ prefix p r = true.
Proof.
  cbn [prefix]. destruct (ascii_dec a c); [auto | discriminate].
Qed.

Lemma prefix_09_after_first_pass r :
  prefix "09" (replace "%0A" nl r) = true -> prefix "09" r = true.
Proof.
  destruct r as [|d r1]; [discriminate|].
  rewrite replace3_step. destruct (prefix "%0A" (String d r1)) eqn:H1.
  - intros H. apply prefix_cons_inv in H as [H _]. discriminate.
  - intros H. apply prefix_cons_inv in H as [<- H].
    destruct r1 as [|e r2]; [discriminate|].
    rewrite replace3_step in H. destruct (prefix "%0A" (String e r2)) eqn:H2.
    + apply prefix_cons_inv in H as [H _]. discriminate.
    + apply prefix_cons_inv in H as [<- _]. destruct r2; reflexivity.
Qed.

Lemma unescape_cons_plain c r :
  prefix "%0A" (String c r) = false ->
  prefix "%09" (String c r) = false ->
  unescape (String c r) = String c (unescape r).
Proof.
  intros HA H9. unfold unescape.
  rewrite (replace_miss "%0A" nl c r HA).
  apply replace_miss.
  destruct (prefix "%09" (String c (replace "%0A" nl r))) eqn:H; [|reflexivity].
  apply prefix_cons_inv in H as [<- H].
  apply prefix_09_after_first_pass in H.
  cbn [prefix] in H9. destruct (ascii_dec "%" "%"); congruence.
Qed.

Lemma unescape_cons_lf r : unescape ("%0A" ++ r) = String LF (unescape r).
Proof.
  unfold unescape. cbn [append]. rewrite replace3_step.
  rewrite prefix3. cbn [Ascii.eqb Bool.eqb andb].
  cbn [drop nl append]. rewrite replace_miss; [reflexivity|].
  cbn. reflexivity.
Qed.

Lemma unescape_cons_ht r : unescape ("%09" ++ r) = String HT (unescape r).
Proof.
  unfold unescape. cbn [append].
  rewrite (replace_miss "%0A") by (rewrite prefix3; reflexivity).
  rewrite (replace_miss "%0A") by reflexivity.
  rewrite (replace_miss "%0A") by reflexivity.
  rewrite replace3_step.
  replace (prefix "%09" (String "%" (String "0" (String "9" (replace "%0A" nl r)))))
    with true by (destruct (replace "%0A" nl r); reflexivity).
  reflexivity.
Qed.

Lemma unescape_is_one_pass_bounded n : forall s,
  String.length s <= n -> unescape s = unescape_one_pass s.
Proof.
  induction n as [|n IH]; intros s Hlen.
  - destruct s; [reflexivity | simpl in Hlen; lia].
  - destruct s as [|c r]; [reflexivity|].
    simpl in Hlen.
    destruct r as [|d r1].
    { rewrite unescape_cons_plain by apply prefix3_short1. reflexivity. }
    destruct r1 as [|e r2].
    { rewrite unescape_cons_plain by apply prefix3_short2.
      rewrite unescape_cons_plain by apply prefix3_short1.
      reflexivity. }
    cbn [unescape_one_pass]. simpl in Hlen.
    destruct (Ascii.eqb c "%" && Ascii.eqb d "0" && Ascii.eqb e "A") eqn:HA.
    { apply andb_true_iff in HA as [HA He]. apply andb_true_iff in HA as [Hc Hd].
      apply Ascii.eqb_eq in Hc, Hd, He. subst.
      change (String "%" (String "0" (String "A" r2))) with ("%0A" ++ r2).
      rewrite unescape_cons_lf. f_equal. apply IH. lia. }
    destruct (Ascii.eqb c "%" && Ascii.eqb d "0" && Ascii.eqb e "9") eqn:H9.
    { apply andb_true_iff in H9 as [H9 He]. apply andb_true_iff in H9 as [Hc Hd].
      apply Ascii.eqb_eq in Hc, Hd, He. subst.
      change (String "%" (String "0" (String "9" r2))) with ("%09" ++ r2).
      rewrite unescape_cons_ht. f_equal. apply IH. lia. }
    rewrite unescape_cons_plain by (rewrite prefix3; assumption).
    f_equal. apply IH. simpl. lia.
Qed.

(** Claim C10. [unescape] turns every [%0A] into a line feed and every
    [%09] into a tab: it maps [a%0Ab%09c] to [a], line feed, [b], tab, [c];
    on every text it agrees with the one-pass decoding; and a text that
    holds neither escape is returned as it is, so that unescaping it
    once more changes nothing. *)
Theorem unescape_spec :
  unescape "a%0Ab%09c" = "a" ++ nl ++ "b" ++ tab ++ "c"
  /\ (forall s, unescape s = unescape_one_pass s)
  /\ (forall s, contains "%0A" s = false -> contains "%09" s = false ->
        unescape s = s /\ unescape (unescape s) = unescape s).
Proof.
  split; [reflexivity|]. split.
  - intros s. apply (unescape_is_one_pass_bounded (String.length s)). lia.
  - intros s HA H9.
    assert (E : unescape s = s).
    { unfold unescape. rewrite (replace_absent "%0A") by (discriminate || assumption).
      apply replace_absent; [discriminate | assumption]. }
    split; [exact E | rewrite E; exact E].
Qed.

(** An instance of C10 on a text with a percent sign that starts no escape. *)
Lemma unescape_spec_witness :
  contains "%0A" "plain %0 text" = false /\ contains "%09" "plain %0 text" = false
  /\ unescape "plain %0 text" = "plain %0 text".
Proof.
  split; [reflexivity|]. split; [reflexivity|].
  apply (proj2 (proj2 unescape_spec) "plain %0 text"); reflexivity.
Defined.


(** ** [ReadEvents.readline] *)

Lemma readline_go_eq tk file pos :
  readline_go tk file pos =
  let raw := file_readline file pos in
  match decode_utf8 raw with
  | Raise e => (Fail e, (tk, file, pos + List.length raw))
  | Ok l =>
      if String.eqb l "" || negb (endswith l nl) then
        match tk with
        | [] => (Blocked, (tk, file, pos + List.length raw))
        | t :: tk' =>
            let file' := (file ++ appended t)%list in
            match status t with
            | Some p =>
                (Fail (RuntimeError ("process exited with status " ++ str_of_Z p)),
                 (tk', file', pos + List.length raw))
            | None => readline_go tk' file' pos
            end
        end
      else (Done l, (tk, file, pos + List.length raw))
  end.
Proof. destruct tk; reflexivity. Qed.

Lemma partial_test l :
  endswith l nl = false -> String.eqb l "" || negb (endswith l nl) = true.
Proof. intros ->. apply orb_true_r. Qed.

Lemma complete_test l :
  endswith l nl = true -> String.eqb l "" || negb (endswith l nl) = false.
Proof.
  intros H. rewrite H. destruct l; [discriminate H | reflexivity].
Qed.

Lemma string_of_list_byte_cons b r :
  string_of_list_byte (b :: r) = String (ascii_of_byte b) (string_of_list_byte r).
Proof. reflexivity. Qed.

Lemma string_of_list_byte_empty r : string_of_list_byte r = "" -> r = [].
Proof. destruct r; [reflexivity | discriminate]. Qed.

(** A text that ends with a line feed comes from bytes that end with the
    byte [0a]. *)
Lemma ends_with_line_feed raw :
  endswith (string_of_list_byte raw) nl = true -> exists b, raw = (b ++ [x0a])%list.
Proof.
  induction raw as [|b r IH]; [discriminate|].
  rewrite string_of_list_byte_cons. cbn [endswith]. intros H.
  apply orb_true_iff in H as [H|H].
  - apply String.eqb_eq in H. injection H as Hb Hr.
    apply string_of_list_byte_empty in Hr. subst r.
    exists []. cbn. f_equal.
    rewrite <- (byte_of_ascii_of_byte b), Hb. reflexivity.
  - destruct (IH H) as [b' ->]. exists (b :: b'). reflexivity.
Qed.

(** What [readline] returns is a whole line of the file as it is by then,
    starting at the offset the call began with. *)
Lemma readline_go_done tk : forall file pos l tk' file' pos',
  readline_go tk file pos = (Done l, (tk', file', pos')) ->
  endswith l nl = true
  /\ decode_utf8 (file_readline file' pos) = Ok l
  /\ pos' = pos + List.length (file_readline file' pos)
  /\ exists more, file' = (file ++ more)%list.
Proof.
  induction tk as [|t tk IH]; intros file pos l tk' file' pos';
    rewrite readline_go_eq; cbv zeta;
    destruct (decode_utf8 (file_readline file pos)) as [l0|e] eqn:Hd; try discriminate;
    destruct (String.eqb l0 "" || negb (endswith l0 nl)) eqn:Ht.
  - discriminate.
  - intros H. injection H as <- <- <- <-.
    apply orb_false_iff in Ht as [_ Ht]. apply negb_false_iff in Ht.
    repeat split; auto. exists []. now rewrite app_nil_r.
  - destruct (status t); [discriminate|]. intros H.
    apply IH in H as (H1 & H2 & H3 & more & ->).
    repeat split; auto. exists (appended t ++ more)%list. now rewrite app_assoc.
  - intros H. injection H as <- <- <- <-.
    apply orb_false_iff in Ht as [_ Ht]. apply negb_false_iff in Ht.
    repeat split; auto. exists []. now rewrite app_nil_r.
Qed.

(** What [readline] does as long as the bytes it reads decode. What it
    returns ends with a line feed and is the whole line found at the
    offset the call began with, the file having only grown meanwhile, and
    the offset moves past that line. A whole line that is already there is
    returned at once. When the decoded text at the offset is not a whole
    line (it may be empty), one sleep later the call either starts again
    at the same offset, if the child is still running, or raises the
    error that carries the status the child exited with. *)
Theorem readline_whole_lines_only :
  (forall tk file pos l tk' file' pos',
     readline_go tk file pos = (Done l, (tk', file', pos')) ->
     endswith l nl = true
     /\ decode_utf8 (file_readline file' pos) = Ok l
     /\ (exists b, file_readline file' pos = (b ++ [x0a])%list)
     /\ pos' = pos + List.length (file_readline file' pos)
     /\ exists more, file' = (file ++ more)%list)
  /\ (forall tk file pos l,
     decode_utf8 (file_readline file pos) = Ok l -> endswith l nl = true ->
     readline_go tk file pos
     = (Done l, (tk, file, pos + List.length (file_readline file pos))))
  /\ (forall t tk file pos l,
     decode_utf8 (file_readline file pos) = Ok l -> endswith l nl = false ->
     status t = None ->
     readline_go (t :: tk) file pos = readline_go tk (file ++ appended t)%list pos)
  /\ (forall t tk file pos l p,
     decode_utf8 (file_readline file pos) = Ok l -> endswith l nl = false ->
     status t = Some p ->
     fst (readline_go (t :: tk) file pos)
     = Fail (RuntimeError ("process exited with status " ++ str_of_Z p))).
Proof.
  split; [|split; [|split]].
  - intros tk file pos l tk' file' pos' H.
    destruct (readline_go_done _ _ _ _ _ _ _ H) as (He & Hd & Hp & Hm).
    repeat split; auto.
    unfold decode_utf8 in Hd.
    destruct (utf8_valid (file_readline file' pos)); [|discriminate].
    injection Hd as <-. apply ends_with_line_feed, He.
  - intros tk file pos l Hd He. rewrite readline_go_eq. cbv zeta.
    rewrite Hd, (complete_test _ He). reflexivity.
  - intros t tk file pos l Hd He Hs. rewrite readline_go_eq. cbv zeta.
    rewrite Hd, (partial_test _ He), Hs. reflexivity.
  - intros t tk file pos l p Hd He Hs. rewrite readline_go_eq. cbv zeta.
    rewrite Hd, (partial_test _ He), Hs. reflexivity.
Qed.

(** Instances: the file holds [ab]; the child appends [c] and a line feed
    during the sleep, or is found to have exited with status 3. *)
Lemma readline_whole_lines_only_witness :
  endswith ("abc" ++ nl) nl = true
  /\ readline_go [] (Sample.ab ++ appended Sample.appends_c)%list 0
     = (Done ("abc" ++ nl), ([], (Sample.ab ++ appended Sample.appends_c)%list, 4))
  /\ readline_go [Sample.appends_c] Sample.ab 0
     = readline_go [] (Sample.ab ++ appended Sample.appends_c)%list 0
  /\ fst (readline_go [Sample.exits_3] Sample.ab 0)
     = Fail (RuntimeError "process exited with status 3").
Proof.
  split; [|split; [|split]].
  - apply (proj1 readline_whole_lines_only [Sample.appends_c] Sample.ab 0 ("abc" ++ nl) []
             (Sample.ab ++ appended Sample.appends_c)%list 4).
    vm_compute. reflexivity.
  - apply (proj1 (proj2 readline_whole_lines_only) []
             (Sample.ab ++ appended Sample.appends_c)%list 0 ("abc" ++ nl));
      vm_compute; reflexivity.
  - apply (proj1 (proj2 (proj2 readline_whole_lines_only)) Sample.appends_c [] Sample.ab 0 "ab");
      vm_compute; reflexivity.
  - apply (proj2 (proj2 (proj2 readline_whole_lines_only)) Sample.exits_3 [] Sample.ab 0 "ab" 3%Z);
      vm_compute; reflexivity.
Defined.

(** ** [ReadEvents.waitIdle] *)

Lemma waitIdle_loop_eq fuel acc :
  waitIdle_loop (S fuel) acc =
  (l <~ readline ;;
   if negb (find l IDLE_mark =? -1)%Z then ret acc
   else waitIdle_loop fuel (acc ++ [l])%list).
Proof. reflexivity. Qed.

Lemma waitIdle_loop_sound fuel : forall acc s lines s',
  waitIdle_loop fuel acc s = (Done lines, s') ->
  exists new idle,
    lines = (acc ++ new)%list
    /\ reads s (new ++ [idle]) s'
    /\ find idle IDLE_mark <> (-1)%Z
    /\ Forall (fun l => find l IDLE_mark = (-1)%Z) new
    /\ List.length new < fuel.
Proof.
  induction fuel as [|fuel IH]; intros acc s lines s'; [discriminate|].
  rewrite waitIdle_loop_eq. unfold mbind.
  destruct (readline s) as [[l| | |] s1] eqn:Hr; try discriminate.
  destruct (find l IDLE_mark =? -1)%Z eqn:Hm; cbn [negb].
  - intros H. apply IH in H as (new & idle & -> & Hreads & Hidle & Hclean & Hlen).
    exists (l :: new), idle. rewrite <- app_assoc. repeat split; auto.
    + cbn. econstructor; eauto.
    + constructor; [apply Z.eqb_eq, Hm | exact Hclean].
    + cbn. lia.
  - unfold ret. intros H. injection H as <- <-.
    exists [], l. rewrite app_nil_r. repeat split; auto.
    + cbn. econstructor; [exact Hr | constructor].
    + apply Z.eqb_neq, Hm.
    + cbn. lia.
Qed.

Lemma waitIdle_loop_complete new : forall fuel acc s idle s',
  reads s (new ++ [idle]) s' ->
  find idle IDLE_mark <> (-1)%Z ->
  Forall (fun l => find l IDLE_mark = (-1)%Z) new ->
  List.length new < fuel ->
  waitIdle_loop fuel acc s = (Done (acc ++ new)%list, s').
Proof.
  induction new as [|l new IH]; intros fuel acc s idle s' Hreads Hidle Hclean Hlen;
    (destruct fuel as [|fuel]; [cbn in Hlen; lia|]);
    rewrite waitIdle_loop_eq; unfold mbind;
    inversion Hreads as [|? ? s1 ? ? Hr Hrest]; subst; rewrite Hr.
  - inversion Hrest; subst.
    apply Z.eqb_neq in Hidle. rewrite Hidle. cbn. rewrite app_nil_r. reflexivity.
  - inversion Hclean as [|? ? Hl Hnew]; subst.
    rewrite Hl. cbn [Z.eqb negb].
    replace (acc ++ l :: new)%list with ((acc ++ [l]) ++ new)%list
      by (rewrite <- app_assoc; reflexivity).
    eapply IH; eauto. cbn in Hlen. lia.
Qed.

(** Claim C7, as the code has it. [waitIdle] returns [lines] exactly when
    the lines it read are [lines] followed by one more line: the first
    that holds the idle mark. That line is read and is not returned; the
    lines before it are returned in the order read. ([fuel] bounds the
    number of lines the model follows.) *)
Theorem waitIdle_returns_lines_before_idle fuel s lines s' :
  waitIdle fuel s = (Done lines, s') <->
  exists idle,
    reads s (lines ++ [idle]) s'
    /\ find idle IDLE_mark <> (-1)%Z
    /\ Forall (fun l => find l IDLE_mark = (-1)%Z) lines
    /\ List.length lines < fuel.
Proof.
  unfold waitIdle. split.
  - intros H. apply waitIdle_loop_sound in H as (new & idle & -> & H).
    exists idle. exact H.
  - intros (idle & Hreads & Hidle & Hclean & Hlen).
    apply (waitIdle_loop_complete lines fuel [] s idle s'); assumption.
Qed.

(** An instance of C7 as amended: with a line of chatter before the idle
    line, the chatter is what comes back. *)
Lemma waitIdle_returns_lines_before_idle_witness :
  exists idle,
    reads Sample.waiting (["starting" ++ nl] ++ [idle]) (snd (waitIdle 5 Sample.waiting))
    /\ find idle IDLE_mark <> (-1)%Z
    /\ Forall (fun l => find l IDLE_mark = (-1)%Z) ["starting" ++ nl]
    /\ List.length ["starting" ++ nl] < 5.
Proof.
  apply (proj1 (waitIdle_returns_lines_before_idle 5 Sample.waiting ["starting" ++ nl]
                  (snd (waitIdle 5 Sample.waiting)))).
  vm_compute. reflexivity.
Defined.

(** Claim C7 as stated fails: the idle line is read before [waitIdle]
    returns and is not in the list returned. *)
Lemma waitIdle_omits_idle_line :
  exists s1 s2,
    readline Sample.waiting = (Done ("starting" ++ nl), s1)
    /\ readline s1 = (Done Sample.idle_line, s2)
    /\ waitIdle 5 Sample.waiting = (Done ["starting" ++ nl], s2)
    /\ ~ In Sample.idle_line ["starting" ++ nl].
Proof.
  eexists. eexists. split; [vm_compute; reflexivity|].
  split; [vm_compute; reflexivity|].
  split; [vm_compute; reflexivity|].
  intros [H|[]]. discriminate H.
Qed.

(** ** The job loop of the worker *)


(** No kind is both an output kind and a failure kind. *)
Lemma kinds_apart kind :
  in_strs kind ["APPEND_STDOUT"; "APPEND_STDERR"] = true ->
  in_strs kind ["TEST_FAILURE"; "SUITE_FAILURE"] = false.
Proof.
  destruct kind; try discriminate. cbn [in_strs existsb is_str].
  intros H. apply orb_true_iff in H as [H|H].
  - apply String.eqb_eq in H. subst. reflexivity.
  - apply orb_true_iff in H as [H|H]; [|discriminate].
    apply String.eqb_eq in H. subst. reflexivity.
Qed.


Section Worker.

Variable json_loads : string -> result json.
Variable py_str : json -> string.

(** What one frame does to the count of failures and to the latch. *)
Lemma dispatch_counts job ev loc s c loc' s' :
  dispatch py_str job ev loc s = (Done (c, loc'), s') ->
  frames s' = frames s
  /\ failCount (self s')
     = (failCount (self s) + if is_failure_frame ev && negb (didFail loc) then 1 else 0)%Z
  /\ didFail loc' = didFail loc || is_failure_frame ev.
Proof.
  unfold dispatch, is_failure_frame, mbind, lift.
  destruct (getitem_int ev 0) as [kind|e]; [|discriminate].
  destruct (in_strs kind ["APPEND_STDOUT"; "APPEND_STDERR"]) eqn:HA.
  { rewrite (kinds_apart _ HA).
    destruct (_ <- getitem_int ev 1 ;; _) as [raw|e]; [|discriminate].
    unfold gets, message, modify, ret.
    destruct (testCaseFailed loc || doPrintOutput (self s));
      intros H; injection H as <- <- <-; cbn;
      rewrite orb_false_r; repeat split; lia. }
  destruct (in_strs kind ["TEST_FAILURE"; "SUITE_FAILURE"]) eqn:HF.
  { destruct (_ <- getitem_int ev 1 ;; _) as [details|e]; [|discriminate].
    destruct (contains_str "message" details) as [has|e]; [|discriminate].
    destruct has.
    - destruct (getitem_str details "message") as [m|e]; [|discriminate].
      unfold ret, message, modify.
      destruct (getitem_str details "trace") as [t|e]; [|discriminate].
      destruct (didFail loc); intros H; injection H as <- <- <-; cbn;
        repeat split; try lia; try reflexivity.
    - unfold ret, message, modify.
      destruct (getitem_str details "trace") as [t|e]; [|discriminate].
      destruct (didFail loc); intros H; injection H as <- <- <-; cbn;
        repeat split; try lia; try reflexivity. }
  destruct (is_str kind "TEST_STARTED").
  { unfold modify, ret.
    destruct (_ <- getitem_int ev 1 ;; _) as [d|e]; [|discriminate].
    destruct (str_method d "find") as [name|e]; [|discriminate].
    intros H; injection H as <- <- <-; cbn. rewrite orb_false_r.
    repeat split; lia. }
  unfold ret.
  destruct (is_str kind "IDLE"); intros H; injection H as <- <- <-;
    cbn; rewrite orb_false_r; repeat split; lia.
Qed.

Lemma job_loop_eq fuel job loc :
  job_loop json_loads py_str (S fuel) job loc =
  (l <~ readline ;;
   let l := rstrip l in
   if String.eqb l "]" then
     let lines' := (lines loc ++ [l])%list in
     second <~ lift (list_getitem lines' 1) ;;
     if String.eqb second "[" then
       event <~ lift (json_loads (join nl lines')) ;;
       modify (fun s => set_frames (frames s ++ [event])%list s) ;;;
       r <~ dispatch py_str job event (set_lines lines' loc) ;;
       match r with
       | (Break, _) => ret tt
       | (Continue, loc') => job_loop json_loads py_str fuel job (set_lines [] loc')
       end
     else job_loop json_loads py_str fuel job (set_lines [] loc)
   else job_loop json_loads py_str fuel job (set_lines (lines loc ++ [l])%list loc)).
Proof. reflexivity. Qed.




(** An output frame met while no test case has failed: [doPrintOutput]
    alone decides between the console and the pending output. *)
Lemma dispatch_append job kind chunk d rest loc s :
  In kind ["APPEND_STDOUT"; "APPEND_STDERR"] ->
  lookup "chunk" d = Some (JStr chunk) ->
  testCaseFailed loc = false ->
  dispatch py_str job (JList (JStr kind :: JDict d :: rest)) loc s =
  if doPrintOutput (self s)
  then (Done (Continue, loc), set_console (console s ++ [unescape chunk])%list s)
  else (Done (Continue,
              mkLocals (lines loc) (pendingOutput loc ++ [unescape chunk])%list
                       (didFail loc) (testCaseFailed loc) (testCaseName loc)),
        s).
Proof.
  intros Hk Hd Hf. unfold dispatch, mbind, lift, gets, message, modify, ret.
  cbn [getitem_int list_getitem nth_error getitem_str str_method bind].
  replace (in_strs (JStr kind) ["APPEND_STDOUT"; "APPEND_STDERR"]) with true.
  2:{ cbn in Hk. destruct Hk as [<-|[<-|[]]]; reflexivity. }
  rewrite Hd. cbn [bind str_method]. rewrite Hf. cbn [orb].
  destruct (doPrintOutput (self s)); reflexivity.
Qed.

(** A closing bracket that ends lines of which the second is not an
    opening bracket: the lines are dropped, nothing is decoded. *)
Lemma job_loop_discards fuel job loc s l s1 second :
  readline s = (Done l, s1) -> rstrip l = "]" ->
  nth_error (lines loc ++ ["]"]) 1 = Some second -> second <> "[" ->
  job_loop json_loads py_str (S fuel) job loc s
  = job_loop json_loads py_str fuel job (set_lines [] loc) s1.
Proof.
  intros Hr Hl Hn Hs. cbn [job_loop]. unfold mbind at 1. rewrite Hr. cbv zeta.
  rewrite Hl. cbn [String.eqb Ascii.eqb Bool.eqb]. unfold mbind at 1, lift, list_getitem.
  rewrite Hn. apply String.eqb_neq in Hs. rewrite Hs. reflexivity.
Qed.

(** Any other line is kept for the frame being read. *)
Lemma job_loop_collects fuel job loc s l s1 :
  readline s = (Done l, s1) -> rstrip l <> "]" ->
  job_loop json_loads py_str (S fuel) job loc s
  = job_loop json_loads py_str fuel job (set_lines (lines loc ++ [rstrip l]) loc) s1.
Proof.
  intros Hr Hl. cbn [job_loop]. unfold mbind at 1. rewrite Hr. cbv zeta.
  apply String.eqb_neq in Hl. rewrite Hl. reflexivity.
Qed.

(** A closing bracket read when no line is kept: [lines[1]] is out of
    range. *)
Lemma job_loop_bracket_alone fuel job loc s l s1 :
  readline s = (Done l, s1) -> rstrip l = "]" -> lines loc = [] ->
  job_loop json_loads py_str (S fuel) job loc s
  = (Fail (IndexError "list index out of range"), s1).
Proof.
  intros Hr Hl Hn. cbn [job_loop]. unfold mbind at 1. rewrite Hr. cbv zeta.
  rewrite Hl, Hn. reflexivity.
Qed.

(** Claim C8, on the code: when the first line of a job is a closing
    bracket, the job loop raises [IndexError], whatever the decoder. *)
Theorem bracket_as_first_line_raises :
  forall fuel job,
    fst (job_loop json_loads py_str (S fuel) job fresh_locals Sample.bracket_first)
    = Fail (IndexError "list index out of range").
Proof.
  intros fuel job.
  rewrite (job_loop_bracket_alone fuel job fresh_locals Sample.bracket_first
             ("]" ++ nl) (snd (readline Sample.bracket_first)));
    reflexivity.
Qed.

End Worker.

(** ** The test target of [main] *)

Lemma spawn_jvms_all (P : RunTestsJVM -> Prop) n cp v po tm :
  P (RunTestsJVM_init 0 cp v None po tm) -> Forall P (spawn_jvms n cp v po tm).
Proof.
  intros H. unfold spawn_jvms. apply Forall_forall. intros j Hj.
  apply in_map_iff in Hj as (i & <- & _). exact H.
Qed.

(** [getArg] only returns when the option is absent. *)
Lemma getArg_absent opt argv r :
  getArg opt argv = Ok r -> existsb (String.eqb opt) argv = false /\ r = (None, argv).
Proof.
  unfold getArg. destruct (existsb (String.eqb opt) argv).
  - discriminate.
  - intros H. injection H as <-. auto.
Qed.

Lemma getArg_present opt argv :
  existsb (String.eqb opt) argv = true ->
  getArg opt argv = Raise (AttributeError "'list' object has no attribute 'indexOf'").
Proof. unfold getArg. intros ->. reflexivity. Qed.

(** The workers of a test run: their output mode comes from the test name
    fragment, their verbosity from the [-verbose] flag, and all of them
    get the identifier 0 and no seed. *)
Lemma plan_tests_workers env what upto argv p :
  plan_tests env what upto argv = Ok p ->
  Forall (fun j =>
            doPrintOutput j = match plan_subString p with Some _ => true | None => false end
            /\ verbose j = existsb (String.eqb "-verbose") argv
            /\ seed j = None /\ id j = 0%Z)
         (plan_jvms p).
Proof.
  unfold plan_tests. destruct (getArg "-seed" argv) as [r|e] eqn:Hg; [|discriminate].
  apply getArg_absent in Hg as [_ ->]. cbn [bind].
  assert (Hv : fst (getFlag "-verbose" argv) = existsb (String.eqb "-verbose") argv).
  { unfold getFlag. destruct (existsb _ argv); reflexivity. }
  destruct (getFlag "-verbose" argv) as [v argv']. cbn in Hv. subst v.
  destruct (prepare env upto) as [testCP|e]; [|discriminate]. cbn [bind].
  destruct (parse_selection _ argv') as [[[sub tm] upto']|e]; [|discriminate]. cbn [bind].
  destruct (discover _ sub []) as [classes|e]; [|discriminate]. cbn [bind].
  destruct (require_tests sub classes); [|discriminate]. cbn [bind].
  intros H. injection H as <-. cbn [plan_jvms plan_subString].
  apply spawn_jvms_all. cbn. auto.
Qed.

Lemma report_failed F T S e :
  (F > 0)%Z -> snd (report F T S e) = Some 1%Z.
Proof.
  intros H. unfold report.
  replace (F >? 0)%Z with true by (symmetry; apply Z.gtb_lt; lia). reflexivity.
Qed.

Lemma report_passed T S e :
  (T > 0)%Z -> snd (report 0 T S e) = Some 0%Z.
Proof.
  intros H. unfold report. cbn [Z.gtb Z.compare].
  destruct (T =? 0)%Z eqn:E; [apply Z.eqb_eq in E; lia | reflexivity].
Qed.

Lemma report_none S e :
  report 0 0 S e = (nl ++ "FAILURE: no tests ran!", None).
Proof. reflexivity. Qed.

(** The line for no test at all is not the line of any run that exits. *)
Lemma report_line_distinct F T S e :
  snd (report F T S e) <> None -> fst (report F T S e) <> nl ++ "FAILURE: no tests ran!".
Proof.
  unfold report. destruct (F >? 0)%Z; [intros _; cbn; discriminate|].
  destruct (T =? 0)%Z; [intros H; now elim H|]. intros _; cbn; discriminate.
Qed.

Lemma test_word_not_other what :
  what = "test" \/ startswith what "Test" = true ->
  String.eqb what "clean" || String.eqb what "cleanlucene" || String.eqb what "package"
  = false.
Proof.
  intros H.
  destruct (String.eqb_spec what "clean") as [->|_];
    [destruct H; discriminate|].
  destruct (String.eqb_spec what "cleanlucene") as [->|_];
    [destruct H; discriminate|].
  destruct (String.eqb_spec what "package") as [->|_];
    [destruct H; discriminate|].
  reflexivity.
Qed.

(** One turn of the loop of [main] on a test target. *)
Lemma main_loop_test fuel env upto argv :
  upto < List.length argv ->
  (nth upto argv "" = "test" \/ startswith (nth upto argv "") "Test" = true) ->
  main_loop (S fuel) env upto argv =
  match test_target env (nth upto argv "") (upto + 1) argv with
  | (out, Raise e) => (out, Fail e)
  | (out, Ok (upto', argv')) =>
      let '(out', r) := main_loop fuel env upto' argv' in ((out ++ out')%list, r)
  end.
Proof.
  intros Hlt Hw. cbn [main_loop].
  apply Nat.ltb_lt in Hlt. rewrite Hlt.
  rewrite (test_word_not_other _ Hw).
  replace (String.eqb (nth upto argv "") "test" || startswith (nth upto argv "") "Test")
    with true; [reflexivity|].
  destruct Hw as [-> | ->]; [reflexivity | now rewrite orb_true_r].
Qed.

(** *** The loop of [main] ends within its fuel *)

Lemma list_remove_length x l :
  existsb (String.eqb x) l = true -> S (List.length (list_remove x l)) = List.length l.
Proof.
  induction l as [|y r IH]; [discriminate|]. cbn [existsb list_remove].
  destruct (String.eqb x y); [reflexivity|]. cbn [orb]. intros H.
  cbn [List.length]. rewrite (IH H). reflexivity.
Qed.

Lemma getFlag_length opt argv :
  snd (getFlag opt argv) = argv
  \/ S (List.length (snd (getFlag opt argv))) = List.length argv.
Proof.
  unfold getFlag. destruct (existsb (String.eqb opt) argv) eqn:E.
  - right. apply list_remove_length, E.
  - left. reflexivity.
Qed.

Lemma list_getitem_nth l i x :
  list_getitem l i = Ok x -> nth i l "" = x.
Proof.
  unfold list_getitem. destruct (nth_error l i) eqn:E; [|discriminate].
  intros H. injection H as <-. revert i E.
  induction l as [|y r IH]; intros [|i] E; try discriminate.
  - injection E as <-. reflexivity.
  - cbn. apply IH, E.
Qed.

Lemma parse_selection_upto u argv a b u' :
  parse_selection u argv = Ok (a, b, u') ->
  (u' = u + 1 /\ u < List.length argv)
  \/ (u' = u /\ u = List.length argv)
  \/ (u' = u /\ S u = List.length argv /\ nth u argv "" = "package").
Proof.
  unfold parse_selection.
  destruct (Nat.eqb_spec u (List.length argv)) as [E|E].
  { intros H. injection H as _ _ <-. right. left. auto. }
  destruct (Z.eqb_spec (Z.of_nat u) (Z.of_nat (List.length argv) - 1)) as [E1|E1];
    [|discriminate].
  destruct (list_getitem argv u) as [t|e] eqn:Ht; [|discriminate]. cbn [bind].
  apply list_getitem_nth in Ht.
  destruct (String.eqb_spec t "package") as [Ep|Ep]; cbn [negb].
  - intros H. injection H as _ _ <-. right. right. subst t. repeat split; auto. lia.
  - destruct (contains "." t).
    + destruct (negb _); [discriminate|].
      destruct (list_getitem _ 0); [|discriminate]. cbn [bind].
      destruct (list_getitem _ 1); [|discriminate]. cbn [bind].
      intros H. injection H as _ _ <-. left. split; lia.
    + intros H. injection H as _ _ <-. left. split; lia.
Qed.

(** A test target that falls through has moved [upto] closer to the end
    of [sys.argv]. *)
Lemma plan_tests_progress env upto argv p :
  upto < List.length argv ->
  plan_tests env (nth upto argv "") (upto + 1) argv = Ok p ->
  List.length (plan_argv p) - plan_upto p < List.length argv - upto.
Proof.
  intros Hlt. unfold plan_tests.
  destruct (getArg "-seed" argv) as [r|e] eqn:Hg; [|discriminate].
  apply getArg_absent in Hg as [_ ->]. cbn [bind].
  pose proof (getFlag_length "-verbose" argv) as Hfl.
  destruct (getFlag "-verbose" argv) as [v argv']. cbn [snd] in Hfl.
  destruct (prepare env (upto + 1)) as [testCP|e]; [|discriminate]. cbn [bind].
  destruct (parse_selection _ argv') as [[[sub tm] upto']|e] eqn:Hp; [|discriminate].
  cbn [bind].
  destruct (discover _ sub []) as [classes|e]; [|discriminate]. cbn [bind].
  destruct (require_tests sub classes); [|discriminate]. cbn [bind].
  intros H. injection H as <-. cbn [plan_argv plan_upto].
  apply parse_selection_upto in Hp.
  destruct (startswith (nth upto argv "") "Test") eqn:Hw.
  - replace (upto + 1 - 1) with upto in Hp by lia.
    destruct Hfl as [->|Hl].
    + destruct Hp as [[-> Hu]|[[-> Hu]|(-> & Hu & Hpk)]]; try lia.
      rewrite Hpk in Hw. discriminate.
    + destruct Hp as [[-> Hu]|[[-> Hu]|(-> & Hu & Hpk)]]; lia.
  - destruct Hfl as [->|Hl];
      destruct Hp as [[-> Hu]|[[-> Hu]|(-> & Hu & Hpk)]]; lia.
Qed.

Lemma test_target_progress env upto argv out upto' argv' :
  upto < List.length argv ->
  test_target env (nth upto argv "") (upto + 1) argv = (out, Ok (upto', argv')) ->
  List.length argv' - upto' < List.length argv - upto.
Proof.
  intros Hlt. unfold test_target.
  destruct (plan_tests env _ (upto + 1) argv) as [p|e] eqn:Hp; [|discriminate].
  apply plan_tests_progress in Hp; [|exact Hlt].
  destruct (report _ _ _ _) as [line [c|]]; [discriminate|].
  intros H. injection H as _ <- <-. exact Hp.
Qed.

(** With fuel for the targets left, the loop ends: normally or with an
    exception, never for want of fuel. *)
Lemma main_loop_ends fuel : forall env upto argv,
  List.length argv - upto <= fuel ->
  exists r, exit_status (snd (main_loop fuel env upto argv)) = Some r.
Proof.
  induction fuel as [|fuel IH]; intros env upto argv Hm.
  - cbn [main_loop]. destruct (Nat.ltb_spec upto (List.length argv)); [lia|].
    exists 0%Z. reflexivity.
  - cbn [main_loop]. destruct (Nat.ltb_spec upto (List.length argv)) as [Hlt|Hge];
      [|exists 0%Z; reflexivity].
    destruct (_ || _ || _).
    { destruct (other env _ _) as [u|e].
      - apply IH. lia.
      - destruct e; eexists; reflexivity. }
    destruct (_ || _).
    2:{ eexists; reflexivity. }
    destruct (test_target env _ _ argv) as [out [[upto' argv']|e]] eqn:Ht.
    + apply test_target_progress in Ht; [|exact Hlt].
      destruct (IH env upto' argv' ltac:(lia)) as [r Hr].
      destruct (main_loop fuel env upto' argv') as [out' r']. exists r. exact Hr.
    + destruct e; eexists; reflexivity.
Qed.

Lemma script_ends env argv :
  exists r, exit_status (snd (script env argv)) = Some r.
Proof.
  unfold script. destruct (List.length argv =? 1)%nat; [eexists; reflexivity|].
  apply main_loop_ends. lia.
Qed.

(** Claim C2. When [main] reaches a test target and the run completes
    (the workers are created and joined), the process exits with status 0
    if the summed [failCount] is 0 and the summed [testCount] is positive,
    and with status 1 if the summed [failCount] is positive; when no
    failure was counted and no test ran, it prints the line of its own
    [FAILURE: no tests ran!], which no run that exits prints, does not
    exit, and goes on with the next target. *)
Theorem exit_codes_of_test_run fuel env upto argv p :
  upto < List.length argv ->
  (nth upto argv "" = "test" \/ startswith (nth upto argv "") "Test" = true) ->
  plan_tests env (nth upto argv "") (upto + 1) argv = Ok p ->
  let jvms := pool env (upto + 1) (plan_jvms p)
                   (queue_contents (plan_classes p) (plan_jvmCount p)) in
  let failed := total failCount jvms in
  let ran := total testCount jvms in
  (failed = 0%Z -> (ran > 0)%Z ->
     exit_status (snd (main_loop (S fuel) env upto argv)) = Some 0%Z)
  /\ ((failed > 0)%Z ->
     exit_status (snd (main_loop (S fuel) env upto argv)) = Some 1%Z)
  /\ (failed = 0%Z -> ran = 0%Z ->
     exists banner,
       main_loop (S fuel) env upto argv =
       let '(out, r) := main_loop fuel env (plan_upto p) (plan_argv p) in
       (([banner; (nl ++ "FAILURE: no tests ran!")%string] ++ out)%list, r))
  /\ (forall F T S e, snd (report F T S e) <> None ->
        fst (report F T S e) <> nl ++ "FAILURE: no tests ran!").
Proof.
  intros Hlt Hw Hp jvms failed ran.
  rewrite (main_loop_test fuel env upto argv Hlt Hw).
  unfold test_target. rewrite Hp. fold jvms. fold failed. fold ran.
  split; [|split; [|split]].
  - intros -> Hr.
    destruct (report 0 ran _ _) as [line ex] eqn:E.
    pose proof (report_passed ran (total suiteCount jvms) (elapsed env (upto + 1)) Hr) as H.
    rewrite E in H. cbn in H. subst ex. reflexivity.
  - intros Hf.
    destruct (report failed ran _ _) as [line ex] eqn:E.
    pose proof (report_failed failed ran (total suiteCount jvms) (elapsed env (upto + 1)) Hf) as H.
    rewrite E in H. cbn in H. subst ex. reflexivity.
  - intros -> ->. rewrite report_none. eexists. reflexivity.
  - apply report_line_distinct.
Qed.

(** Instances of C2: one suite with a passing test, one suite with
    failures, one suite without any test. *)
Lemma exit_codes_of_test_run_witness :
  exit_status (snd (main_loop 2 (Sample.env_of Sample.one_class 4 Sample.passing_ticks)
                      1 ["build.py"; "test"])) = Some 0%Z
  /\ exit_status (snd (main_loop 2 (Sample.env_of Sample.one_class 4 Sample.failing_ticks)
                         1 ["build.py"; "TestFoo"])) = Some 1%Z
  /\ exists banner,
       main_loop 2 (Sample.env_of Sample.one_class 4 Sample.quiet_ticks) 1 ["build.py"; "test"]
       = let '(out, r) :=
           main_loop 1 (Sample.env_of Sample.one_class 4 Sample.quiet_ticks)
             (plan_upto (Sample.plan_of (Sample.env_of Sample.one_class 4 Sample.quiet_ticks)
                           ["build.py"; "test"]))
             (plan_argv (Sample.plan_of (Sample.env_of Sample.one_class 4 Sample.quiet_ticks)
                           ["build.py"; "test"])) in
         (([banner; (nl ++ "FAILURE: no tests ran!")%string] ++ out)%list, r).
Proof.
  split; [|split].
  - apply (proj1 (exit_codes_of_test_run 1
                    (Sample.env_of Sample.one_class 4 Sample.passing_ticks) 1 ["build.py"; "test"]
                    (Sample.plan_of (Sample.env_of Sample.one_class 4 Sample.passing_ticks)
                       ["build.py"; "test"])
                    ltac:(cbn; lia) ltac:(left; reflexivity) ltac:(vm_compute; reflexivity)));
      vm_compute; reflexivity.
  - apply (proj1 (proj2 (exit_codes_of_test_run 1
                    (Sample.env_of Sample.one_class 4 Sample.failing_ticks) 1 ["build.py"; "TestFoo"]
                    (Sample.plan_of (Sample.env_of Sample.one_class 4 Sample.failing_ticks)
                       ["build.py"; "TestFoo"])
                    ltac:(cbn; lia) ltac:(right; reflexivity) ltac:(vm_compute; reflexivity))));
      vm_compute; reflexivity.
  - apply (proj1 (proj2 (proj2 (exit_codes_of_test_run 1
                    (Sample.env_of Sample.one_class 4 Sample.quiet_ticks) 1 ["build.py"; "test"]
                    (Sample.plan_of (Sample.env_of Sample.one_class 4 Sample.quiet_ticks)
                       ["build.py"; "test"])
                    ltac:(cbn; lia) ltac:(left; reflexivity) ltac:(vm_compute; reflexivity)))));
      vm_compute; reflexivity.
Defined.

(** Claim C1, on the code: [main] gives every worker the identifier 0, so
    all workers name the same events file, [build/test/0.events]; with
    two test classes the two workers of the run do. *)
Theorem workers_share_one_events_file :
  (forall n cp v po tm,
     Forall (fun j => eventsFile j = "build/test/0.events") (spawn_jvms n cp v po tm))
  /\ map eventsFile
       (plan_jvms (Sample.plan_of (Sample.env_of Sample.two_classes 4 Sample.passing_ticks)
                     ["build.py"; "test"]))
     = ["build/test/0.events"; "build/test/0.events"].
Proof.
  split.
  - intros n cp v po tm. apply spawn_jvms_all. reflexivity.
  - vm_compute. reflexivity.
Qed.

(** Claim C3, on the code: a command line with [-seed] makes [getArg]
    raise [AttributeError] before anything runs, and the workers [main]
    creates never carry a seed. *)
Theorem seed_option_is_lost :
  (forall env S,
     script env ["build.py"; "test"; "-seed"; S]
     = ([], Fail (AttributeError "'list' object has no attribute 'indexOf'")))
  /\ (forall n cp v po tm,
        Forall (fun j => seed j = None) (spawn_jvms n cp v po tm)).
Proof.
  split.
  - intros env S. reflexivity.
  - intros n cp v po tm. apply spawn_jvms_all. reflexivity.
Qed.

(** The first half of C5 holds: without any test class the target raises. *)
Lemma no_test_classes_is_fatal sub :
  exists msg, require_tests sub [] = Raise (RuntimeError msg).
Proof. destruct sub; eexists; reflexivity. Qed.

(** Claim C5, on the code: when the only suite runs no test, the script
    prints its line and ends normally, with exit status 0. *)
Theorem no_tests_ran_is_not_fatal :
  script (Sample.env_of Sample.one_class 4 Sample.quiet_ticks) ["build.py"; "test"]
  = (["Running 1 tests in 1 JVMs"; nl ++ "FAILURE: no tests ran!"], Done tt)
  /\ exit_status
       (snd (script (Sample.env_of Sample.one_class 4 Sample.quiet_ticks) ["build.py"; "test"]))
     = Some 0%Z.
Proof. split; vm_compute; reflexivity. Qed.

(** ** Output frames and the two flags *)

(** Claim C6 as stated fails. In a run of all tests with [-verbose] the
    worker is verbose and the chunk is kept as pending output; in a run of
    one test class without [-verbose] the worker is not verbose and the
    chunk goes to the console. *)
Lemma verbose_does_not_select_echo :
  (exists j,
     plan_jvms (Sample.plan_of (Sample.env_of Sample.one_class 4 Sample.passing_ticks)
                  ["build.py"; "test"; "-verbose"]) = [j]
     /\ verbose j = true
     /\ dispatch Sample.no_str "org.TestFoo" Sample.stdout_frame fresh_locals
          (Sample.state_of j [])
        = (Done (Continue, mkLocals [] ["hi" ++ nl] false false None),
           Sample.state_of j []))
  /\ (exists j,
     plan_jvms (Sample.plan_of (Sample.env_of Sample.one_class 4 Sample.passing_ticks)
                  ["build.py"; "TestFoo"]) = [j]
     /\ verbose j = false
     /\ dispatch Sample.no_str "org.TestFoo" Sample.stdout_frame fresh_locals
          (Sample.state_of j [])
        = (Done (Continue, fresh_locals),
           set_console ["hi" ++ nl] (Sample.state_of j []))).
Proof.
  split; eexists; (split; [vm_compute; reflexivity|]);
    (split; [reflexivity|]); vm_compute; reflexivity.
Qed.

(** Claim C6, as the code has it. For an [APPEND_STDOUT] or
    [APPEND_STDERR] frame met while no test case has failed, the field
    [doPrintOutput] of the worker decides: set, the unescaped chunk goes
    to the console at once; unset, it joins the pending output. [main]
    sets that field exactly when a test name fragment was given; the
    [-verbose] flag sets the field [verbose], which this choice does not
    read. *)
Theorem doPrintOutput_selects_echo :
  (forall py_str job kind chunk d rest loc s,
     In kind ["APPEND_STDOUT"; "APPEND_STDERR"] ->
     lookup "chunk" d = Some (JStr chunk) ->
     testCaseFailed loc = false ->
     dispatch py_str job (JList (JStr kind :: JDict d :: rest)) loc s =
     if doPrintOutput (self s)
     then (Done (Continue, loc), set_console (console s ++ [unescape chunk])%list s)
     else (Done (Continue,
                 mkLocals (lines loc) (pendingOutput loc ++ [unescape chunk])%list
                          (didFail loc) (testCaseFailed loc) (testCaseName loc)),
           s))
  /\ (forall env what upto argv p,
     plan_tests env what upto argv = Ok p ->
     Forall (fun j =>
               doPrintOutput j
               = match plan_subString p with Some _ => true | None => false end
               /\ verbose j = existsb (String.eqb "-verbose") argv)
            (plan_jvms p)).
Proof.
  split.
  - intros. apply dispatch_append; assumption.
  - intros env what upto argv p H.
    eapply Forall_impl; [|apply (plan_tests_workers _ _ _ _ _ H)].
    cbn. intros j (H1 & H2 & _). auto.
Qed.

(** Instances of C6 as amended: a worker with [doPrintOutput] unset keeps
    the chunk, whatever [verbose] is; the workers of a verbose run of all
    tests have [doPrintOutput] unset. *)
Lemma doPrintOutput_selects_echo_witness :
  dispatch Sample.no_str "org.TestFoo" Sample.stdout_frame fresh_locals
    (Sample.state_of Sample.verbose_jvm [])
  = (Done (Continue, mkLocals [] ["hi" ++ nl] false false None),
     Sample.state_of Sample.verbose_jvm [])
  /\ Forall (fun j => doPrintOutput j = false /\ verbose j = true)
       (plan_jvms (Sample.plan_of (Sample.env_of Sample.one_class 4 Sample.passing_ticks)
                     ["build.py"; "test"; "-verbose"])).
Proof.
  split.
  - apply (proj1 doPrintOutput_selects_echo Sample.no_str "org.TestFoo" "APPEND_STDOUT"
             "hi%0A" [("chunk", JStr "hi%0A")] [] fresh_locals
             (Sample.state_of Sample.verbose_jvm [])).
    + left. reflexivity.
    + reflexivity.
    + reflexivity.
  - apply (proj2 doPrintOutput_selects_echo
             (Sample.env_of Sample.one_class 4 Sample.passing_ticks) "test" 2
             ["build.py"; "test"; "-verbose"]
             (Sample.plan_of (Sample.env_of Sample.one_class 4 Sample.passing_ticks)
                ["build.py"; "test"; "-verbose"])).
    vm_compute. reflexivity.
Defined.

(** * Further properties *)

(** ** [unescape] *)

Lemma prefix_app p : forall s, prefix p s = true -> exists r, s = p ++ r.
Proof.
  induction p as [|a p IH]; intros s H.
  - exists s. reflexivity.
  - destruct s as [|c s]; [discriminate|].
    apply prefix_cons_inv in H as [<- H]. destruct (IH _ H) as [r ->].
    exists r. reflexivity.
Qed.

(** How [unescape] treats the head of a text. *)
Lemma unescape_head c r :
  (exists r', String c r = "%0A" ++ r' /\ unescape (String c r) = String LF (unescape r'))
  \/ (exists r', String c r = "%09" ++ r' /\ unescape (String c r) = String HT (unescape r'))
  \/ (prefix "%0A" (String c r) = false /\ prefix "%09" (String c r) = false
      /\ unescape (String c r) = String c (unescape r)).
Proof.
  destruct (prefix "%0A" (String c r)) eqn:HA.
  { left. destruct (prefix_app _ _ HA) as [r' E]. exists r'. split; [exact E|].
    rewrite E. apply unescape_cons_lf. }
  destruct (prefix "%09" (String c r)) eqn:H9.
  { right. left. destruct (prefix_app _ _ H9) as [r' E]. exists r'. split; [exact E|].
    rewrite E. apply unescape_cons_ht. }
  right. right. repeat split. apply unescape_cons_plain; assumption.
Qed.

Lemma prefix_one x e r : prefix (String x "") (String e r) = true -> x = e.
Proof. intros H. apply prefix_cons_inv in H as [H _]. exact H. Qed.

Lemma prefix_zero_after_unescape x r :
  x <> LF -> x <> HT ->
  prefix (String "0" (String x "")) (unescape r) = true ->
  prefix (String "0" (String x "")) r = true.
Proof.
  intros HL HT0. destruct r as [|d r1]; [discriminate|].
  destruct (unescape_head d r1) as [(r' & _ & ->)|[(r' & _ & ->)|(_ & _ & ->)]].
  - intros H. apply prefix_cons_inv in H as [H _]. discriminate.
  - intros H. apply prefix_cons_inv in H as [H _]. discriminate.
  - intros H. apply prefix_cons_inv in H as [<- H].
    destruct r1 as [|e r2]; [discriminate|].
    destruct (unescape_head e r2) as [(r' & _ & E)|[(r' & _ & E)|(_ & _ & E)]];
      rewrite E in H; apply prefix_one in H.
    + congruence.
    + congruence.
    + subst e. cbn [prefix]. destruct (ascii_dec "0" "0"); [|congruence].
      destruct (ascii_dec x x); [|congruence]. destruct r2; reflexivity.
Qed.

Lemma unescape_leaves_no_escape_bounded x n :
  x = "A"%char \/ x = "9"%char ->
  forall s, String.length s <= n ->
    contains (String "%" (String "0" (String x ""))) (unescape s) = false.
Proof.
  intros Hx.
  assert (HL : x <> LF) by (destruct Hx; subst; discriminate).
  assert (HT0 : x <> HT) by (destruct Hx; subst; discriminate).
  induction n as [|n IH]; intros s Hlen.
  - destruct s; [reflexivity | simpl in Hlen; lia].
  - destruct s as [|c r]; [reflexivity|]. simpl in Hlen.
    destruct (unescape_head c r) as [(r' & E & ->)|[(r' & E & ->)|(HA & H9 & ->)]].
    + cbn [contains]. rewrite IH.
      * rewrite orb_false_r. cbn [prefix]. destruct (ascii_dec "%" LF); [discriminate|reflexivity].
      * apply (f_equal String.length) in E. cbn in E. lia.
    + cbn [contains]. rewrite IH.
      * rewrite orb_false_r. cbn [prefix]. destruct (ascii_dec "%" HT); [discriminate|reflexivity].
      * apply (f_equal String.length) in E. cbn in E. lia.
    + cbn [contains]. rewrite IH by lia. rewrite orb_false_r.
      destruct (prefix _ (String c (unescape r))) eqn:Hp; [|reflexivity].
      apply prefix_cons_inv in Hp as [<- Hp].
      apply prefix_zero_after_unescape in Hp; [|assumption|assumption].
      assert (Hs : prefix (String "%" (String "0" (String x ""))) (String "%" r) = true).
      { cbn [prefix]. destruct (ascii_dec "%" "%"); [exact Hp | congruence]. }
      destruct Hx; subst x; congruence.
Qed.

Lemma unescape_shrinks_bounded n : forall s,
  String.length s <= n -> String.length (unescape s) <= String.length s.
Proof.
  induction n as [|n IH]; intros s Hlen.
  - destruct s; [cbn; lia | simpl in Hlen; lia].
  - destruct s as [|c r]; [cbn; lia|]. simpl in Hlen.
    destruct (unescape_head c r) as [(r' & E & ->)|[(r' & E & ->)|(HA & H9 & ->)]].
    + rewrite E. apply (f_equal String.length) in E. cbn in E.
      cbn [String.length append]. specialize (IH r' ltac:(lia)). lia.
    + rewrite E. apply (f_equal String.length) in E. cbn in E.
      cbn [String.length append]. specialize (IH r' ltac:(lia)). lia.
    + cbn [String.length]. specialize (IH r ltac:(lia)). lia.
Qed.

(** X1. What [unescape] returns holds no [%0A] and no [%09], so that
    unescaping twice is unescaping once, on every text; and the result is
    never longer than the text. *)
Theorem unescape_idempotent s :
  contains "%0A" (unescape s) = false
  /\ contains "%09" (unescape s) = false
  /\ unescape (unescape s) = unescape s
  /\ String.length (unescape s) <= String.length s.
Proof.
  assert (HA : contains "%0A" (unescape s) = false)
    by (apply (unescape_leaves_no_escape_bounded "A" (String.length s)); auto).
  assert (H9 : contains "%09" (unescape s) = false)
    by (apply (unescape_leaves_no_escape_bounded "9" (String.length s)); auto).
  repeat split; auto.
  - unfold unescape at 1. rewrite (replace_absent "%0A") by (discriminate || assumption).
    apply replace_absent; [discriminate | assumption].
  - apply (unescape_shrinks_bounded (String.length s)). lia.
Qed.

(** ** The command line *)

Lemma existsb_eqb_In x l : existsb (String.eqb x) l = true <-> In x l.
Proof.
  rewrite existsb_exists. split.
  - intros (y & Hy & E). apply String.eqb_eq in E. subst. exact Hy.
  - intros H. exists x. split; [exact H | apply String.eqb_refl].
Qed.

Lemma existsb_eqb_not_In x l : existsb (String.eqb x) l = false <-> ~ In x l.
Proof.
  rewrite <- existsb_eqb_In. destruct (existsb (String.eqb x) l); split; congruence.
Qed.

Lemma list_remove_first x pre post :
  ~ In x pre -> list_remove x (pre ++ x :: post) = (pre ++ post)%list.
Proof.
  induction pre as [|y pre IH]; cbn [app list_remove]; intros H.
  - rewrite String.eqb_refl. reflexivity.
  - destruct (String.eqb_spec x y) as [->|_].
    + elim H. left. reflexivity.
    + rewrite IH; [reflexivity|]. intros Hin. apply H. right. exact Hin.
Qed.

(** X2. [getFlag]: without the option in [sys.argv] the answer is [False]
    and [sys.argv] is as before; with it, the answer is [True] and the
    first occurrence is gone, the rest staying in order. *)
Theorem getFlag_removes_first_occurrence opt argv :
  (~ In opt argv -> getFlag opt argv = (false, argv))
  /\ (forall pre post, argv = (pre ++ opt :: post)%list -> ~ In opt pre ->
      getFlag opt argv = (true, (pre ++ post)%list)).
Proof.
  unfold getFlag. split.
  - intros H. apply existsb_eqb_not_In in H. rewrite H. reflexivity.
  - intros pre post -> H.
    replace (existsb (String.eqb opt) (pre ++ opt :: post)) with true.
    + rewrite (list_remove_first _ _ _ H). reflexivity.
    + symmetry. apply existsb_eqb_In, in_or_app. right. left. reflexivity.
Qed.

(** An instance of X2. *)
Lemma getFlag_removes_first_occurrence_witness :
  getFlag "-verbose" ["build.py"; "test"] = (false, ["build.py"; "test"])
  /\ getFlag "-verbose" ["build.py"; "test"; "-verbose"; "TestFoo"; "-verbose"]
     = (true, ["build.py"; "test"; "TestFoo"; "-verbose"]).
Proof.
  split.
  - apply (proj1 (getFlag_removes_first_occurrence "-verbose" ["build.py"; "test"])).
    intros [H|[H|[]]]; discriminate H.
  - apply (proj2 (getFlag_removes_first_occurrence "-verbose"
                    ["build.py"; "test"; "-verbose"; "TestFoo"; "-verbose"])
             ["build.py"; "test"] ["TestFoo"; "-verbose"]).
    + reflexivity.
    + intros [H|[H|[]]]; discriminate H.
Defined.

(** X3. [getArg] returns only when the option is not in [sys.argv], and
    then gives [None] and leaves [sys.argv] alone; whenever the option is
    there, with or without a value after it, the call raises
    [AttributeError]. *)
Theorem getArg_returns_only_when_absent opt argv :
  (forall r, getArg opt argv = Ok r <-> ~ In opt argv /\ r = (None, argv))
  /\ (In opt argv ->
      getArg opt argv = Raise (AttributeError "'list' object has no attribute 'indexOf'")).
Proof.
  split.
  - intros r. split.
    + intros H. apply getArg_absent in H as [H ->].
      split; [apply existsb_eqb_not_In, H | reflexivity].
    + intros [H ->]. apply existsb_eqb_not_In in H. unfold getArg. rewrite H. reflexivity.
  - intros H. apply getArg_present, existsb_eqb_In, H.
Qed.

(** An instance of X3. *)
Lemma getArg_returns_only_when_absent_witness :
  getArg "-seed" ["build.py"; "test"] = Ok (None, ["build.py"; "test"])
  /\ getArg "-seed" ["build.py"; "test"; "-seed"]
     = Raise (AttributeError "'list' object has no attribute 'indexOf'").
Proof.
  split.
  - apply (proj1 (getArg_returns_only_when_absent "-seed" ["build.py"; "test"])).
    split; [|reflexivity]. intros [H|[H|[]]]; discriminate H.
  - apply (proj2 (getArg_returns_only_when_absent "-seed" ["build.py"; "test"; "-seed"])).
    right. right. left. reflexivity.
Defined.

(** ** The test name fragment *)

Lemma split_char_nonempty sep s : split_char sep s <> [].
Proof.
  destruct s as [|c r]; cbn [split_char]; [discriminate|].
  destruct (Ascii.eqb c sep); [discriminate|].
  destruct (split_char sep r); discriminate.
Qed.

Lemma concat_cons sep x l :
  l <> [] -> String.concat sep (x :: l) = x ++ sep ++ String.concat sep l.
Proof. destruct l; [congruence | reflexivity]. Qed.

(** Joining what [split] gives, with the separator, gives the text back,
    and no part holds the separator. *)
Lemma split_char_join sep s :
  String.concat (String sep "") (split_char sep s) = s
  /\ Forall (fun part => has_char sep part = false) (split_char sep s).
Proof.
  induction s as [|c r [IH1 IH2]].
  - split; [reflexivity | repeat constructor].
  - cbn [split_char]. destruct (Ascii.eqb_spec c sep) as [->|Hne].
    + split.
      * rewrite concat_cons by apply split_char_nonempty. rewrite IH1. reflexivity.
      * constructor; [reflexivity | exact IH2].
    + pose proof (split_char_nonempty sep r) as Hn.
      destruct (split_char sep r) as [|h t]; [congruence|]. split.
      * destruct t as [|h' t'].
        { cbn in IH1 |- *. subst h. reflexivity. }
        { rewrite concat_cons by discriminate.
          rewrite concat_cons in IH1 by discriminate.
          cbn [append] in IH1 |- *. rewrite IH1. reflexivity. }
      * inversion IH2; subst. constructor; [|assumption].
        cbn [has_char]. apply Ascii.eqb_neq in Hne. rewrite Hne. assumption.
Qed.

Lemma split_char_whole sep s : has_char sep s = false -> split_char sep s = [s].
Proof.
  induction s as [|c r IH]; [reflexivity|]. cbn [has_char split_char].
  intros H. apply orb_false_iff in H as [Hc Hr]. rewrite Hc, (IH Hr). reflexivity.
Qed.

Lemma split_char_app sep a b :
  has_char sep a = false ->
  split_char sep (a ++ String sep b) = a :: split_char sep b.
Proof.
  induction a as [|c r IH]; cbn [has_char append split_char].
  - intros _. rewrite Ascii.eqb_refl. reflexivity.
  - intros H. apply orb_false_iff in H as [Hc Hr]. rewrite Hc, (IH Hr). reflexivity.
Qed.

Lemma contains_dot_app a b : contains "." (a ++ String "." b) = true.
Proof.
  induction a as [|c r IH]; cbn [append contains].
  - cbn [prefix]. destruct (ascii_dec "." "."); [|congruence]. destruct b; reflexivity.
  - rewrite IH. apply orb_true_r.
Qed.

Lemma contains_char_has c s :
  contains (String c "") s = has_char c s.
Proof.
  induction s as [|d r IH]; [reflexivity|].
  cbn [contains has_char prefix]. rewrite IH.
  destruct (ascii_dec c d) as [->|Hn].
  - rewrite Ascii.eqb_refl. destruct r; reflexivity.
  - destruct (Ascii.eqb_spec d c); [congruence | reflexivity].
Qed.

Lemma list_getitem_Ok {A} (l : list A) i x : nth_error l i = Some x -> list_getitem l i = Ok x.
Proof. unfold list_getitem. intros ->. reflexivity. Qed.

(** X4. The argument after a test target (lines 414 to 434): none, all
    tests run; more than one, the call raises; the last one [package], all
    tests run and [package] stays the next target; a name without a dot is
    the fragment; [Class.method] gives the fragment and the method; two
    dots or more raise. *)
Theorem parse_selection_cases upto argv :
  (upto = List.length argv -> parse_selection upto argv = Ok (None, None, upto))
  /\ (S upto < List.length argv ->
      parse_selection upto argv
      = Raise (RuntimeError "at most one test substring can be specified"))
  /\ (forall t, S upto = List.length argv -> nth_error argv upto = Some t ->
      (t = "package" -> parse_selection upto argv = Ok (None, None, upto))
      /\ (t <> "package" -> has_char "." t = false ->
          parse_selection upto argv = Ok (Some t, None, upto + 1))
      /\ (forall a b, t = a ++ String "." b -> has_char "." a = false ->
          has_char "." b = false ->
          parse_selection upto argv = Ok (Some a, Some b, upto + 1))
      /\ (forall a b c, t = a ++ String "." (b ++ String "." c) ->
          has_char "." a = false -> has_char "." b = false ->
          parse_selection upto argv
          = Raise (RuntimeError
                     "test fragment should be either TestFoo or TessFoo.testMethod"))).
Proof.
  unfold parse_selection. split; [|split].
  - intros ->. rewrite Nat.eqb_refl. reflexivity.
  - intros H. destruct (Nat.eqb_spec upto (List.length argv)); [lia|].
    destruct (Z.eqb_spec (Z.of_nat upto) (Z.of_nat (List.length argv) - 1)); [lia|].
    reflexivity.
  - intros t Hlen Hn.
    destruct (Nat.eqb_spec upto (List.length argv)); [lia|].
    destruct (Z.eqb_spec (Z.of_nat upto) (Z.of_nat (List.length argv) - 1)); [|lia].
    rewrite (list_getitem_Ok _ _ _ Hn). cbn [bind].
    split; [|split; [|split]].
    + intros ->. reflexivity.
    + intros Hp Hd. apply String.eqb_neq in Hp. rewrite Hp. cbn [negb].
      rewrite contains_char_has, Hd. reflexivity.
    + intros a b -> Ha Hb.
      assert (Hp : String.eqb (a ++ String "." b) "package" = false).
      { apply String.eqb_neq. intros E.
        pose proof (contains_dot_app a b) as Hc. rewrite E in Hc. discriminate. }
      rewrite Hp. cbn [negb]. rewrite contains_dot_app.
      rewrite (split_char_app "." a b Ha), (split_char_whole "." b Hb). reflexivity.
    + intros a b c -> Ha Hb.
      assert (Hp : String.eqb (a ++ String "." (b ++ String "." c)) "package" = false).
      { apply String.eqb_neq. intros E.
        pose proof (contains_dot_app a (b ++ String "." c)) as Hc.
        rewrite E in Hc. discriminate. }
      rewrite Hp. cbn [negb]. rewrite contains_dot_app.
      rewrite (split_char_app "." a _ Ha), (split_char_app "." b _ Hb).
      pose proof (split_char_nonempty "." c) as Hn'.
      destruct (split_char "." c); [congruence|]. reflexivity.
Qed.

(** Instances of X4. *)
Lemma parse_selection_cases_witness :
  parse_selection 2 ["build.py"; "test"] = Ok (None, None, 2)
  /\ parse_selection 2 ["build.py"; "test"; "TestFoo"; "TestBar"]
     = Raise (RuntimeError "at most one test substring can be specified")
  /\ parse_selection 2 ["build.py"; "test"; "package"] = Ok (None, None, 2)
  /\ parse_selection 1 ["build.py"; "TestFoo"] = Ok (Some "TestFoo", None, 2)
  /\ parse_selection 1 ["build.py"; "TestFoo.testBar"] = Ok (Some "TestFoo", Some "testBar", 2)
  /\ parse_selection 1 ["build.py"; "TestFoo.testBar.x"]
     = Raise (RuntimeError "test fragment should be either TestFoo or TessFoo.testMethod").
Proof.
  split; [|split; [|split; [|split; [|split]]]].
  - apply (proj1 (parse_selection_cases 2 ["build.py"; "test"])). reflexivity.
  - apply (proj1 (proj2 (parse_selection_cases 2 ["build.py"; "test"; "TestFoo"; "TestBar"]))).
    cbn. lia.
  - apply (proj1 (proj2 (proj2 (parse_selection_cases 2 ["build.py"; "test"; "package"]))
                   "package" eq_refl eq_refl)).
    reflexivity.
  - apply (proj1 (proj2 (proj2 (proj2 (parse_selection_cases 1 ["build.py"; "TestFoo"]))
                          "TestFoo" eq_refl eq_refl))).
    + discriminate.
    + reflexivity.
  - apply (proj1 (proj2 (proj2 (proj2 (proj2 (parse_selection_cases 1
                                                 ["build.py"; "TestFoo.testBar"]))
                                   "TestFoo.testBar" eq_refl eq_refl)))
             "TestFoo" "testBar"); reflexivity.
  - apply (proj2 (proj2 (proj2 (proj2 (proj2 (parse_selection_cases 1
                                                 ["build.py"; "TestFoo.testBar.x"]))
                                   "TestFoo.testBar.x" eq_refl eq_refl)))
             "TestFoo" "testBar" "x"); reflexivity.
Defined.

(** ** The choice of the test classes *)

Lemma scan_files_all root files : forall acc,
  scan_files root files None acc
  = Ok (acc ++ map (class_name root) (filter (selectable None root) files))%list.
Proof.
  induction files as [|f files IH]; intros acc; cbn [scan_files filter map].
  - rewrite app_nil_r. reflexivity.
  - unfold selectable at 1.
    destruct (startswith f "Test" && endswith f ".class" && negb (contains "$" f)).
    + cbn [andb map]. rewrite IH, <- app_assoc. reflexivity.
    + cbn [andb]. apply IH.
Qed.

Lemma at_most_one_two sub a b l : at_most_one sub (a :: b :: l) = Raise (ambiguous sub a b).
Proof. reflexivity. Qed.

Lemma scan_files_fragment root sub files : forall acc,
  List.length acc <= 1 ->
  scan_files root files (Some sub) acc
  = at_most_one sub (acc ++ map (class_name root)
                               (filter (selectable (Some sub) root) files))%list.
Proof.
  induction files as [|f files IH]; intros acc Hacc; cbn [scan_files filter map].
  - rewrite app_nil_r. destruct acc as [|a [|b acc]]; [reflexivity|reflexivity|cbn in Hacc; lia].
  - unfold selectable at 1.
    destruct (startswith f "Test" && endswith f ".class" && negb (contains "$" f));
      cbn [andb]; [|apply IH, Hacc].
    destruct (contains sub (root ++ "/" ++ f)); [|apply IH, Hacc].
    cbn [map]. destruct acc as [|a [|b acc]]; [| |cbn in Hacc; lia].
    + rewrite IH by (cbn; lia). reflexivity.
    + reflexivity.
Qed.

Lemma discover_all walk : forall acc,
  discover walk None acc = Ok (acc ++ candidates walk None)%list.
Proof.
  induction walk as [|[root files] walk IH]; intros acc; cbn [discover candidates flat_map].
  - rewrite app_nil_r. reflexivity.
  - rewrite scan_files_all. cbn [bind]. rewrite IH, <- app_assoc. reflexivity.
Qed.

Lemma at_most_one_app sub found more :
  at_most_one sub found = Ok found ->
  forall r, at_most_one sub (found ++ more) = r ->
  (found <- at_most_one sub found ;; at_most_one sub (found ++ more)) = r.
Proof. intros -> r <-. reflexivity. Qed.

Lemma discover_fragment sub walk : forall acc,
  List.length acc <= 1 ->
  discover walk (Some sub) acc = at_most_one sub (acc ++ candidates walk (Some sub))%list.
Proof.
  induction walk as [|[root files] walk IH]; intros acc Hacc;
    cbn [discover candidates flat_map fst snd].
  - rewrite app_nil_r. destruct acc as [|a [|b acc]]; [reflexivity|reflexivity|cbn in Hacc; lia].
  - rewrite scan_files_fragment by exact Hacc.
    set (here := map (class_name root) (filter (selectable (Some sub) root) files)).
    fold (candidates walk (Some sub)).
    destruct (acc ++ here)%list as [|a [|b l]] eqn:E.
    + cbn [at_most_one bind]. rewrite IH by (cbn; lia).
      rewrite app_assoc, E. reflexivity.
    + cbn [at_most_one bind]. rewrite IH by (cbn; lia).
      rewrite app_assoc, E. reflexivity.
    + cbn [at_most_one bind]. rewrite app_assoc, E. reflexivity.
Qed.

(** X5. Without a fragment [main] takes every file whose name starts with
    [Test], ends with [.class] and holds no dollar sign, in the order of
    the walk. With a fragment it takes the files of that kind whose path
    holds the fragment: none or one is kept, and a second one raises the
    error that names the first two. *)
Theorem discover_selects walk :
  discover walk None [] = Ok (candidates walk None)
  /\ (forall sub,
      discover walk (Some sub) [] =
      match candidates walk (Some sub) with
      | first :: second :: _ => Raise (ambiguous sub first second)
      | found => Ok found
      end).
Proof.
  split.
  - apply (discover_all walk []).
  - intros sub. rewrite discover_fragment by (cbn; lia). cbn [app].
    unfold at_most_one. destruct (candidates walk (Some sub)) as [|a [|b l]]; reflexivity.
Qed.

(** X6. When the test target gets as far as creating workers: the classes
    are the ones chosen above and there is at least one; with a fragment
    there is exactly one; the number of workers is the smaller of the
    number of processors and the number of classes, so at least one
    worker when there is a processor. *)
Theorem plan_tests_shape env what upto argv p :
  plan_tests env what upto argv = Ok p ->
  plan_classes p = candidates (walk env upto) (plan_subString p)
  /\ plan_classes p <> []
  /\ (plan_subString p <> None -> List.length (plan_classes p) = 1)
  /\ plan_jvmCount p = Nat.min (cpu_count env) (List.length (plan_classes p))
  /\ List.length (plan_jvms p) = plan_jvmCount p
  /\ (1 <= cpu_count env -> 1 <= List.length (plan_jvms p)).
Proof.
  unfold plan_tests. destruct (getArg "-seed" argv) as [r|e] eqn:Hg; [|discriminate].
  apply getArg_absent in Hg as [_ ->]. cbn [bind].
  destruct (getFlag "-verbose" argv) as [v argv'].
  destruct (prepare env upto) as [testCP|e]; [|discriminate]. cbn [bind].
  destruct (parse_selection _ argv') as [[[sub tm] upto']|e]; [|discriminate]. cbn [bind].
  destruct (discover _ sub []) as [classes|e] eqn:Hd; [|discriminate]. cbn [bind].
  destruct (require_tests sub classes) eqn:Hr; [|discriminate]. cbn [bind].
  intros H. injection H as <-.
  cbn [plan_classes plan_subString plan_jvmCount plan_jvms].
  assert (Hne : classes <> []).
  { intros ->. unfold require_tests in Hr. cbn in Hr. destruct sub; discriminate. }
  assert (Hc : classes = candidates (walk env upto) sub
               /\ (sub <> None -> List.length classes = 1)).
  { destruct sub as [sub|].
    - rewrite discover_fragment in Hd by (cbn; lia). cbn [app] in Hd.
      unfold at_most_one in Hd.
      destruct (candidates (walk env upto) (Some sub)) as [|c1 [|c2 cl]];
        try discriminate; injection Hd as <-; split; auto. congruence.
    - rewrite (discover_all _ []) in Hd. cbn [app] in Hd. injection Hd as <-.
      split; [reflexivity | congruence]. }
  destruct Hc as [Hc1 Hc2].
  assert (Hl : List.length
                 (spawn_jvms (Nat.min (cpu_count env) (List.length classes)) testCP v
                    match sub with Some _ => true | None => false end tm)
               = Nat.min (cpu_count env) (List.length classes)).
  { unfold spawn_jvms. rewrite length_map, length_seq. reflexivity. }
  repeat split; auto.
  intros Hcpu. rewrite Hl. destruct classes; [congruence|]. cbn [List.length]. lia.
Qed.

(** An instance of X6: two classes on four processors. *)
Lemma plan_tests_shape_witness :
  plan_classes (Sample.plan_of (Sample.env_of Sample.two_classes 4 Sample.passing_ticks)
                  ["build.py"; "test"])
  = ["org.TestFoo"; "org.TestBar"]
  /\ List.length
       (plan_jvms (Sample.plan_of (Sample.env_of Sample.two_classes 4 Sample.passing_ticks)
                     ["build.py"; "test"]))
     = 2.
Proof.
  destruct (plan_tests_shape (Sample.env_of Sample.two_classes 4 Sample.passing_ticks)
              "test" 2 ["build.py"; "test"]
              (Sample.plan_of (Sample.env_of Sample.two_classes 4 Sample.passing_ticks)
                 ["build.py"; "test"]))
    as (H1 & _ & _ & H4 & H5 & _).
  - vm_compute. reflexivity.
  - split.
    + rewrite H1. vm_compute. reflexivity.
    + rewrite H5, H4. vm_compute. reflexivity.
Defined.

(** ** The worker thread *)

Lemma started_not_append kind :
  is_str kind "TEST_STARTED" = true ->
  in_strs kind ["APPEND_STDOUT"; "APPEND_STDERR"] = false
  /\ in_strs kind ["TEST_FAILURE"; "SUITE_FAILURE"] = false.
Proof.
  destruct kind; try discriminate. cbn [is_str in_strs existsb].
  intros H. apply String.eqb_eq in H. subst. split; reflexivity.
Qed.

Lemma idle_not_other kind :
  is_str kind "IDLE" = true ->
  in_strs kind ["APPEND_STDOUT"; "APPEND_STDERR"] = false
  /\ in_strs kind ["TEST_FAILURE"; "SUITE_FAILURE"] = false
  /\ is_str kind "TEST_STARTED" = false.
Proof.
  destruct kind; try discriminate. cbn [is_str in_strs existsb].
  intros H. apply String.eqb_eq in H. subst. repeat split; reflexivity.
Qed.

Lemma same_settings_refl a : same_settings a a.
Proof. unfold same_settings. tauto. Qed.

Lemma same_settings_trans a b c : same_settings a b -> same_settings b c -> same_settings a c.
Proof. unfold same_settings. intuition congruence. Qed.

Section WorkerEffects.

Variable json_loads : string -> result json.
Variable py_str : json -> string.

Ltac done_keeps :=
  unfold dispatch_keeps, same_settings; cbn; repeat split; try reflexivity; try lia.

Lemma dispatch_effect job ev loc s r s' :
  dispatch py_str job ev loc s = (r, s') ->
  dispatch_keeps s s'
  /\ testCount (self s')
     = (testCount (self s) + if is_started_frame ev then 1 else 0)%Z
  /\ (failCount (self s) <= failCount (self s'))%Z
  /\ (failCount (self s')
      <= failCount (self s) + if is_failure_frame ev && negb (didFail loc) then 1 else 0)%Z
  /\ (forall e, r = Fail e -> failCount (self s') = failCount (self s))
  /\ r <> Blocked /\ r <> OutOfFuel.
Proof.
  unfold dispatch, is_failure_frame, is_started_frame, mbind, lift.
  destruct (getitem_int ev 0) as [kind|e].
  2:{ intros H; injection H as <- <-. done_keeps; discriminate. }
  destruct (in_strs kind ["APPEND_STDOUT"; "APPEND_STDERR"]) eqn:HA.
  { rewrite (kinds_apart _ HA).
    assert (HS : is_str kind "TEST_STARTED" = false).
    { destruct (is_str kind "TEST_STARTED") eqn:E; [|reflexivity].
      apply started_not_append in E as [E _]. congruence. }
    rewrite HS.
    destruct (_ <- getitem_int ev 1 ;; _) as [raw|e].
    2:{ intros H; injection H as <- <-. done_keeps; discriminate. }
    unfold gets, message, modify, ret.
    destruct (testCaseFailed loc || doPrintOutput (self s));
      intros H; injection H as <- <-; done_keeps; discriminate. }
  destruct (in_strs kind ["TEST_FAILURE"; "SUITE_FAILURE"]) eqn:HF.
  { assert (HS : is_str kind "TEST_STARTED" = false).
    { destruct (is_str kind "TEST_STARTED") eqn:E; [|reflexivity].
      apply started_not_append in E as [_ E]. congruence. }
    rewrite HS.
    destruct (_ <- getitem_int ev 1 ;; _) as [details|e].
    2:{ intros H; injection H as <- <-. done_keeps; try discriminate.
        destruct (didFail loc); cbn; lia. }
    destruct (contains_str "message" details) as [has|e].
    2:{ intros H; injection H as <- <-. done_keeps; try discriminate.
        destruct (didFail loc); cbn; lia. }
    destruct has.
    - destruct (getitem_str details "message") as [m|e].
      2:{ intros H; injection H as <- <-. done_keeps; try discriminate.
          destruct (didFail loc); cbn; lia. }
      unfold ret, message, modify.
      destruct (getitem_str details "trace") as [t|e].
      2:{ intros H; injection H as <- <-. done_keeps; try discriminate.
          destruct (didFail loc); cbn; lia. }
      destruct (didFail loc); intros H; injection H as <- <-; done_keeps; discriminate.
    - unfold ret, message, modify.
      destruct (getitem_str details "trace") as [t|e].
      2:{ intros H; injection H as <- <-. done_keeps; try discriminate.
          destruct (didFail loc); cbn; lia. }
      destruct (didFail loc); intros H; injection H as <- <-; done_keeps; discriminate. }
  destruct (is_str kind "TEST_STARTED").
  { unfold modify, ret.
    destruct (_ <- getitem_int ev 1 ;; _) as [d|e].
    2:{ intros H; injection H as <- <-. done_keeps; discriminate. }
    destruct (str_method d "find") as [name|e].
    2:{ intros H; injection H as <- <-. done_keeps; discriminate. }
    intros H; injection H as <- <-. done_keeps; discriminate. }
  unfold ret.
  destruct (is_str kind "IDLE"); intros H; injection H as <- <-; done_keeps; discriminate.
Qed.


Lemma readline_world s r s' :
  readline s = (r, s') ->
  self s' = self s /\ frames s' = frames s
  /\ child_stdin (world s') = child_stdin (world s)
  /\ child_cmd (world s') = child_cmd (world s).
Proof.
  unfold readline.
  destruct (readline_go _ _ _) as [r0 [[tk file] pos]].
  intros H. injection H as <- <-. auto.
Qed.

Lemma count_started_app a b :
  count_started (a ++ b) = count_started a + count_started b.
Proof. unfold count_started. rewrite filter_app, length_app. reflexivity. Qed.

Lemma job_effect_stay b s s' :
  self s' = self s -> frames s' = frames s ->
  child_stdin (world s') = child_stdin (world s) ->
  child_cmd (world s') = child_cmd (world s) ->
  job_effect b s s'.
Proof.
  intros Hs Hf Hi Hc. exists []. rewrite Hs, Hf, Hi, Hc, app_nil_r.
  repeat split; try apply same_settings_refl; try reflexivity; cbn; try lia.
  destruct b; lia.
Qed.

Lemma job_loop_effect fuel : forall job loc s r s',
  job_loop json_loads py_str fuel job loc s = (r, s') ->
  job_effect (negb (didFail loc)) s s'.
Proof.
  induction fuel as [|fuel IH]; intros job loc s r s'.
  { cbn [job_loop]. intros H. injection H as <- <-. apply job_effect_stay; reflexivity. }
  rewrite job_loop_eq. unfold mbind at 1.
  destruct (readline s) as [rl s1] eqn:Hr.
  destruct (readline_world _ _ _ Hr) as (Hs & Hf & Hi & Hc).
  assert (Back : forall b, job_effect b s1 s' -> job_effect b s s').
  { intros b (evs & H1 & H2 & H3 & H4 & H5 & H6 & H7 & H8).
    exists evs. rewrite <- Hs, <- Hf, <- Hi, <- Hc.
    repeat (split; [assumption|]). assumption. }
  assert (Stop : forall (o : outcome unit), (o, s1) = (r, s') ->
                 job_effect (negb (didFail loc)) s s').
  { intros o H. injection H as _ <-. apply job_effect_stay; assumption. }
  destruct rl as [l| | |]; try (apply Stop).
  cbv zeta. destruct (String.eqb (rstrip l) "]").
  - unfold mbind at 1, lift at 1.
    destruct (list_getitem _ 1) as [second|e]; [|apply Stop].
    destruct (String.eqb second "[").
    + unfold mbind at 1, lift at 1.
      destruct (json_loads _) as [event|e]; [|apply Stop].
      unfold mbind at 1, modify at 1. unfold mbind at 1.
      destruct (dispatch py_str job event _ _) as [rd s3] eqn:Hd.
      pose proof (dispatch_effect _ _ _ _ _ _ Hd)
        as ((K1 & K2 & K3 & K4 & K5) & HT & HL & HU & HE & _ & _).
      cbn in K1, K2, K4, K5, HT, HL, HU.
      assert (Step : forall b, (didFail loc = false -> b = true) ->
                job_effect b s1 s3).
      { intros b Hb. exists [event]. rewrite K1, K2, K4, HT.
        destruct K5 as (? & ? & ? & ? & ? & ?).
        repeat split; auto.
        - unfold count_started. cbn [filter].
          destruct (is_started_frame event); cbn; lia.
        - destruct (didFail loc); [destruct b | rewrite (Hb eq_refl)];
            destruct (is_failure_frame event); cbn in HU |- *; lia. }
      destruct rd as [[c loc']| | |].
      * apply dispatch_counts in Hd as (_ & Hc3 & Hl3). cbn in Hc3, Hl3.
        destruct c.
        { intros H. apply IH in H. cbn [set_lines didFail] in H. rewrite Hl3 in H.
          apply Back.
          destruct H as (evs & H1 & H2 & H3 & H4 & H5 & H6 & H7 & H8).
          exists (event :: evs).
          rewrite H1, K1, H2, HT, H5, K4, H7, H8, K2.
          replace (event :: evs) with ([event] ++ evs)%list by reflexivity.
          rewrite count_started_app, app_assoc.
          destruct (same_settings_trans _ _ _ K5 H6) as (? & ? & ? & ? & ? & ?).
          repeat split; auto.
          - unfold count_started. cbn [filter].
            destruct (is_started_frame event); cbn [List.length]; lia.
          - lia.
          - rewrite Hc3 in H3, H4.
            destruct (didFail loc), (is_failure_frame event); cbn in H4 |- *; lia. }
        { unfold ret. intros H. injection H as _ <-. apply Back, Step.
          intros ->. reflexivity. }
      * intros H. injection H as _ <-. apply Back, Step. intros ->. reflexivity.
      * intros H. injection H as _ <-. apply Back, Step. intros ->. reflexivity.
      * intros H. injection H as _ <-. apply Back, Step. intros ->. reflexivity.
    + intros H. apply IH in H. apply Back, H.
  - intros H. apply IH in H. apply Back, H.
Qed.


Lemma run_job_effect fuel job s r s' :
  run_job json_loads py_str fuel job s = (r, s') ->
  worker_effect [job] s s'.
Proof.
  unfold run_job, mbind, modify, message, stdin_write.
  intros H. apply job_loop_effect in H. cbn in H.
  destruct H as (evs & H1 & H2 & H3 & H4 & H5 & H6 & H7 & H8).
  exists evs. cbn [map List.length].
  repeat (split; [first [assumption | lia]|]). exact H8.
Qed.

(** ** Failures are counted once per job *)








(** A failure frame without a trace is outside the first part: its branch
    raises [KeyError] at line 153, before the count of line 157. *)
Lemma failure_frame_without_trace job loc s :
  is_failure_frame Sample.bare_failure_frame = true
  /\ failure_frame_ok Sample.bare_failure_frame = false
  /\ dispatch py_str job Sample.bare_failure_frame loc s = (Fail (KeyError "trace"), s).
Proof. repeat split. Qed.

Lemma worker_effect_nil s : worker_effect [] s s.
Proof.
  exists []. cbn. rewrite !app_nil_r.
  repeat (split; [first [reflexivity | lia | apply same_settings_refl]|]). reflexivity.
Qed.

Lemma worker_effect_app a b s s1 s2 :
  worker_effect a s s1 -> worker_effect b s1 s2 -> worker_effect (a ++ b) s s2.
Proof.
  intros (e1 & A1 & A2 & A3 & A4 & A5 & A6 & A7 & A8)
         (e2 & B1 & B2 & B3 & B4 & B5 & B6 & B7 & B8).
  exists (e1 ++ e2)%list.
  rewrite B1, A1, B2, A2, B5, A5, B7, A7, B8, A8, count_started_app, map_app, length_app,
    !app_assoc.
  repeat (split; [first [reflexivity | lia | eapply same_settings_trans; eassumption]|]).
  reflexivity.
Qed.

(** The jobs a worker has started when its loop stops, whatever the
    reason: they head its share of the queue, and when the loop ends
    normally the next item is a sentinel. *)
Lemma run_jobs_effect fuel : forall jobs s r s',
  run_jobs json_loads py_str fuel jobs s = (r, s') ->
  exists started rest,
    jobs = (map Some started ++ rest)%list
    /\ worker_effect started s s'
    /\ (r = Done tt -> exists rest', rest = None :: rest').
Proof.
  induction jobs as [|[job|] jobs IH]; intros s r s'; cbn [run_jobs].
  - intros H. injection H as <- <-. exists [], []. split; [reflexivity|].
    split; [apply worker_effect_nil | discriminate].
  - unfold mbind at 1.
    destruct (run_job json_loads py_str fuel job s) as [rj s1] eqn:Hj.
    apply run_job_effect in Hj.
    assert (Stop : forall (o : outcome unit), o <> Done tt -> (o, s1) = (r, s') ->
              exists started rest,
                Some job :: jobs = (map Some started ++ rest)%list
                /\ worker_effect started s s'
                /\ (r = Done tt -> exists rest', rest = None :: rest')).
    { intros o Ho H. injection H as <- <-. exists [job], jobs.
      split; [reflexivity|]. split; [exact Hj | congruence]. }
    destruct rj as [[]| | |]; try (apply Stop; discriminate).
    intros H. apply IH in H as (started & rest & -> & He & Hd).
    exists (job :: started), rest. split; [reflexivity|].
    split; [|exact Hd]. apply (worker_effect_app [job] started _ _ _ Hj He).
  - unfold ret. intros H. injection H as <- <-. exists [], (None :: jobs).
    split; [reflexivity|]. split; [apply worker_effect_nil|]. intros _. eauto.
Qed.


Lemma waitIdle_loop_keeps fuel : forall acc s r s',
  waitIdle_loop fuel acc s = (r, s') ->
  self s' = self s /\ frames s' = frames s
  /\ child_stdin (world s') = child_stdin (world s)
  /\ child_cmd (world s') = child_cmd (world s).
Proof.
  induction fuel as [|fuel IH]; intros acc s r s'.
  { cbn. intros H. injection H as <- <-. auto. }
  rewrite waitIdle_loop_eq. unfold mbind.
  destruct (readline s) as [rl s1] eqn:Hr.
  destruct (readline_world _ _ _ Hr) as (Hs & Hf & Hi & Hc).
  destruct rl as [l| | |]; try (intros H; injection H as <- <-; auto).
  destruct (negb _).
  - unfold ret. intros H; injection H as <- <-; auto.
  - intros H. apply IH in H as (Hs' & Hf' & Hi' & Hc').
    rewrite Hs', Hf', Hi', Hc'. auto.
Qed.

Lemma ReadEvents_init_keeps s r s' :
  ReadEvents_init s = (r, s') ->
  self s' = self s /\ frames s' = frames s
  /\ child_stdin (world s') = child_stdin (world s)
  /\ child_cmd (world s') = child_cmd (world s).
Proof.
  unfold ReadEvents_init. destruct (open_go _ _) as [r0 [tk file]].
  intros H. injection H as <- <-. auto.
Qed.

(** The whole of [run], whatever stops the thread. *)
Lemma run_effect fuel jobs s r s' :
  run json_loads py_str fuel jobs s = (r, s') ->
  exists started rest,
    jobs = (map Some started ++ rest)%list
    /\ (r = Done tt -> exists rest', rest = None :: rest')
    /\ thread_effect started s s'.
Proof.
  unfold run. unfold mbind at 1, gets at 1. unfold mbind at 1, remove_eventsFile, modify at 1.
  unfold mbind at 1, Popen, modify at 1. unfold mbind at 1.
  set (s0 := set_world _ (set_world _ s)).
  assert (H0 : self s0 = self s /\ frames s0 = frames s
               /\ child_stdin (world s0) = child_stdin (world s)
               /\ child_cmd (world s0) = Some (build_cmd (self s))) by (cbn; auto).
  destruct H0 as (Z1 & Z2 & Z3 & Z4).
  assert (Early : forall s1,
            self s1 = self s0 /\ frames s1 = frames s0
            /\ child_stdin (world s1) = child_stdin (world s0)
            /\ child_cmd (world s1) = child_cmd (world s0) ->
            forall (o : outcome unit), o <> Done tt -> (o, s1) = (r, s') ->
            exists started rest,
              jobs = (map Some started ++ rest)%list
              /\ (r = Done tt -> exists rest', rest = None :: rest')
              /\ thread_effect started s s').
  { intros s1 (E1 & E2 & E3 & E4) o Ho H. injection H as <- <-.
    exists [], jobs. split; [reflexivity|]. split; [congruence|].
    split; [congruence|]. exists []. cbn. rewrite E1, E2, E3, Z1, Z2, Z3, !app_nil_r.
    repeat (split; [first [reflexivity | lia | apply same_settings_refl]|]). reflexivity. }
  destruct (ReadEvents_init s0) as [ri s1] eqn:Hi.
  pose proof (ReadEvents_init_keeps _ _ _ Hi) as K1.
  destruct ri as [[]| | |]; try (apply (Early s1 K1); discriminate).
  unfold mbind at 1, waitIdle.
  destruct (waitIdle_loop fuel [] s1) as [rw s2] eqn:Hw.
  pose proof (waitIdle_loop_keeps _ _ _ _ _ Hw) as K2.
  assert (K12 : self s2 = self s0 /\ frames s2 = frames s0
                /\ child_stdin (world s2) = child_stdin (world s0)
                /\ child_cmd (world s2) = child_cmd (world s0)).
  { destruct K1 as (A1 & A2 & A3 & A4), K2 as (B1 & B2 & B3 & B4).
    rewrite B1, B2, B3, B4. auto. }
  destruct rw as [lines| | |]; try (apply (Early s2 K12); discriminate).
  intros H. apply run_jobs_effect in H as (started & rest & -> & He & Hd).
  destruct K12 as (E1 & E2 & E3 & E4).
  destruct He as (evs & H1 & H2 & H3 & H4 & H5 & H6 & H7 & H8).
  exists started, rest. split; [reflexivity|]. split; [exact Hd|].
  split; [congruence|]. exists evs.
  rewrite H1, H2, H5, H7, E1, E2, E3, Z1, Z2, Z3.
  rewrite E1, Z1 in H3, H4, H6.
  repeat (split; [first [reflexivity | assumption]|]). reflexivity.
Qed.

(** X7. A thread that ends normally has served the jobs of its share of
    the queue up to the first sentinel and nothing after it: [suiteCount]
    went up by their number, the child got exactly these jobs on its
    input, each followed by a line feed, in order, and the child had been
    started with the command line of the worker. *)
Theorem run_serves_jobs_up_to_sentinel fuel jobs s s' :
  run json_loads py_str fuel jobs s = (Done tt, s') ->
  exists served rest,
    jobs = (map Some served ++ None :: rest)%list
    /\ suiteCount (self s') = (suiteCount (self s) + Z.of_nat (List.length served))%Z
    /\ child_stdin (world s')
       = (child_stdin (world s) ++ map (fun job => encode_utf8 (job ++ nl)) served)%list
    /\ child_cmd (world s') = Some (build_cmd (self s)).
Proof.
  intros H. apply run_effect in H as (started & rest & -> & Hd & Hc & evs & He).
  destruct (Hd eq_refl) as [rest' ->].
  exists started, rest'. split; [reflexivity|].
  destruct He as (_ & _ & _ & _ & H5 & _ & H7). auto.
Qed.

(** X8. However the thread stops (normally, by an exception, or still
    waiting), [testCount] went up by the number of [TEST_STARTED] frames
    among the frames it handled. *)
Theorem testCount_counts_started_frames fuel jobs s r s' :
  run json_loads py_str fuel jobs s = (r, s') ->
  exists evs,
    frames s' = (frames s ++ evs)%list
    /\ testCount (self s') = (testCount (self s) + Z.of_nat (count_started evs))%Z.
Proof.
  intros H. apply run_effect in H as (started & rest & _ & _ & _ & evs & H1 & H2 & _).
  exists evs. auto.
Qed.

(** X9. However the thread of a new worker stops, its counters satisfy
    [0 <= failCount <= suiteCount <= number of items in its share] and
    [0 <= testCount], and the fields set by [__init__] are as they were:
    this is what [main] adds up after [join], also for a thread that
    died. *)
Theorem counters_of_a_new_worker fuel jobs s r s' i cp v sd po tm :
  self s = RunTestsJVM_init i cp v sd po tm ->
  run json_loads py_str fuel jobs s = (r, s') ->
  (0 <= failCount (self s') <= suiteCount (self s'))%Z
  /\ (suiteCount (self s') <= Z.of_nat (List.length jobs))%Z
  /\ (0 <= testCount (self s'))%Z
  /\ same_settings (self s) (self s').
Proof.
  intros Hs H. apply run_effect in H as (started & rest & -> & _ & _ & evs & He).
  destruct He as (_ & H2 & H3 & H4 & H5 & H6 & _).
  rewrite Hs in H2, H3, H4, H5. cbn in H2, H3, H4, H5.
  rewrite length_app, length_map.
  split; [lia|]. split; [lia|]. split; [lia | exact H6].
Qed.

(** X10. A frame that is handled without an exception never drops kept
    lines or pending output and never takes back what was printed; it
    leaves the name of the test case alone unless it is a [TEST_STARTED]
    frame; the mark of a failed test case is set by a failure frame,
    cleared by a [TEST_STARTED] frame and kept by every other frame; and
    the loop of the job is left exactly on an [IDLE] frame. *)
Theorem dispatch_locals job ev loc s c loc' s' :
  dispatch py_str job ev loc s = (Done (c, loc'), s') ->
  lines loc' = lines loc
  /\ (is_started_frame ev = false -> testCaseName loc' = testCaseName loc)
  /\ (exists more, pendingOutput loc' = (pendingOutput loc ++ more)%list)
  /\ (exists printed, console s' = (console s ++ printed)%list)
  /\ testCaseFailed loc'
     = (if is_failure_frame ev then true
        else if is_started_frame ev then false else testCaseFailed loc)
  /\ (c = Break <-> is_idle_frame ev = true).
Proof.
  unfold dispatch, is_failure_frame, is_started_frame, is_idle_frame, mbind, lift.
  destruct (getitem_int ev 0) as [kind|e]; [|discriminate].
  assert (HS : in_strs kind ["APPEND_STDOUT"; "APPEND_STDERR"] = true
               \/ in_strs kind ["TEST_FAILURE"; "SUITE_FAILURE"] = true ->
               is_str kind "TEST_STARTED" = false /\ is_str kind "IDLE" = false).
  { intros H. split.
    - destruct (is_str kind "TEST_STARTED") eqn:E; [|reflexivity].
      apply started_not_append in E as [E1 E2]. destruct H; congruence.
    - destruct (is_str kind "IDLE") eqn:E; [|reflexivity].
      apply idle_not_other in E as (E1 & E2 & _). destruct H; congruence. }
  destruct (in_strs kind ["APPEND_STDOUT"; "APPEND_STDERR"]) eqn:HA.
  { rewrite (kinds_apart _ HA). destruct (HS (or_introl eq_refl)) as [-> ->].
    destruct (_ <- getitem_int ev 1 ;; _) as [raw|e]; [|discriminate].
    unfold gets, message, modify, ret.
    destruct (testCaseFailed loc || doPrintOutput (self s));
      intros H; injection H as <- <- <-; cbn.
    - repeat split; try discriminate; eauto. exists []. now rewrite app_nil_r.
    - repeat split; try discriminate; eauto. exists []. now rewrite app_nil_r. }
  destruct (in_strs kind ["TEST_FAILURE"; "SUITE_FAILURE"]) eqn:HF.
  { destruct (HS (or_intror eq_refl)) as [-> ->].
    destruct (_ <- getitem_int ev 1 ;; _) as [details|e]; [|discriminate].
    destruct (contains_str "message" details) as [has|e]; [|discriminate].
    destruct has.
    - destruct (getitem_str details "message") as [m|e]; [|discriminate].
      unfold ret, message, modify.
      destruct (getitem_str details "trace") as [t|e]; [|discriminate].
      destruct (didFail loc); intros H; injection H as <- <- <-; cbn;
        (repeat split; try discriminate; eauto; exists []; now rewrite app_nil_r).
    - unfold ret, message, modify.
      destruct (getitem_str details "trace") as [t|e]; [|discriminate].
      destruct (didFail loc); intros H; injection H as <- <- <-; cbn;
        (repeat split; try discriminate; eauto; exists []; now rewrite app_nil_r). }
  destruct (is_str kind "TEST_STARTED") eqn:HT.
  { assert (HI : is_str kind "IDLE" = false).
    { destruct (is_str kind "IDLE") eqn:E; [|reflexivity].
      apply idle_not_other in E as (_ & _ & E). congruence. }
    rewrite HI. unfold modify, ret.
    destruct (_ <- getitem_int ev 1 ;; _) as [d|e]; [|discriminate].
    destruct (str_method d "find") as [name|e]; [|discriminate].
    intros H; injection H as <- <- <-; cbn.
    repeat split; try discriminate; exists []; now rewrite app_nil_r. }
  unfold ret.
  destruct (is_str kind "IDLE"); intros H; injection H as <- <- <-; cbn;
    (repeat split; try discriminate; try reflexivity; try (exists []; now rewrite app_nil_r)).
Qed.

End WorkerEffects.


(** An instance of X7, X8 and X9 each: the failing sample worker. *)
Lemma run_serves_jobs_up_to_sentinel_witness :
  exists served rest,
    Case.share = (map Some served ++ None :: rest)%list
    /\ suiteCount (self Case.worker_end)
       = (suiteCount (self Case.worker) + Z.of_nat (List.length served))%Z
    /\ child_stdin (world Case.worker_end)
       = (child_stdin (world Case.worker)
          ++ map (fun job => encode_utf8 (job ++ nl)) served)%list
    /\ child_cmd (world Case.worker_end) = Some (build_cmd (self Case.worker)).
Proof.
  apply (run_serves_jobs_up_to_sentinel Sample.loads Sample.no_str 40 Case.share
           Case.worker Case.worker_end).
  vm_compute. reflexivity.
Defined.

Lemma testCount_counts_started_frames_witness :
  exists evs,
    frames Case.worker_end = (frames Case.worker ++ evs)%list
    /\ testCount (self Case.worker_end)
       = (testCount (self Case.worker) + Z.of_nat (count_started evs))%Z.
Proof.
  apply (testCount_counts_started_frames Sample.loads Sample.no_str 40 Case.share
           Case.worker (Done tt) Case.worker_end).
  vm_compute. reflexivity.
Defined.

Lemma counters_of_a_new_worker_witness :
  (0 <= failCount (self Case.worker_end) <= suiteCount (self Case.worker_end))%Z
  /\ (suiteCount (self Case.worker_end) <= Z.of_nat (List.length Case.share))%Z
  /\ (0 <= testCount (self Case.worker_end))%Z
  /\ same_settings (self Case.worker) (self Case.worker_end).
Proof.
  apply (counters_of_a_new_worker Sample.loads Sample.no_str 40 Case.share
           Case.worker (Done tt) Case.worker_end
           0%Z ["build/classes/test"] true None false None).
  - reflexivity.
  - vm_compute. reflexivity.
Defined.

(** An instance of X10: a failure frame at the start of a job. *)
Lemma dispatch_locals_witness :
  lines (mkLocals [] [] true true None) = lines fresh_locals
  /\ (is_started_frame Sample.failure_frame = false ->
      testCaseName (mkLocals [] [] true true None) = testCaseName fresh_locals)
  /\ (exists more,
        pendingOutput (mkLocals [] [] true true None)
        = (pendingOutput fresh_locals ++ more)%list)
  /\ (exists printed,
        console (snd (dispatch Sample.no_str "org.TestFoo" Sample.failure_frame
                        fresh_locals Sample.at_start))
        = (console Sample.at_start ++ printed)%list)
  /\ testCaseFailed (mkLocals [] [] true true None)
     = (if is_failure_frame Sample.failure_frame then true
        else if is_started_frame Sample.failure_frame then false
             else testCaseFailed fresh_locals)
  /\ (Continue = Break <-> is_idle_frame Sample.failure_frame = true).
Proof.
  apply (dispatch_locals Sample.no_str "org.TestFoo" Sample.failure_frame fresh_locals
           Sample.at_start Continue (mkLocals [] [] true true None)
           (snd (dispatch Sample.no_str "org.TestFoo" Sample.failure_frame
                   fresh_locals Sample.at_start))).
  vm_compute. reflexivity.
Defined.


(** ** Frames in the job loop *)

Lemma reads_app ls : forall s closing s2,
  reads s (ls ++ [closing]) s2 ->
  exists s1, reads s ls s1 /\ readline s1 = (Done closing, s2).
Proof.
  induction ls as [|l ls IH]; intros s closing s2 H.
  - inversion H as [|? ? s1 ? ? Hr Hrest]; subst. inversion Hrest; subst.
    exists s. split; [constructor | exact Hr].
  - inversion H as [|? ? s1 ? ? Hr Hrest]; subst.
    destruct (IH _ _ _ Hrest) as (s1' & R & L).
    exists s1'. split; [econstructor; eassumption | exact L].
Qed.

Section Framing.

Variable json_loads : string -> result json.
Variable py_str : json -> string.

(** Lines that are no closing bracket are kept, stripped, in order. *)
Lemma job_loop_keeps_lines ls : forall fuel job loc s s1,
  reads s ls s1 ->
  Forall (fun l => rstrip l <> "]") ls ->
  job_loop json_loads py_str (List.length ls + fuel) job loc s
  = job_loop json_loads py_str fuel job
      (set_lines (lines loc ++ map rstrip ls)%list loc) s1.
Proof.
  induction ls as [|l ls IH]; intros fuel job loc s s1 Hr Hall.
  - inversion Hr; subst. cbn [List.length Nat.add map]. rewrite app_nil_r.
    destruct loc; reflexivity.
  - inversion Hr as [|? ? s0 ? ? Hl Hrest]; subst.
    inversion Hall as [|? ? Hn Hall']; subst.
    cbn [List.length Nat.add].
    rewrite (job_loop_collects json_loads py_str _ job loc s l s0 Hl Hn).
    rewrite (IH fuel job _ s0 s1 Hrest Hall').
    cbn [set_lines lines map]. rewrite <- app_assoc. reflexivity.
Qed.

(** X21. The lines of a job are kept, stripped on the right, until one is
    a closing bracket. With an opening bracket as second line, the kept
    lines joined by line feeds go to [json.loads] as one text and the
    value is dispatched; with another second line they are dropped,
    nothing is decoded, and the loop goes on with no line kept. *)
Theorem frames_are_read_whole ls closing fuel job loc s s2 :
  reads s (ls ++ [closing]) s2 ->
  Forall (fun l => rstrip l <> "]") ls ->
  rstrip closing = "]" ->
  lines loc = [] ->
  (forall event,
     nth_error (map rstrip ls) 1 = Some "[" ->
     json_loads (join nl (map rstrip ls ++ ["]"])) = Ok event ->
     job_loop json_loads py_str (List.length ls + S fuel) job loc s
     = match dispatch py_str job event (set_lines (map rstrip ls ++ ["]"]) loc)
               (set_frames (frames s2 ++ [event]) s2) with
       | (Done (Break, _), s3) => (Done tt, s3)
       | (Done (Continue, loc'), s3) =>
           job_loop json_loads py_str fuel job (set_lines [] loc') s3
       | (Fail e, s3) => (Fail e, s3)
       | (Blocked, s3) => (Blocked, s3)
       | (OutOfFuel, s3) => (OutOfFuel, s3)
       end)
  /\ (forall second,
     nth_error (map rstrip ls ++ ["]"]) 1 = Some second -> second <> "[" ->
     job_loop json_loads py_str (List.length ls + S fuel) job loc s
     = job_loop json_loads py_str fuel job (set_lines [] loc) s2).
Proof.
  intros Hr Hall Hc Hl.
  apply reads_app in Hr as (s1 & Hr & Hlast).
  rewrite (job_loop_keeps_lines ls (S fuel) job loc s s1 Hr Hall). rewrite Hl. cbn [app].
  split.
  - intros event Hsecond Hload.
    rewrite job_loop_eq. unfold mbind at 1. rewrite Hlast. cbv zeta.
    rewrite Hc. cbn [String.eqb Ascii.eqb Bool.eqb]. cbn [set_lines lines].
    unfold mbind at 1, lift at 1, list_getitem.
    rewrite (nth_error_app1 _ _ (proj1 (nth_error_Some _ _)
               ltac:(rewrite Hsecond; discriminate))), Hsecond.
    cbn [String.eqb Ascii.eqb Bool.eqb].
    unfold mbind at 1, lift at 1. rewrite Hload.
    unfold mbind at 1, modify at 1. unfold mbind at 1.
    cbn [set_lines lines pendingOutput didFail testCaseFailed testCaseName].
    destruct loc as [l0 p0 d0 f0 n0]. cbn in Hl. subst l0. cbn.
    destruct (dispatch _ _ _ _ _) as [[[[|] loc']| | |] s3]; reflexivity.
  - intros second Hsecond Hne.
    rewrite (job_loop_discards json_loads py_str fuel job _ s1 closing s2 second Hlast Hc).
    + destruct loc; reflexivity.
    + exact Hsecond.
    + exact Hne.
Qed.

End Framing.

(** An instance of X21: the idle frame. *)
Lemma frames_are_read_whole_witness :
  job_loop Sample.loads Sample.no_str (List.length Case.framed_lines + S 3) "org.TestFoo"
    fresh_locals Case.framed
  = match dispatch Sample.no_str "org.TestFoo" Sample.idle_frame
            (set_lines (map rstrip Case.framed_lines ++ ["]"]) fresh_locals)
            (set_frames (frames (Case.after_reads 5 Case.framed) ++ [Sample.idle_frame])
               (Case.after_reads 5 Case.framed)) with
    | (Done (Break, _), s3) => (Done tt, s3)
    | (Done (Continue, loc'), s3) =>
        job_loop Sample.loads Sample.no_str 3 "org.TestFoo" (set_lines [] loc') s3
    | (Fail e, s3) => (Fail e, s3)
    | (Blocked, s3) => (Blocked, s3)
    | (OutOfFuel, s3) => (OutOfFuel, s3)
    end.
Proof.
  apply (proj1 (frames_are_read_whole Sample.loads Sample.no_str Case.framed_lines
                  ("]" ++ nl) 3 "org.TestFoo" fresh_locals Case.framed
                  (Case.after_reads 5 Case.framed)
                  ltac:(apply reads_cons with (s1 := Case.after_reads 1 Case.framed);
                          [vm_compute; reflexivity|];
                        apply reads_cons with (s1 := Case.after_reads 2 Case.framed);
                          [vm_compute; reflexivity|];
                        apply reads_cons with (s1 := Case.after_reads 3 Case.framed);
                          [vm_compute; reflexivity|];
                        apply reads_cons with (s1 := Case.after_reads 4 Case.framed);
                          [vm_compute; reflexivity|];
                        apply reads_cons with (s1 := Case.after_reads 5 Case.framed);
                          [vm_compute; reflexivity|];
                        apply reads_nil)
                  ltac:(repeat constructor; vm_compute; discriminate)
                  eq_refl eq_refl)
           Sample.idle_frame).
  - reflexivity.
  - vm_compute. reflexivity.
Defined.

(** ** Reading the events file *)

Lemma encode_utf8_cons c s : encode_utf8 (String c s) = byte_of_ascii c :: encode_utf8 s.
Proof. reflexivity. Qed.

Lemma encode_utf8_app a b : encode_utf8 (a ++ b) = (encode_utf8 a ++ encode_utf8 b)%list.
Proof.
  induction a as [|c a IH]; [reflexivity|].
  cbn [append]. rewrite !encode_utf8_cons, IH. reflexivity.
Qed.

Lemma decode_encode l : utf8_valid (encode_utf8 l) = true -> decode_utf8 (encode_utf8 l) = Ok l.
Proof.
  intros H. unfold decode_utf8. rewrite H. unfold encode_utf8.
  rewrite string_of_list_byte_of_string. reflexivity.
Qed.

Lemma take_line_one_line a rest : one_line a = true -> take_line (a ++ rest) = a.
Proof.
  induction a as [|b r IH]; [discriminate|]. cbn [one_line app take_line].
  destruct r as [|b' r'].
  - intros ->. reflexivity.
  - intros H. apply andb_true_iff in H as [Hb Hr]. apply negb_true_iff in Hb.
    rewrite Hb. f_equal. apply IH, Hr.
Qed.

Lemma one_line_endswith l : one_line (encode_utf8 l) = true -> endswith l nl = true.
Proof.
  induction l as [|c r IH]; [discriminate|].
  rewrite encode_utf8_cons. cbn [one_line endswith].
  destruct r as [|c' r'].
  - cbn [encode_utf8 list_byte_of_string]. intros H.
    apply Byte.byte_dec_bl in H.
    assert (c = LF) by (rewrite <- (ascii_of_byte_of_ascii c), H; reflexivity).
    subst c. reflexivity.
  - rewrite encode_utf8_cons. intros H. apply andb_true_iff in H as [_ H].
    rewrite encode_utf8_cons in IH. rewrite (IH H). apply orb_true_r.
Qed.

Lemma append_empty_r s : s ++ "" = s.
Proof. induction s as [|c s IH]; [reflexivity | cbn; now rewrite IH]. Qed.

Lemma concat_empty_cons l ls : String.concat "" (l :: ls) = l ++ String.concat "" ls.
Proof. destruct ls; [cbn; now rewrite append_empty_r | reflexivity]. Qed.

Lemma skipn_length_app {A} (pre rest : list A) : skipn (List.length pre) (pre ++ rest) = rest.
Proof. induction pre; [reflexivity | assumption]. Qed.

Lemma readline_go_whole_line tk pre l rest :
  whole_line l = true ->
  readline_go tk (pre ++ encode_utf8 l ++ rest) (List.length pre)
  = (Done l, (tk, (pre ++ encode_utf8 l ++ rest)%list,
              List.length pre + List.length (encode_utf8 l))).
Proof.
  unfold whole_line. intros H. apply andb_true_iff in H as [Hv Ho].
  rewrite readline_go_eq. cbv zeta. unfold file_readline.
  rewrite skipn_length_app, (take_line_one_line _ _ Ho), (decode_encode _ Hv).
  rewrite (complete_test _ (one_line_endswith _ Ho)). reflexivity.
Qed.

(** X11. Whole lines that are in the file from the offset on are read
    back one per call, in order and unchanged, without a sleep; the
    offset moves past them. *)
Theorem lines_written_are_read_back ls : forall s pre rest,
  Forall (fun l => whole_line l = true) ls ->
  events_file (world s) = Some (pre ++ encode_utf8 (String.concat "" ls) ++ rest)%list ->
  offset s = List.length pre ->
  exists s',
    reads s ls s'
    /\ offset s' = offset s + List.length (encode_utf8 (String.concat "" ls))
    /\ ticks (world s') = ticks (world s)
    /\ events_file (world s') = events_file (world s).
Proof.
  induction ls as [|l ls IH]; intros s pre rest Hall Hfile Hoff.
  - exists s. split; [constructor|]. cbn. rewrite Nat.add_0_r. auto.
  - inversion Hall as [|? ? Hl Hls]; subst.
    rewrite concat_empty_cons in *. rewrite encode_utf8_app in *.
    rewrite <- app_assoc in Hfile.
    assert (Hr : readline s
                 = (Done l,
                    set_offset (List.length pre + List.length (encode_utf8 l))
                      (set_world (mkWorld (events_file (world s)) (ticks (world s))
                                    (child_cmd (world s)) (child_stdin (world s))) s))).
    { unfold readline, content. rewrite Hfile, Hoff.
      rewrite (readline_go_whole_line _ pre l _ Hl). reflexivity. }
    set (s1 := set_offset _ _) in Hr.
    destruct (IH s1 (pre ++ encode_utf8 l)%list rest Hls) as (s' & R & O & T & F).
    + cbn. rewrite Hfile, <- !app_assoc. reflexivity.
    + cbn. rewrite length_app. reflexivity.
    + exists s'. split; [econstructor; eassumption|].
      rewrite O, T, F. cbn. rewrite Hoff, length_app. repeat split; lia.
Qed.

(** An instance of X11. *)
Lemma lines_written_are_read_back_witness :
  exists s',
    reads Case.reader Case.two_lines s'
    /\ offset s' = offset Case.reader
                   + List.length (encode_utf8 (String.concat "" Case.two_lines))
    /\ ticks (world s') = ticks (world Case.reader)
    /\ events_file (world s') = events_file (world Case.reader).
Proof.
  apply (lines_written_are_read_back Case.two_lines Case.reader [] []).
  - repeat constructor.
  - vm_compute. reflexivity.
  - reflexivity.
Defined.

Lemma no_line_feed_take_line bs : no_line_feed bs = true -> take_line bs = bs.
Proof.
  induction bs as [|b r IH]; [reflexivity|]. cbn [no_line_feed forallb take_line].
  intros H. apply andb_true_iff in H as [Hb Hr]. apply negb_true_iff in Hb.
  rewrite Hb. f_equal. apply IH, Hr.
Qed.

Lemma no_line_feed_not_ended bs :
  no_line_feed bs = true -> endswith (string_of_list_byte bs) nl = false.
Proof.
  intros H. destruct (endswith (string_of_list_byte bs) nl) eqn:E; [|reflexivity].
  apply ends_with_line_feed in E as [b ->].
  unfold no_line_feed in H. rewrite forallb_app in H.
  apply andb_true_iff in H as [_ H]. discriminate H.
Qed.

(** X12. A line that the child writes in pieces, one per sleep, each cut
    leaving valid text without a line feed: [readline] sleeps once per
    piece, starts again at the same offset each time, and returns the
    whole line when the last piece is there. *)
Theorem readline_waits_for_the_line_feed pieces : forall tk pre have l,
  arrives have pieces ->
  encode_utf8 l = (have ++ List.concat pieces)%list ->
  whole_line l = true ->
  readline_go (map writes_piece pieces ++ tk) (pre ++ have) (List.length pre)
  = (Done l, (tk, (pre ++ encode_utf8 l)%list,
              List.length pre + List.length (encode_utf8 l))).
Proof.
  induction pieces as [|piece later IH]; intros tk pre have l Harr Hl Hw.
  - cbn in Hl. rewrite app_nil_r in Hl. subst have. cbn [map app].
    pose proof (readline_go_whole_line tk pre l [] Hw) as H.
    rewrite !app_nil_r in H. exact H.
  - destruct Harr as (Hv & Hn & Harr). cbn [map app].
    rewrite readline_go_eq. cbv zeta. unfold file_readline.
    rewrite skipn_length_app, (no_line_feed_take_line _ Hn).
    unfold decode_utf8 at 1. rewrite Hv.
    rewrite (partial_test _ (no_line_feed_not_ended _ Hn)).
    cbn [writes_piece status appended written].
    rewrite <- app_assoc. apply IH; [exact Harr | | exact Hw].
    rewrite Hl. cbn [List.concat]. rewrite app_assoc. reflexivity.
Qed.

(** An instance of X12. *)
Lemma readline_waits_for_the_line_feed_witness :
  readline_go (map writes_piece Case.pieces ++ []) ([] ++ []) (List.length (@nil byte))
  = (Done ("abc" ++ nl),
     ([], ([] ++ encode_utf8 ("abc" ++ nl))%list,
      List.length (@nil byte) + List.length (encode_utf8 ("abc" ++ nl)))).
Proof.
  apply (readline_waits_for_the_line_feed Case.pieces [] [] [] ("abc" ++ nl)).
  - cbn. repeat split; reflexivity.
  - reflexivity.
  - reflexivity.
Defined.

(** ** A partial line that ends inside a character *)

(** The beginning of a line has no line feed. *)
Lemma one_line_beginning have : forall later,
  one_line (have ++ later) = true -> later <> [] -> no_line_feed have = true.
Proof.
  induction have as [|b have IH]; intros later H Hl; [reflexivity|].
  cbn [app one_line] in H. cbn [no_line_feed forallb].
  destruct (have ++ later)%list as [|c r] eqn:E.
  - destruct have; [cbn in E; congruence | discriminate E].
  - apply andb_true_iff in H as [Hb H]. rewrite Hb. cbn [andb].
    rewrite <- E in H. apply (IH later H Hl).
Qed.

(** Claim C9, on the code. The bytes read are decoded (line 189) before
    the test for a whole line (line 190). When the events file holds only
    the beginning [have] of a line [l] and that beginning ends inside a
    character of several bytes, [readline] raises [UnicodeDecodeError] at
    once: it does not sleep and does not ask whether the child has exited
    (the ticks are left as they are). So it does not start again at the
    same offset when the child is still running, although the whole line
    would have been returned once written, and the error it raises when
    the child has exited is not the one that carries the exit status. *)
Theorem readline_raises_inside_a_character l have later tk pre :
  whole_line l = true ->
  encode_utf8 l = (have ++ later)%list ->
  later <> [] ->
  utf8_valid have = false ->
  readline_go tk (pre ++ have) (List.length pre)
  = (Fail UnicodeDecodeError, (tk, (pre ++ have)%list, List.length pre + List.length have))
  /\ (forall t,
      appended t = later -> status t = None ->
      readline_go tk ((pre ++ have) ++ appended t) (List.length pre)
      = (Done l, (tk, ((pre ++ have) ++ appended t)%list,
                  List.length pre + List.length (encode_utf8 l)))
      /\ readline_go (t :: tk) (pre ++ have) (List.length pre)
         <> readline_go tk ((pre ++ have) ++ appended t) (List.length pre))
  /\ (forall t p,
      status t = Some p ->
      fst (readline_go (t :: tk) (pre ++ have) (List.length pre))
      <> Fail (RuntimeError ("process exited with status " ++ str_of_Z p))).
Proof.
  intros Hw He Hl Hv.
  assert (Hn : no_line_feed have = true).
  { unfold whole_line in Hw. apply andb_true_iff in Hw as [_ Ho].
    rewrite He in Ho. exact (one_line_beginning _ _ Ho Hl). }
  assert (Hraise : forall tk0,
            readline_go tk0 (pre ++ have) (List.length pre)
            = (Fail UnicodeDecodeError,
               (tk0, (pre ++ have)%list, List.length pre + List.length have))).
  { intros tk0. rewrite readline_go_eq. cbv zeta. unfold file_readline.
    rewrite skipn_length_app, (no_line_feed_take_line _ Hn).
    unfold decode_utf8. rewrite Hv. reflexivity. }
  split; [apply Hraise|]. split.
  - intros t Ha _.
    assert (Hdone : readline_go tk ((pre ++ have) ++ appended t) (List.length pre)
                    = (Done l, (tk, ((pre ++ have) ++ appended t)%list,
                                List.length pre + List.length (encode_utf8 l)))).
    { rewrite Ha, <- app_assoc, <- He.
      rewrite <- (app_nil_r (encode_utf8 l)) at 1 2.
      apply (readline_go_whole_line tk pre l [] Hw). }
    split; [exact Hdone|]. rewrite Hraise, Hdone. discriminate.
  - intros t p _. rewrite Hraise. cbn [fst]. discriminate.
Qed.

(** An instance of C9 on the code: the file holds the first two bytes of
    the euro sign; the child would write the third and the line feed
    during the next sleep. *)
Lemma readline_raises_inside_a_character_witness :
  readline_go [Sample.completes_euro] Sample.half_euro 0
  = (Fail UnicodeDecodeError, ([Sample.completes_euro], Sample.half_euro, 2))
  /\ readline_go [] (Sample.half_euro ++ Sample.rest_of_euro) 0
     = (Done Sample.euro_line, ([], (Sample.half_euro ++ Sample.rest_of_euro)%list, 4))
  /\ fst (readline_go [Sample.exits_3] Sample.half_euro 0)
     <> Fail (RuntimeError "process exited with status 3").
Proof.
  split; [|split].
  - apply (proj1 (readline_raises_inside_a_character Sample.euro_line Sample.half_euro
                    Sample.rest_of_euro [Sample.completes_euro] []
                    eq_refl eq_refl ltac:(discriminate) eq_refl)).
  - apply (proj1 (proj1 (proj2 (readline_raises_inside_a_character Sample.euro_line
                    Sample.half_euro Sample.rest_of_euro [] []
                    eq_refl eq_refl ltac:(discriminate) eq_refl))
                    Sample.completes_euro eq_refl eq_refl)).
  - apply (proj2 (proj2 (readline_raises_inside_a_character Sample.euro_line
                    Sample.half_euro Sample.rest_of_euro [] []
                    eq_refl eq_refl ltac:(discriminate) eq_refl))
                    Sample.exits_3 3%Z eq_refl).
Defined.

(** X13. [ReadEvents.__init__] ends only when the events file exists, and
    at once when it already does; it never raises and never looks at the
    child: in a window in which the child does not write, it is still
    waiting, whatever status the child has. *)
Theorem open_waits_for_the_file :
  (forall tk b, open_go tk (Some b) = (Done tt, (tk, Some b)))
  /\ (forall tk, Forall (fun t => written t = None) tk ->
      open_go tk None = (Blocked, ([], None)))
  /\ (forall tk file r tk' file', open_go tk file = (r, (tk', file')) ->
      (r = Done tt /\ file' <> None) \/ (r = Blocked /\ file' = None /\ tk' = [])).
Proof.
  split; [|split].
  - intros tk b. destruct tk; reflexivity.
  - induction 1 as [|t tk Ht _ IH]; cbn [open_go]; [reflexivity|].
    unfold apply_written. rewrite Ht. exact IH.
  - induction tk as [|t tk IH]; intros file r tk' file'; cbn [open_go].
    + destruct file as [b|]; intros H; injection H as <- <- <-.
      * left. split; [reflexivity | discriminate].
      * right. auto.
    + destruct file as [b|].
      * intros H; injection H as <- <- <-. left. split; [reflexivity | discriminate].
      * apply IH.
Qed.

(** An instance of X13: the child exits without writing. *)
Lemma open_waits_for_the_file_witness :
  open_go [Sample.exits_3; Sample.exits_3] None = (Blocked, ([], None)).
Proof.
  apply (proj1 (proj2 open_waits_for_the_file) [Sample.exits_3; Sample.exits_3]).
  repeat constructor.
Defined.


(** ** The sums of [main] *)

Lemma total_from f jvms : forall acc,
  fold_left (fun a jvm => (a + f jvm)%Z) jvms acc = (acc + total f jvms)%Z.
Proof.
  unfold total. induction jvms as [|j jvms IH]; intros acc; cbn [fold_left].
  - lia.
  - rewrite IH, (IH (0 + f j)%Z). lia.
Qed.

Lemma total_cons f j jvms : total f (j :: jvms) = (f j + total f jvms)%Z.
Proof. unfold total at 1. cbn [fold_left]. rewrite total_from. lia. Qed.

(** X14. The sums [main] takes over the joined workers do not depend on
    the order of the workers; and when every worker has
    [0 <= failCount <= suiteCount], so have the sums. *)
Theorem totals_of_the_workers :
  (forall f a b, Permutation a b -> total f a = total f b)
  /\ (forall jvms,
      Forall (fun j => (0 <= failCount j <= suiteCount j)%Z) jvms ->
      (0 <= total failCount jvms <= total suiteCount jvms)%Z).
Proof.
  split.
  - intros f a b H. induction H.
    + reflexivity.
    + rewrite !total_cons. lia.
    + rewrite !total_cons. lia.
    + congruence.
  - induction 1 as [|j jvms Hj _ IH].
    + unfold total. cbn. lia.
    + rewrite !total_cons. lia.
Qed.

(** An instance of X14. *)
Lemma totals_of_the_workers_witness :
  total suiteCount [self Case.worker_end; self Case.worker]
  = total suiteCount [self Case.worker; self Case.worker_end]
  /\ (0 <= total failCount [self Case.worker_end]
       <= total suiteCount [self Case.worker_end])%Z.
Proof.
  split.
  - apply (proj1 totals_of_the_workers). apply perm_swap.
  - apply (proj2 totals_of_the_workers). repeat constructor; vm_compute; discriminate.
Defined.

(** X15. With [-verbose] on the command line of a test target, every
    child is started with [-Dtests.verbose=true]. *)
Theorem verbose_reaches_every_child env what upto argv p :
  plan_tests env what upto argv = Ok p ->
  In "-verbose" argv ->
  Forall (fun j => In "-Dtests.verbose=true" (build_cmd j)) (plan_jvms p).
Proof.
  intros Hp Hv. eapply Forall_impl; [|apply (plan_tests_workers _ _ _ _ _ Hp)].
  cbn beta. intros j (_ & Hj & _).
  apply existsb_eqb_In in Hv. rewrite Hv in Hj.
  unfold build_cmd. rewrite Hj. cbn [app]. do 4 right. left. reflexivity.
Qed.

(** An instance of X15. *)
Lemma verbose_reaches_every_child_witness :
  Forall (fun j => In "-Dtests.verbose=true" (build_cmd j))
    (plan_jvms (Sample.plan_of (Sample.env_of Sample.one_class 4 Sample.passing_ticks)
                  ["build.py"; "test"; "-verbose"])).
Proof.
  apply (verbose_reaches_every_child
           (Sample.env_of Sample.one_class 4 Sample.passing_ticks) "test" 2
           ["build.py"; "test"; "-verbose"]).
  - vm_compute. reflexivity.
  - right. right. left. reflexivity.
Defined.


(** ** The loop over the targets *)

(** X20. A test target that falls through leaves [upto] strictly closer
    to the end of [sys.argv], so the loop of [main] over the targets ends
    within as many turns as [sys.argv] has items: the script always ends,
    normally or with an exception. *)
Theorem target_loop_ends :
  (forall env upto argv out upto' argv',
     upto < List.length argv ->
     test_target env (nth upto argv "") (upto + 1) argv = (out, Ok (upto', argv')) ->
     List.length argv' - upto' < List.length argv - upto)
  /\ (forall fuel env upto argv,
     List.length argv - upto <= fuel ->
     exists status, exit_status (snd (main_loop fuel env upto argv)) = Some status)
  /\ (forall env argv, exists status, exit_status (snd (script env argv)) = Some status).
Proof.
  split; [|split].
  - intros. eapply test_target_progress; eassumption.
  - intros. apply main_loop_ends. assumption.
  - apply script_ends.
Qed.

(** An instance of X20: the suite without tests, with [package] as the
    next target. *)
Lemma target_loop_ends_witness :
  exists status,
    exit_status
      (snd (main_loop 2 (Sample.env_of Sample.one_class 4 Sample.quiet_ticks) 1
              ["build.py"; "test"; "package"]))
    = Some status.
Proof.
  apply (proj1 (proj2 target_loop_ends) 2
           (Sample.env_of Sample.one_class 4 Sample.quiet_ticks) 1
           ["build.py"; "test"; "package"]).
  cbn. lia.
Defined.

(** ** The name of the test case *)

Lemma one_byte_not_cont c : (code c <? 128)%N = true -> is_cont_char c = false.
Proof.
  unfold is_cont_char. intros H. apply N.ltb_lt in H.
  destruct (128 <=? code c)%N eqn:E; [apply N.leb_le in E; lia | reflexivity].
Qed.

Lemma one_byte_app a b :
  one_byte_chars (a ++ b) = one_byte_chars a && one_byte_chars b.
Proof.
  induction a as [|c a IH]; [reflexivity|]. cbn [append one_byte_chars].
  rewrite IH. apply andb_assoc.
Qed.

Lemma skip_cont_one_byte s : one_byte_chars s = true -> skip_cont s = s.
Proof.
  destruct s as [|c r]; [reflexivity|]. cbn [one_byte_chars skip_cont].
  intros H. apply andb_true_iff in H as [H _]. rewrite (one_byte_not_cont _ H). reflexivity.
Qed.

Lemma take_cont_one_byte s : one_byte_chars s = true -> take_cont s = "".
Proof.
  destruct s as [|c r]; [reflexivity|]. cbn [one_byte_chars take_cont].
  intros H. apply andb_true_iff in H as [H _]. rewrite (one_byte_not_cont _ H). reflexivity.
Qed.

Lemma py_len_one_byte s : one_byte_chars s = true -> py_len s = String.length s.
Proof.
  induction s as [|c r IH]; [reflexivity|]. cbn [one_byte_chars py_len String.length].
  intros H. apply andb_true_iff in H as [H Hr].
  rewrite (one_byte_not_cont _ H), (IH Hr). reflexivity.
Qed.

Lemma py_drop_one_byte a : forall b,
  one_byte_chars (a ++ b) = true -> py_drop (String.length a) (a ++ b) = b.
Proof.
  induction a as [|c a IH]; intros b H; [reflexivity|].
  cbn [append String.length py_drop]. cbn [append one_byte_chars] in H.
  apply andb_true_iff in H as [_ H]. rewrite (skip_cont_one_byte _ H). apply IH, H.
Qed.

Lemma py_take_one_byte a : forall b,
  one_byte_chars (a ++ b) = true -> py_take (String.length a) (a ++ b) = a.
Proof.
  induction a as [|c a IH]; intros b H; [reflexivity|].
  cbn [append String.length py_take]. cbn [append one_byte_chars] in H.
  apply andb_true_iff in H as [_ H].
  rewrite (take_cont_one_byte _ H), (skip_cont_one_byte _ H), (IH _ H). reflexivity.
Qed.

Lemma prefix_char c d r : prefix (String c "") (String d r) = Ascii.eqb d c.
Proof.
  cbn [prefix]. destruct (ascii_dec c d) as [->|H].
  - rewrite Ascii.eqb_refl. destruct r; reflexivity.
  - destruct (Ascii.eqb_spec d c); [congruence | reflexivity].
Qed.

Lemma find_go_char c a : forall b idx,
  one_byte_chars a = true -> has_char c a = false ->
  find_go (String c "") (a ++ String c b) idx = (idx + Z.of_nat (String.length a))%Z.
Proof.
  induction a as [|d a IH]; intros b idx Ho Hc.
  - cbn [append find_go String.length]. rewrite prefix_char, Ascii.eqb_refl. cbn. lia.
  - cbn [append find_go String.length]. cbn [one_byte_chars has_char] in Ho, Hc.
    apply andb_true_iff in Ho as [Hd Ho]. apply orb_false_iff in Hc as [Hdc Hc].
    rewrite prefix_char, Hdc, (one_byte_not_cont _ Hd), (IH _ _ Ho Hc). lia.
Qed.

Lemma find_go_absent c s : forall idx,
  has_char c s = false -> find_go (String c "") s idx = (-1)%Z.
Proof.
  induction s as [|d s IH]; intros idx H.
  - reflexivity.
  - cbn [find_go]. cbn [has_char] in H. apply orb_false_iff in H as [Hd H].
    rewrite prefix_char, Hd. apply IH, H.
Qed.

Lemma has_char_app c a b : has_char c (a ++ b) = has_char c a || has_char c b.
Proof.
  induction a as [|d a IH]; [reflexivity|]. cbn [append has_char]. rewrite IH.
  apply orb_assoc.
Qed.

Lemma length_app_string a b : String.length (a ++ b) = String.length a + String.length b.
Proof. induction a as [|c a IH]; [reflexivity|]. cbn. now rewrite IH. Qed.
Lemma append_assoc_string a b c : (a ++ b) ++ c = a ++ (b ++ c).
Proof. induction a as [|x a IH]; [reflexivity|]. cbn. now rewrite IH. Qed.

Lemma method_name_of_description cls m args :
  one_byte_chars (cls ++ String "#" (m ++ String "(" args)) = true ->
  has_char "#" cls = false -> has_char "(" cls = false -> has_char "(" m = false ->
  method_name (cls ++ String "#" (m ++ String "(" args)) = m.
Proof.
  intros Ho Hc1 Hc2 Hm.
  pose proof Ho as Ho'. rewrite one_byte_app in Ho'.
  apply andb_true_iff in Ho' as [Hcls Hrest].
  cbn [one_byte_chars] in Hrest. apply andb_true_iff in Hrest as [Hsharp Hrest].
  pose proof Hrest as Hrest'. rewrite one_byte_app in Hrest'.
  apply andb_true_iff in Hrest' as [Hm1 _].
  unfold method_name, find.
  rewrite (find_go_char "#" cls _ 0 Hcls Hc1).
  assert (E : cls ++ String "#" (m ++ String "(" args)
              = (cls ++ String "#" m) ++ String "(" args).
  { rewrite append_assoc_string. reflexivity. }
  rewrite E at 1.
  rewrite (find_go_char "(" (cls ++ String "#" m) args 0).
  2:{ rewrite one_byte_app. cbn [one_byte_chars]. rewrite Hcls, Hsharp, Hm1. reflexivity. }
  2:{ rewrite has_char_app. cbn [has_char]. rewrite Hc2, Hm. reflexivity. }
  unfold py_slice. rewrite (py_len_one_byte _ Ho).
  unfold slice_bound.
  rewrite !length_app_string. cbn [String.length]. rewrite !length_app_string.
  cbn [String.length].
  set (n := String.length cls). set (k := String.length m). set (r := String.length args).
  replace (0 + Z.of_nat n + 1 <? 0)%Z with false by (symmetry; apply Z.ltb_ge; lia).
  replace (0 + Z.of_nat (n + S k) <? 0)%Z with false by (symmetry; apply Z.ltb_ge; lia).
  replace (Nat.min (n + S (k + S r)) (Z.to_nat (0 + Z.of_nat n + 1))) with (S n) by lia.
  replace (Nat.min (n + S (k + S r)) (Z.to_nat (0 + Z.of_nat (n + S k)))) with (n + S k) by lia.
  replace (n + S k - S n) with k by lia.
  assert (E2 : cls ++ String "#" (m ++ String "(" args)
               = (cls ++ "#") ++ (m ++ String "(" args)).
  { rewrite append_assoc_string. reflexivity. }
  rewrite E2 in Ho |- *.
  replace (S n) with (String.length (cls ++ "#")) by (rewrite length_app_string; cbn; lia).
  rewrite (py_drop_one_byte _ _ Ho).
  rewrite one_byte_app in Ho. apply andb_true_iff in Ho as [_ Ho].
  apply (py_take_one_byte m _ Ho).
Qed.

(** Without an opening parenthesis [find] answers -1, and the slice that
    ends at -1 leaves out the last character. *)
Lemma method_name_without_parenthesis m c :
  one_byte_chars (m ++ String c "") = true ->
  has_char "#" (m ++ String c "") = false -> has_char "(" (m ++ String c "") = false ->
  method_name (m ++ String c "") = m.
Proof.
  intros Ho H1 H2. unfold method_name, find.
  rewrite (find_go_absent _ _ 0 H1), (find_go_absent _ _ 0 H2).
  unfold py_slice. rewrite (py_len_one_byte _ Ho), length_app_string. cbn [String.length].
  unfold slice_bound.
  change (-1 + 1 <? 0)%Z with false. change (-1 <? 0)%Z with true. cbv iota.
  set (k := String.length m).
  replace (Nat.min (k + 1) (Z.to_nat (-1 + 1))) with 0 by lia.
  replace (Nat.min (k + 1) (Z.to_nat (-1 + Z.of_nat (k + 1)))) with k by lia.
  rewrite Nat.sub_0_r. cbn [py_drop]. apply (py_take_one_byte m _ Ho).
Qed.

Lemma method_name_junit_style m args :
  one_byte_chars (m ++ String "(" args) = true ->
  has_char "#" (m ++ String "(" args) = false -> has_char "(" m = false ->
  method_name (m ++ String "(" args) = m.
Proof.
  intros Ho H1 H2. unfold method_name, find.
  rewrite (find_go_absent _ _ 0 H1).
  pose proof Ho as Ho'. rewrite one_byte_app in Ho'.
  apply andb_true_iff in Ho' as [Hm _].
  rewrite (find_go_char "(" m args 0 Hm H2).
  unfold py_slice. rewrite (py_len_one_byte _ Ho), length_app_string. cbn [String.length].
  unfold slice_bound. change (-1 + 1 <? 0)%Z with false.
  set (k := String.length m). set (r := String.length args).
  replace (0 + Z.of_nat k <? 0)%Z with false by (symmetry; apply Z.ltb_ge; lia).
  replace (Nat.min (k + S r) (Z.to_nat (-1 + 1))) with 0 by lia.
  replace (Nat.min (k + S r) (Z.to_nat (0 + Z.of_nat k))) with k by lia.
  rewrite Nat.sub_0_r. cbn [py_drop]. apply (py_take_one_byte m _ Ho).
Qed.

Lemma dispatch_started py_str job desc d rest loc s :
  lookup "description" d = Some (JStr desc) ->
  dispatch py_str job (JList (JStr "TEST_STARTED" :: JDict d :: rest)) loc s
  = (Done (Continue,
           mkLocals (lines loc) (pendingOutput loc) (didFail loc) false
                    (Some (method_name desc))),
     set_self (set_testCount (testCount (self s) + 1) (self s)) s).
Proof.
  intros Hd. unfold dispatch, mbind, lift, modify, ret.
  cbn [getitem_int list_getitem nth_error in_strs existsb is_str String.eqb Ascii.eqb
       Bool.eqb orb getitem_str bind].
  rewrite Hd. reflexivity.
Qed.

(** X16. A [TEST_STARTED] frame with a description of one-byte characters
    adds one to [testCount], clears the mark of a failed test case and
    sets the name: for [Class#method(args)] and for [method(args)] it is
    [method]; for a description without [#] and without an opening
    parenthesis it is the description without its last character. *)
Theorem test_started_names_the_case py_str job desc d rest loc s :
  lookup "description" d = Some (JStr desc) ->
  one_byte_chars desc = true ->
  exists name,
    dispatch py_str job (JList (JStr "TEST_STARTED" :: JDict d :: rest)) loc s
    = (Done (Continue,
             mkLocals (lines loc) (pendingOutput loc) (didFail loc) false (Some name)),
       set_self (set_testCount (testCount (self s) + 1) (self s)) s)
    /\ (forall cls m args, desc = cls ++ String "#" (m ++ String "(" args) ->
        has_char "#" cls = false -> has_char "(" cls = false -> has_char "(" m = false ->
        name = m)
    /\ (forall m args, desc = m ++ String "(" args ->
        has_char "#" desc = false -> has_char "(" m = false -> name = m)
    /\ (forall m c, desc = m ++ String c "" ->
        has_char "#" desc = false -> has_char "(" desc = false -> name = m).
Proof.
  intros Hd Ho. exists (method_name desc). split; [apply dispatch_started, Hd|].
  split; [|split].
  - intros cls m args -> H1 H2 H3. apply method_name_of_description; assumption.
  - intros m args -> H1 H2. apply method_name_junit_style; assumption.
  - intros m c -> H1 H2. apply method_name_without_parenthesis; assumption.
Qed.

(** An instance of X16: the sample frame. *)
Lemma test_started_names_the_case_witness :
  exists name,
    dispatch Sample.no_str "org.TestFoo" Sample.started_frame fresh_locals Sample.at_start
    = (Done (Continue, mkLocals [] [] false false (Some name)),
       set_self (set_testCount (testCount (self Sample.at_start) + 1) (self Sample.at_start))
         Sample.at_start)
    /\ (forall cls m args,
          "TestFoo#testA(TestFoo)" = cls ++ String "#" (m ++ String "(" args) ->
          has_char "#" cls = false -> has_char "(" cls = false -> has_char "(" m = false ->
          name = m)
    /\ (forall m args, "TestFoo#testA(TestFoo)" = m ++ String "(" args ->
          has_char "#" "TestFoo#testA(TestFoo)" = false -> has_char "(" m = false ->
          name = m)
    /\ (forall m c, "TestFoo#testA(TestFoo)" = m ++ String c "" ->
          has_char "#" "TestFoo#testA(TestFoo)" = false ->
          has_char "(" "TestFoo#testA(TestFoo)" = false -> name = m).
Proof.
  apply (test_started_names_the_case Sample.no_str "org.TestFoo" "TestFoo#testA(TestFoo)"
           [("description", JStr "TestFoo#testA(TestFoo)")] [] fresh_locals Sample.at_start);
    reflexivity.
Defined.

(** ** Incremental building *)

Section BuildFacts.

Variable time : Type.
Variable newer : time -> time -> bool.
Variable fs : Build.Files time.

Lemma newer_in_false root files t1 :
  Build.newer_in time newer fs root files t1 = Ok false
  <-> Forall (Build.not_newer time newer fs t1) (map (fun f => root ++ "/" ++ f) files).
Proof.
  induction files as [|f files IH]; cbn [Build.newer_in map].
  - split; [constructor | reflexivity].
  - destruct (Build.getmtime time fs (root ++ "/" ++ f)) as [t|e] eqn:Ht; cbn [bind].
    + destruct (newer t t1) eqn:Hn.
      * split; [discriminate|]. intros H. inversion H as [|? ? (t' & E & N) _]; subst.
        change (Build.getmtime time fs (root ++ "/" ++ f) = Ok t') in E.
        rewrite Ht in E. injection E as <-. congruence.
      * rewrite IH. split.
        { intros H. constructor; [exists t; auto | exact H]. }
        { intros H. inversion H; assumption. }
    + split; [discriminate|]. intros H. inversion H as [|? ? (t' & E & N) _]; subst.
      change (Build.getmtime time fs (root ++ "/" ++ f) = Ok t') in E.
      rewrite Ht in E. discriminate.
Qed.

Lemma newer_under_false dirs t1 :
  Build.newer_under time newer fs dirs t1 = Ok false
  <-> Forall (Build.not_newer time newer fs t1) (Build.paths_of dirs).
Proof.
  induction dirs as [|[root files] dirs IH]; cbn [Build.newer_under Build.paths_of flat_map fst snd].
  - split; [constructor | reflexivity].
  - fold (Build.paths_of dirs). rewrite Forall_app, <- IH, <- newer_in_false.
    destruct (Build.newer_in time newer fs root files t1) as [[|]|e]; cbn [bind].
    + split; [discriminate | intros [H _]; discriminate].
    + split; [auto | intros [_ H]; exact H].
    + split; [discriminate | intros [H _]; discriminate].
Qed.

(** X17. [anyChanges] answers [True] without looking further when the
    JAR is missing; it answers [False] exactly when the JAR exists, its
    time can be read, and the time of every file under the source
    directory can be read and is not after it. *)
Theorem anyChanges_spec srcDir destJAR :
  (Build.exists_ time fs destJAR = false ->
   Build.anyChanges time newer fs srcDir destJAR = Ok true)
  /\ (Build.anyChanges time newer fs srcDir destJAR = Ok false
      <-> Build.exists_ time fs destJAR = true
          /\ exists t1, Build.getmtime time fs destJAR = Ok t1
             /\ Forall (Build.not_newer time newer fs t1) (Build.paths_of (Build.walk_ time fs srcDir))).
Proof.
  unfold Build.anyChanges. split.
  - intros ->. reflexivity.
  - destruct (Build.exists_ time fs destJAR); cbn [negb].
    + destruct (Build.getmtime time fs destJAR) as [t1|e]; cbn [bind].
      * rewrite newer_under_false. split.
        { intros H. split; [reflexivity|]. exists t1. auto. }
        { intros (_ & t & E & H). injection E as <-. exact H. }
      * split; [discriminate|]. intros (_ & t & E & _). discriminate.
    + split; [discriminate|]. intros [H _]. discriminate.
Qed.

Variable shell : string -> result unit.

Lemma changed_in_none root files acc :
  Forall (Build.up_to_date time newer fs root) files ->
  Build.changed_in time newer fs root files acc = Ok acc.
Proof.
  induction 1 as [|f files Hf _ IH]; cbn [Build.changed_in]; [reflexivity|].
  destruct Hf as [-> | Hc].
  - exact IH.
  - rewrite Hc. cbn [bind]. destruct (endswith f ".java"); exact IH.
Qed.

Lemma changed_under_none dirs acc :
  Forall (fun d => Forall (Build.up_to_date time newer fs (fst d)) (snd d)) dirs ->
  Build.changed_under time newer fs dirs acc = Ok acc.
Proof.
  induction 1 as [|[root files] dirs Hd _ IH]; cbn [Build.changed_under]; [reflexivity|].
  cbn [fst snd] in Hd. rewrite (changed_in_none _ _ _ Hd). cbn [bind]. exact IH.
Qed.

Lemma changed_in_grows root files : forall acc found,
  Build.changed_in time newer fs root files acc = Ok found ->
  exists more, found = (acc ++ more)%list
    /\ incl more (map (fun f => root ++ "/" ++ f) (filter (fun f => endswith f ".java") files)).
Proof.
  induction files as [|f files IH]; intros acc found; cbn [Build.changed_in filter map].
  - intros H. injection H as <-. exists []. rewrite app_nil_r. split; [reflexivity|].
    apply incl_nil_l.
  - destruct (endswith f ".java").
    + destruct (Build.is_changed time newer fs root f) as [[|]|e]; cbn [bind];
        [| |discriminate]; intros H; apply IH in H as (more & -> & Hi).
      * exists ((root ++ "/" ++ f) :: more). rewrite <- app_assoc. split; [reflexivity|].
        cbn [map]. intros x [<-|Hx]; [left; reflexivity | right; apply Hi, Hx].
      * exists more. split; [reflexivity|]. cbn [map]. apply incl_tl, Hi.
    + intros H. apply IH in H as (more & -> & Hi). exists more. auto.
Qed.

(** X18. When every Java source under the source path has a class file
    that is not older, [compileChangedSources] returns without running
    any command, whatever the shell would do. *)
Theorem compileChangedSources_up_to_date srcPath destPath classPath :
  Forall (fun d => Forall (Build.up_to_date time newer fs (fst d)) (snd d)) (Build.walk_ time fs srcPath) ->
  Build.compileChangedSources time newer fs shell srcPath destPath classPath = Ok tt.
Proof.
  intros H. unfold Build.compileChangedSources.
  rewrite (changed_under_none _ [] H). reflexivity.
Qed.

End BuildFacts.

(** An instance of X17: the JAR is newer than the sources. *)
Lemma anyChanges_spec_witness :
  Build.anyChanges Z Z.gtb Case.files "src/java" "missing.jar" = Ok true
  /\ Build.anyChanges Z Z.gtb Case.files "src/java" "out.jar" = Ok false.
Proof.
  split.
  - apply (proj1 (anyChanges_spec Z Z.gtb Case.files "src/java" "missing.jar")). reflexivity.
  - apply (proj2 (anyChanges_spec Z Z.gtb Case.files "src/java" "out.jar")).
    split; [reflexivity|]. exists 10%Z. split; [reflexivity|].
    repeat constructor; exists 5%Z; split; reflexivity.
Defined.

(** An instance of X18: nothing to compile, on a shell that would fail. *)
Lemma compileChangedSources_up_to_date_witness :
  Build.compileChangedSources Z Z.gtb Case.files Case.failing_shell
    "src/java" "build/classes/java" ["lib/a.jar"]
  = Ok tt.
Proof.
  apply (compileChangedSources_up_to_date Z Z.gtb Case.files Case.failing_shell).
  cbn [Build.walk_ Case.files]. constructor; [|constructor]. cbn [fst snd].
  constructor; [right; reflexivity|]. constructor; [left; reflexivity | constructor].
Defined.
